(** * reve-sdk: a shallow embedding of the image-generation client

    The development follows [src/index.ts] (class [ReveAI]) and
    [src/utils/helpers.ts].  JavaScript values that come back from the
    service are kept as an untyped JSON tree, because the client inspects
    them with truthiness tests and optional property reads; network calls,
    waits and random draws are threaded through a small state-and-exception
    monad whose state is the trace of what the client did. *)

From Stdlib Require Import ZArith List String Ascii Bool Lia DecimalString.
Import ListNotations.

Local Open Scope string_scope.
Local Open Scope list_scope.
Local Open Scope Z_scope.
Set Warnings "-register-all".

(** ** JavaScript values *)

(** Numbers are the integers among the JavaScript numbers: widths, heights,
    seeds, batch sizes and HTTP status codes.  NaN and fractions are not
    modelled. *)
Inductive value : Type :=
| VUndefined
| VNull
| VBool (b : bool)
| VNum (n : Z)
| VStr (s : string)
| VArr (items : list value)
| VObj (fields : list (string * value)).

(** Modelled from the spec: the module [./types] is not among the sources.
    The kinds of error are those of the taxonomy of section 7, under the
    names index.ts and helpers.ts use for them; a [ReveAIError] carries a
    message, a kind and, when there is one, an HTTP status code. *)
Inductive ReveAIErrorType : Type :=
| AUTHENTICATION_ERROR
| API_ERROR
| REQUEST_ERROR
| TIMEOUT_ERROR
| GENERATION_ERROR
| POLLING_ERROR
| UNEXPECTED_RESPONSE
| UNKNOWN_ERROR.

Record ReveAIError : Type := mkReveAIError {
  message : string;
  type : ReveAIErrorType;
  statusCode : option Z
}.

(** What helpers.ts reads of an error of the HTTP transport. *)
Record AxiosError : Type := mkAxiosError {
  ax_message : string;            (* error.message *)
  ax_code : option string;        (* error.code *)
  ax_status : option Z;           (* error.response?.status *)
  ax_data_message : value         (* error.response?.data?.message *)
}.

(** What a [throw] carries: a [ReveAIError], an error produced by the HTTP
    transport ([isAxiosError]), or any other [Error] (a [TypeError] from a
    property read on [undefined], for instance). *)
Inductive exn : Type :=
| ThrownReve (e : ReveAIError)
| ThrownAxios (e : AxiosError)
| ThrownError (msg : string).

Inductive result (A : Type) : Type :=
| Returns (a : A)
| Throws (e : exn).
Arguments Returns {A} a.
Arguments Throws {A} e.

Definition truthy (v : value) : bool :=
  match v with
  | VUndefined | VNull => false
  | VBool b => b
  | VNum n => negb (n =? 0)
  | VStr s => negb (String.eqb s EmptyString)
  | VArr _ | VObj _ => true
  end.

Fixpoint assoc (k : string) (fs : list (string * value)) : value :=
  match fs with
  | [] => VUndefined
  | (k', v) :: rest => if String.eqb k k' then v else assoc k rest
  end.

(** [o.k]: a read on [undefined] or [null] throws, a read on an object
    yields the property or [undefined]; none of the names the client reads
    is a built-in property of a string, number, boolean or array. *)
Definition member (o : value) (k : string) : result value :=
  match o with
  | VUndefined | VNull =>
      Throws (ThrownError ("Cannot read properties of undefined (reading '" ++ k ++ "')"))
  | VObj fs => Returns (assoc k fs)
  | _ => Returns VUndefined
  end.

(** [o?.k] *)
Definition member_opt (o : value) (k : string) : value :=
  match o with
  | VObj fs => assoc k fs
  | _ => VUndefined
  end.


(** [a === b].  Two objects are equal only when they are the same object;
    every comparison the client makes is between values of different
    responses or with a literal, so objects never compare equal. *)
Definition strict_eq (a b : value) : bool :=
  match a, b with
  | VUndefined, VUndefined => true
  | VNull, VNull => true
  | VBool x, VBool y => Bool.eqb x y
  | VNum x, VNum y => x =? y
  | VStr x, VStr y => String.eqb x y
  | _, _ => false
  end.

Definition string_of_Z (n : Z) : string :=
  NilZero.string_of_int (Z.to_int n).

(** The string a value becomes inside a template literal. *)
Fixpoint to_string (v : value) : string :=
  match v with
  | VUndefined => "undefined"
  | VNull => "null"
  | VBool true => "true"
  | VBool false => "false"
  | VNum n => string_of_Z n
  | VStr s => s
  | VArr l =>
      String.concat ","
        (map (fun x => match x with
                       | VUndefined | VNull => EmptyString
                       | _ => to_string x
                       end) l)
  | VObj _ => "[object Object]"
  end.

(** [s.includes(t)] *)
Fixpoint includes (s t : string) : bool :=
  if String.prefix t s then true
  else match s with
       | EmptyString => false
       | String _ s' => includes s' t
       end.

Definition dquote : string := String (ascii_of_nat 34) EmptyString.

(** [a || b] on values *)
Definition or_else (a b : value) : value := if truthy a then a else b.

(** ** helpers.ts *)

(** [validateImageOptions(width?, height?, batchSize?)]: [None] is an
    omitted argument.  [Throws] carries the error the function throws. *)
Definition bad_dimension (d : option Z) : bool :=
  match d with
  | None => false
  | Some w => negb (w =? 0) && ((w <? 384) || (w >? 1024) || negb (Z.rem w 8 =? 0))
  end.

Definition validateImageOptions (width height batchSize : option Z) : result unit :=
  if bad_dimension width then
    Throws (ThrownReve (mkReveAIError
      "Width must be between 384 and 1024 and be divisible by 8"
      GENERATION_ERROR None))
  else if bad_dimension height then
    Throws (ThrownReve (mkReveAIError
      "Height must be between 384 and 1024 and be divisible by 8"
      GENERATION_ERROR None))
  else match batchSize with
       | Some b =>
           if (b <? 1) || (b >? 8) then
             Throws (ThrownReve (mkReveAIError
               "Batch size must be between 1 and 8"
               GENERATION_ERROR None))
           else Returns tt
       | None => Returns tt
       end.

(** [handleAxiosError(error, operation, verbose)].  [errorDetails] is the
    request/response dump appended to the message in verbose mode. *)
Section Helpers.
Variable errorDetails : AxiosError -> string.

Definition with_details (verbose : bool) (e : AxiosError) (msg : string) : string :=
  if verbose then (msg ++ errorDetails e)%string else msg.

Definition status_is (st : option Z) (n : Z) : bool :=
  match st with Some s => s =? n | None => false end.

Definition handleAxiosError (error : exn) (operation : string) (verbose : bool)
  : ReveAIError :=
  match error with
  | ThrownReve e => e
  | ThrownAxios ax =>
      let statusCode := ax_status ax in
      let said := to_string (or_else (ax_data_message ax) (VStr (ax_message ax))) in
      if status_is statusCode 401 || status_is statusCode 403 then
        mkReveAIError
          (with_details verbose ax ("Authentication error: " ++ said))
          AUTHENTICATION_ERROR statusCode
      else if match ax_code ax with
              | Some c => String.eqb c "ECONNABORTED"
              | None => false
              end || includes (ax_message ax) "timeout" then
        mkReveAIError
          (with_details verbose ax ("Request timed out during " ++ operation))
          TIMEOUT_ERROR None
      else if includes (ax_message ax) "Network Error" then
        mkReveAIError
          (with_details verbose ax
             ("Network error during " ++ operation ++ ": " ++ ax_message ax))
          REQUEST_ERROR None
      else if match statusCode with
              | Some s => negb (s =? 0) && (s >=? 400)
              | None => false
              end then
        mkReveAIError
          (with_details verbose ax ("API error during " ++ operation ++ ": " ++ said))
          API_ERROR statusCode
      else
        mkReveAIError
          (with_details verbose ax
             ("Request error during " ++ operation ++ ": " ++ ax_message ax))
          REQUEST_ERROR statusCode
  | ThrownError msg =>
      mkReveAIError ("Error during " ++ operation ++ ": " ++ msg) UNKNOWN_ERROR None
  end.
End Helpers.

(** ** The world the client talks to *)

(** A [Math.random()] result, a fraction [numer/denom] of the unit
    interval; [floor_mul u n] is [Math.floor(u * n)]. *)
Record unit_draw : Type := mkDraw { numer : Z; denom : Z }.

Definition in_unit (u : unit_draw) : Prop := 0 <= numer u < denom u.

Definition floor_mul (u : unit_draw) (n : Z) : Z := (numer u * n) / denom u.

Record EnhancePayload : Type := mkEnhancePayload {
  num_variants : Z;
  enh_prompt : string;
  model_id : string;
  project_id : value
}.

Record GenerationPayload : Type := mkGenerationPayload {
  aspectRatio : string;
  instruction : string;
  optimizeEnabled : bool;
  unexpandedPrompt : string;
  caption : value;
  pl_height : Z;
  negative_caption : string;
  pl_seed : Z;
  pl_width : Z;
  inference_model : string;
  node_id : string
}.

(** One constructor per endpoint; the arguments are what the URL and the
    body are built from. *)
Inductive request : Type :=
| GetProjects                                                   (* GET  /api/projects *)
| PostEnhance (payload : EnhancePayload)                        (* POST /api/misc/model_infer_sync *)
| PostGeneration (projectId : value) (payload : GenerationPayload)
                                                                (* POST /api/project/{id}/generation *)
| GetNode (projectId : value)                                   (* GET  /api/project/{id}/node *)
| GetImage (projectId imageId : value).                         (* GET  /api/project/{id}/image/{img}/url *)

Record response : Type := mkResponse { data : value; headers : value }.

Inductive event : Type :=
| Call (r : request)       (* a request handed to the transport *)
| Delay (ms : Z).          (* await delay(ms) *)

(** What one thread of control (the orchestrator, or one job pipeline)
    meets: the outcome of its k-th request, its k-th random draw, and the
    identifier [crypto.randomUUID()] gives it ([None] when the platform
    lacks it and the fallback built from the clock and a random draw is
    used). *)
Record World : Type := mkWorld {
  net : nat -> request -> result response;
  random : nat -> unit_draw;
  randomUUID : option string;
  fallbackId : unit_draw -> string
}.

Record St : Type := mkSt {
  trace : list event;
  calls : nat;
  draws : nat
}.

Definition init : St := mkSt [] 0 0.

(** State and exceptions: the trace survives a [throw]. *)
Definition M (A : Type) : Type := World -> St -> result A * St.

Definition ret {A} (a : A) : M A := fun _ s => (Returns a, s).

Definition throw {A} (e : exn) : M A := fun _ s => (Throws e, s).

Definition bind {A B} (c : M A) (k : A -> M B) : M B :=
  fun w s =>
    match c w s with
    | (Returns a, s') => k a w s'
    | (Throws e, s') => (Throws e, s')
    end.

Definition try_catch {A} (c : M A) (h : exn -> M A) : M A :=
  fun w s =>
    match c w s with
    | (Returns a, s') => (Returns a, s')
    | (Throws e, s') => h e w s'
    end.

Definition lift {A} (r : result A) : M A := fun _ s => (r, s).

Definition call (r : request) : M response :=
  fun w s =>
    (net w (calls s) r,
     mkSt (trace s ++ [Call r]) (S (calls s)) (draws s)).

Definition delay (ms : Z) : M unit :=
  fun _ s => (Returns tt, mkSt (trace s ++ [Delay ms]) (calls s) (draws s)).

Definition Math_random : M unit_draw :=
  fun w s =>
    (Returns (random w (draws s)),
     mkSt (trace s) (calls s) (S (draws s))).

Declare Scope monad_scope.
Delimit Scope monad_scope with monad.
Notation "x <- c ;; k" := (bind c (fun x => k))
  (at level 61, c at next level, right associativity) : monad_scope.
Notation "c ;;; k" := (bind c (fun _ => k))
  (at level 61, right associativity) : monad_scope.

(** The same sequencing for pure code that can throw. *)
Definition rbind {A B} (r : result A) (k : A -> result B) : result B :=
  match r with
  | Returns a => k a
  | Throws e => Throws e
  end.
Notation "x <~ c ;; k" := (rbind c (fun x => k))
  (at level 61, c at next level, right associativity).

(** [a && a.k] *)
Definition and_member (a : value) (k : string) : result value :=
  if truthy a then member a k else Returns a.

(** ** index.ts: class ReveAI *)

(** Modelled from the spec: the interfaces [ReveAIOptions],
    [GenerateImageOptions] and [GenerateImageResult] of [./types] are not
    among the sources; the fields are those index.ts reads and writes, with
    the types of section 3.  [ReveAIOptions] is [this.options] after the
    constructor has filled in the defaults, as far as the methods below read
    it. *)
Record ReveAIOptions : Type := mkReveAIOptions {
  projectId : option string;
  maxPollingAttempts : Z;
  pollingInterval : Z;
  verbose : bool
}.

(** Modelled from the spec: the request (section 3, GenerationRequest);
    [None] is a property the caller left out. *)
Record GenerateImageOptions : Type := mkGenerateImageOptions {
  prompt : string;
  negativePrompt : option string;
  width : option Z;
  height : option Z;
  batchSize : option Z;
  seed : option Z;
  model : option string;
  enhancePrompt_opt : option bool      (* options.enhancePrompt *)
}.

(** What [pollGenerationStatus] resolves with. *)
Record PollResult : Type := mkPollResult {
  pr_imageUrls : list string;
  pr_seed : value
}.

(** What [generateSingleImage] resolves with; an absent [enhancedPrompt]
    is [VUndefined]. *)
Record SingleResult : Type := mkSingleResult {
  imageUrl : value;
  sr_seed : value;
  sr_enhancedPrompt : value
}.

(** Modelled from the spec: the result (section 3, BatchResult), with the
    properties generateImage gives it.  [None] is a property that is absent
    or [undefined]. *)
Record GenerateImageResult : Type := mkGenerateImageResult {
  imageUrls : list value;
  res_seed : value;
  completedAt : Z;
  res_prompt : string;
  res_enhancedPrompt : option value;
  res_enhancedPrompts : option (list value);
  res_negativePrompt : option string
}.

(** [s || dflt] on an optional string *)
Definition str_or (s : option string) (dflt : string) : string :=
  match s with
  | Some x => if String.eqb x EmptyString then dflt else x
  | None => dflt
  end.

(** [n || dflt] on an optional number *)
Definition num_or (n : option Z) (dflt : Z) : Z :=
  match n with
  | Some x => if x =? 0 then dflt else x
  | None => dflt
  end.

(** [b ?? dflt] on an optional boolean *)
Definition bool_or (b : option bool) (dflt : bool) : bool :=
  match b with Some x => x | None => dflt end.

Fixpoint last_or_undefined (l : list value) : value :=
  match l with
  | [] => VUndefined
  | [x] => x
  | _ :: rest => last_or_undefined rest
  end.

(** [list.find(item => item.node && item.node.id === generationId)] *)
Fixpoint find_generation (items : list value) (generationId : value) : result value :=
  match items with
  | [] => Returns VUndefined
  | item :: rest =>
      node <~ member item "node" ;;
      hit <~ (if truthy node
              then (id <~ member node "id" ;; Returns (strict_eq id generationId))
              else Returns false) ;;
      if hit : bool then Returns item else find_generation rest generationId
  end.

(** The generation id in a submission response: [create.node.id] if it is
    there, else [generation_id], else [null]. *)
Definition extractGenerationId (d : value) : result value :=
  create <~ member d "create" ;;
  node <~ and_member create "node" ;;
  id <~ and_member node "id" ;;
  if truthy id then Returns id
  else
    gid <~ member d "generation_id" ;;
    if truthy gid then Returns gid else Returns VNull.

(** Where [generateSingleImage] stands once the submission has been
    answered: it returns the fixed result of the test environment, or it
    goes on to poll for [generationId]. *)
Inductive Submission : Type :=
| TestStub
| Submitted (projectId generationId finalPrompt : value).

Section Client.
(** The platform: the verbose error dump, [JSON.stringify],
    [Buffer.from(data).toString('base64')] (which throws on some inputs)
    and the flag [IS_TEST_ENV = (process.env.NODE_ENV === 'test')]. *)
Variable errorDetails : AxiosError -> string.
Variable JSON_stringify : value -> string.
Variable Buffer_base64 : value -> result string.
Variable IS_TEST_ENV : bool.

(** [this.options] *)
Variable this : ReveAIOptions.

Local Open Scope monad_scope.

Definition fetchProjectId : M value :=
  try_catch
    (response <- call GetProjects ;;
     match data response with
     | VArr (first :: _) =>
         id <- lift (member first "id") ;;
         ret id
     | _ =>
         throw (ThrownReve (mkReveAIError
           ("No projects found. Please provide a projectId in the options. You can find your project ID in the browser network tab when making requests to "
            ++ dquote ++ "/api/project/{projectId}/generation" ++ dquote ++ ".")
           API_ERROR None))
     end)
    (fun error =>
       match error with
       | ThrownReve _ => throw error
       | ThrownAxios ax =>
           if status_is (ax_status ax) 404 then
             throw (ThrownReve (mkReveAIError
               "Cannot auto-detect project ID. The /api/projects endpoint was not found. Please provide a projectId in the options. You can find your project ID in the browser network tab when making generation requests."
               API_ERROR (Some 404)))
           else
             throw (ThrownReve
               (handleAxiosError errorDetails error "getting project ID" (verbose this)))
       | ThrownError _ =>
           throw (ThrownReve
             (handleAxiosError errorDetails error "getting project ID" (verbose this)))
       end).

Definition getProjectId : M value :=
  match projectId this with
  | Some p => if String.eqb p EmptyString then fetchProjectId else ret (VStr p)
  | None => fetchProjectId
  end.

(** [enhancePrompt(prompt, numVariants)] *)
Definition enhancePrompt (prompt : string) (numVariants : Z) : M (list value) :=
  try_catch
    (pid <- getProjectId ;;
     response <- call (PostEnhance
       (mkEnhancePayload numVariants prompt "promptenhancer_v1/prod/20250224-0952" pid)) ;;
     match data response with
     | VArr (e :: es) =>
         let lastResponse := last_or_undefined (e :: es) in
         status <- lift (member lastResponse "status") ;;
         if strict_eq status (VStr "success") then
           outputs <- lift (member lastResponse "outputs") ;;
           if truthy outputs then
             expanded <- lift (member outputs "expanded_prompts") ;;
             match expanded with
             | VArr variants => ret variants
             | _ => ret [VStr prompt]
             end
           else ret [VStr prompt]
         else ret [VStr prompt]
     | _ => ret [VStr prompt]
     end)
    (fun _ => ret [VStr prompt]).

(** One pass through the body of the polling loop: [Some r] when the body
    returns [r], [None] when it reaches [attempts++] (by falling through
    or by [continue]); a [throw] leaves the loop. *)
Definition wait_and_retry : M (option PollResult) :=
  delay (pollingInterval this) ;;; ret None.

(** The image reply turned into a data URL: the base64 text of the body
    under the declared content type. *)
Definition dataUrlOf (imageResponse : response) : result string :=
  base64Image <~ Buffer_base64 (data imageResponse) ;;
  contentType <~ member (headers imageResponse) "content-type" ;;
  let mimeType := or_else contentType (VStr "image/webp") in
  Returns ("data:" ++ to_string mimeType ++ ";base64," ++ base64Image)%string.

Definition pollIteration (projectId generationId : value) : M (option PollResult) :=
  try_catch
    (nodeResponse <- call (GetNode projectId) ;;
     list <- lift (and_member (data nodeResponse) "list") ;;
     match list with
     | VArr items =>
         ourGeneration <- lift (find_generation items generationId) ;;
         if truthy ourGeneration then
           d <- lift (member ourGeneration "data") ;;
           output <- lift (and_member d "output") ;;
           if truthy output then
             let imageId := output in
             inference_inputs <- lift (member d "inference_inputs") ;;
             let seed := or_else (member_opt inference_inputs "seed") (VNum (-1)) in
             try_catch
               (imageResponse <- call (GetImage projectId imageId) ;;
                dataUrl <- lift (dataUrlOf imageResponse) ;;
                ret (Some (mkPollResult [dataUrl] seed)))
               (fun _ => wait_and_retry)
           else
             error <- lift (and_member d "error") ;;
             if truthy error then
               throw (ThrownReve (mkReveAIError
                 ("Generation failed: " ++ to_string error) GENERATION_ERROR None))
             else wait_and_retry
         else wait_and_retry
     | _ => wait_and_retry
     end)
    (fun error =>
       match error with
       | ThrownReve _ => throw error
       | _ =>
           throw (ThrownReve
             (handleAxiosError errorDetails error "polling generation status"
                (verbose this)))
       end).

(** [while (attempts < maxPollingAttempts) { ... }] followed by the
    time-out [throw].  [attempts] starts at 0 and grows by one per pass,
    so the loop makes a pass exactly while [remaining], the attempts left
    in the budget, is not zero. *)
Fixpoint pollLoop (projectId generationId : value) (remaining : nat) (attempts : Z)
  : M PollResult :=
  match remaining with
  | O =>
      throw (ThrownReve (mkReveAIError
        ("Generation timed out after " ++ string_of_Z attempts ++ " polling attempts")
        POLLING_ERROR None))
  | S remaining' =>
      r <- pollIteration projectId generationId ;;
      match r with
      | Some res => ret res
      | None => pollLoop projectId generationId remaining' (attempts + 1)
      end
  end.

Definition pollGenerationStatus (projectId generationId : value) : M PollResult :=
  pollLoop projectId generationId (Z.to_nat (maxPollingAttempts this)) 0.

(** The identifier of the tracking node: [crypto.randomUUID()], or a
    string built from the clock and one random draw. *)
Definition freshGenerationId : M string :=
  fun w =>
    match randomUUID w with
    | Some id => ret id w
    | None => (r <- Math_random ;; ret (fallbackId w r)) w
    end.

(** [options.enhancePrompt ?? true] *)
Definition shouldEnhance (options : GenerateImageOptions) : bool :=
  bool_or (enhancePrompt_opt options) true.

(** The caption: the variant handed in, or the first variant of an
    enhancement of one's own, or the prompt as it is. *)
Definition finalPromptFor (options : GenerateImageOptions) (enhancedPrompt : value)
  : M value :=
  let prompt := prompt options in
  let shouldEnhancePrompt := shouldEnhance options in
  if truthy enhancedPrompt && shouldEnhancePrompt then ret enhancedPrompt
  else if shouldEnhancePrompt then
    enhancedPrompts <- enhancePrompt prompt 1 ;;
    match enhancedPrompts with
    | first :: _ => ret first
    | [] => ret (VStr prompt)
    end
  else ret (VStr prompt).

(** [seed === -1 ? Math.floor(Math.random() * 10000000) : seed] *)
Definition seedFor (seed : Z) : M Z :=
  if seed =? -1
  then (r <- Math_random ;; ret (floor_mul r 10000000))
  else ret seed.

(** [generateSingleImage(options, enhancedPrompt?)], first half: from
    the entry of the function to the generation id read in the reply to
    the submission. *)
Definition submitJob (options : GenerateImageOptions) (enhancedPrompt : value)
  : M Submission :=
  projectId <- getProjectId ;;
  lift (validateImageOptions (width options) (height options) (Some 1)) ;;;
  let prompt := prompt options in
  let negativePrompt := str_or (negativePrompt options) EmptyString in
  let width := num_or (width options) 1024 in
  let height := num_or (height options) 1024 in
  let seed := match seed options with None => -1 | Some s => s end in
  let model := str_or (model options) "text2image_v1/prod/20250325-2246" in
  let shouldEnhancePrompt := shouldEnhance options in
  finalPrompt <- finalPromptFor options enhancedPrompt ;;
  generationId <- freshGenerationId ;;
  seedToSend <- seedFor seed ;;
  let generationPayload :=
    mkGenerationPayload
      (string_of_Z width ++ ":" ++ string_of_Z height)
      prompt shouldEnhancePrompt prompt
      finalPrompt height negativePrompt seedToSend width
      model generationId in
  generationResponse <- call (PostGeneration projectId generationPayload) ;;
  if IS_TEST_ENV && negb (truthy (data generationResponse)) then
    ret TestStub
  else
    generationIdFromResponse <- lift (extractGenerationId (data generationResponse)) ;;
    if negb (truthy generationIdFromResponse) then
      throw (ThrownReve (mkReveAIError
        ("Failed to get generation ID from response: "
         ++ JSON_stringify (data generationResponse))
        UNEXPECTED_RESPONSE None))
    else
      ret (Submitted projectId generationIdFromResponse finalPrompt).

(** Second half: poll, and shape the result. *)
Definition generateSingleImage (options : GenerateImageOptions) (enhancedPrompt : value)
  : M SingleResult :=
  submission <- submitJob options enhancedPrompt ;;
  match submission with
  | TestStub =>
      ret (mkSingleResult (VStr "https://example.com/test-image.jpg") (VNum (-1)) VUndefined)
  | Submitted projectId generationIdFromResponse finalPrompt =>
      result <- pollGenerationStatus projectId generationIdFromResponse ;;
      ret (mkSingleResult
             (match pr_imageUrls result with
              | u :: _ => VStr u
              | [] => VUndefined
              end)
             (pr_seed result)
             (if shouldEnhance options
                 && negb (strict_eq finalPrompt (VStr (prompt options)))
              then finalPrompt else VUndefined))
  end.
End Client.

(** ** generateImage: the batch *)

(** The job pipelines run interleaved, each suspended at its own network
    calls.  A run of [generateImage] is therefore described by the world
    the orchestrator meets before it fans out, the world each pipeline
    meets, the order in which the pipelines settle, and the clock at the
    end. *)
Record Env : Type := mkEnv {
  main : World;
  job : nat -> World;
  settle_order : list nat;
  now : Z
}.

(** What a run leaves behind: the outcome of the promise, the trace of the
    orchestrator and the trace of every pipeline, by dispatch index. *)
Record Run : Type := mkRun {
  outcome : result GenerateImageResult;
  main_st : St;
  job_sts : list St
}.

(** The arguments of one [generateSingleImage] call. *)
Record JobSpec : Type := mkJobSpec {
  job_options : GenerateImageOptions;
  job_enhancedPrompt : value
}.

Definition with_seed (o : GenerateImageOptions) (s : option Z) : GenerateImageOptions :=
  mkGenerateImageOptions (prompt o) (negativePrompt o) (width o) (height o)
    (batchSize o) s (model o) (enhancePrompt_opt o).

Fixpoint mapM {A B} (f : A -> M B) (l : list A) : M (list B) :=
  match l with
  | [] => ret []
  | x :: rest =>
      bind (f x) (fun y => bind (mapM f rest) (fun ys => ret (y :: ys)))
  end.

Fixpoint sequence {A} (l : list (result A)) : result (list A) :=
  match l with
  | [] => Returns []
  | r :: rest => x <~ r ;; xs <~ sequence rest ;; Returns (x :: xs)
  end.

(** [Promise.all]: the first promise to reject, in the order they settle,
    rejects the whole; otherwise the values, by position. *)
Fixpoint first_rejection {A} (order : list nat) (outs : list (result A)) : option exn :=
  match order with
  | [] => None
  | i :: rest =>
      match nth_error outs i with
      | Some (Throws e) => Some e
      | _ => first_rejection rest outs
      end
  end.

Definition Promise_all {A} (order : list nat) (outs : list (result A)) : result (list A) :=
  match first_rejection order outs with
  | Some e => Throws e
  | None => sequence outs
  end.

Definition exn_message (e : exn) : string :=
  match e with
  | ThrownReve r => message r
  | ThrownAxios ax => ax_message ax
  | ThrownError msg => msg
  end.

Definition is_defined (v : value) : bool :=
  match v with VUndefined => false | _ => true end.

Section Batch.
Variable errorDetails : AxiosError -> string.
Variable JSON_stringify : value -> string.
Variable Buffer_base64 : value -> result string.
Variable IS_TEST_ENV : bool.
Variable this : ReveAIOptions.

Local Open Scope monad_scope.

(** The [catch] block of [generateImage]. *)
Definition rethrow (error : exn) : exn :=
  if IS_TEST_ENV && includes (exn_message error) "Generation failed" then
    ThrownReve (mkReveAIError "Generation failed" GENERATION_ERROR None)
  else if IS_TEST_ENV && includes (exn_message error) "timed out" then
    ThrownReve (mkReveAIError "Generation timed out" POLLING_ERROR None)
  else
    ThrownReve (handleAxiosError errorDetails error "generating image" (verbose this)).

(** The callback of [Array.from({ length: batchSize }, ...)] up to the
    call of [generateSingleImage]: the variant and the seed of job
    [index]. *)
Definition jobSpec (options : GenerateImageOptions) (enhance : bool)
    (enhancedPrompts : list value) (index : nat) : M JobSpec :=
  let enhancedPrompt :=
    if enhance && negb (Nat.eqb (List.length enhancedPrompts) 0)
    then nth (Nat.modulo index (List.length enhancedPrompts)) enhancedPrompts VUndefined
    else VUndefined in
  jobSeed <-
    match seed options with
    | None => ret (-1)
    | Some s => r <- Math_random ;; ret (s + floor_mul r 1000)
    end ;;
  ret (mkJobSpec (with_seed options (Some jobSeed)) enhancedPrompt).

(** [generateImage] up to the fan-out. *)
Definition orchestrate (options : GenerateImageOptions) : M (list JobSpec) :=
  lift (validateImageOptions (width options) (height options) (batchSize options)) ;;;
  let prompt := prompt options in
  let batchSize := num_or (batchSize options) 1 in
  let enhance := bool_or (enhancePrompt_opt options) true in
  enhancedPrompts <-
    (if enhance && (batchSize >? 1)
     then enhancePrompt errorDetails this prompt batchSize
     else ret []) ;;
  mapM (jobSpec options enhance enhancedPrompts) (seq 0 (Z.to_nat batchSize)).

(** Each pipeline, started on its own world with an empty trace. *)
Fixpoint run_jobs (env : Env) (index : nat) (specs : list JobSpec)
  : list (result SingleResult * St) :=
  match specs with
  | [] => []
  | spec :: rest =>
      generateSingleImage errorDetails JSON_stringify Buffer_base64 IS_TEST_ENV this
        (job_options spec) (job_enhancedPrompt spec) (job env index) init
      :: run_jobs env (S index) rest
  end.

(** The object [generateImage] returns once every pipeline has resolved. *)
Definition assemble (options : GenerateImageOptions) (env : Env)
    (results : list SingleResult) : result GenerateImageResult :=
  let negativePrompt := str_or (negativePrompt options) EmptyString in
  let enhance := bool_or (enhancePrompt_opt options) true in
  let usedEnhancedPrompts := filter is_defined (map sr_enhancedPrompt results) in
  match results with
  | [] => Throws (ThrownError "Cannot read properties of undefined (reading 'seed')")
  | first :: _ =>
      Returns (mkGenerateImageResult
        (map imageUrl results)
        (sr_seed first)
        (now env)
        (prompt options)
        (if enhance then
           match usedEnhancedPrompts with
           | p :: _ => Some p
           | [] => None
           end
         else None)
        (if enhance && (1 <? Z.of_nat (List.length usedEnhancedPrompts))
         then Some usedEnhancedPrompts else None)
        (if String.eqb negativePrompt EmptyString then None else Some negativePrompt))
  end.

Definition generateImage (options : GenerateImageOptions) (env : Env) : Run :=
  match orchestrate options (main env) init with
  | (Throws e, st) => mkRun (Throws (rethrow e)) st []
  | (Returns specs, st) =>
      let runs := run_jobs env 0 specs in
      match
        results <~ Promise_all (settle_order env) (map fst runs) ;;
        assemble options env results
      with
      | Returns r => mkRun (Returns r) st (map snd runs)
      | Throws e => mkRun (Throws (rethrow e)) st (map snd runs)
      end
  end.
End Batch.


(** ** The rest of helpers.ts and of the transport set-up *)


(** ** The vocabulary of the specification *)

(** A width or height the data model allows. *)
Definition dimension_ok (d : Z) : Prop := 384 <= d <= 1024 /\ d mod 8 = 0.

(** An argument the validator lets through: omitted, or allowed. *)
Definition dimension_accepted (d : option Z) : Prop :=
  match d with Some x => dimension_ok x | None => True end.

(** A supplied, non-zero width or height that the data model forbids. *)
Definition dimension_rejected (d : option Z) : Prop :=
  match d with Some x => x <> 0 /\ ~ dimension_ok x | None => False end.

Definition batch_accepted (b : option Z) : Prop :=
  match b with Some n => 1 <= n <= 8 | None => True end.

(** *** The node listing *)

Definition is_nullish (v : value) : bool :=
  match v with VUndefined | VNull => true | _ => false end.

(** [item.node.id], read leniently *)
Definition item_node_id (item : value) : value :=
  member_opt (member_opt item "node") "id".

(** The items of the node listing a reply carries, if it carries one. *)
Definition listing (reply : result response) : option (list value) :=
  match reply with
  | Returns r =>
      match member_opt (data r) "list" with
      | VArr items => Some items
      | _ => None
      end
  | Throws _ => None
  end.

Definition well_formed (items : list value) : bool :=
  forallb (fun item => negb (is_nullish item)) items.

(** The status entry of job [gid] in a listing: the first item whose node
    id is [gid]. *)
Definition status_entry (items : list value) (gid : value) : option value :=
  List.find (fun item => strict_eq (item_node_id item) gid) items.

(** The reply lists job [gid] with this status entry. *)
Definition job_entry (reply : result response) (gid : value) : option value :=
  match listing reply with
  | Some items => if well_formed items then status_entry items gid else None
  | None => None
  end.


(** [entry.data.k], read leniently *)
Definition entry_field (entry : value) (k : string) : value :=
  member_opt (member_opt entry "data") k.

(** [entry.data.inference_inputs?.seed] *)
Definition echoed_seed (entry : value) : value :=
  member_opt (entry_field entry "inference_inputs") "seed".

(** The state after some more events, [n] of them requests. *)
Definition after (s : St) (evs : list event) (n : nat) : St :=
  mkSt (trace s ++ evs) (n + calls s) (draws s).

(** What the request for the image comes to: the data URL, or whatever was
    thrown on the way to it. *)
Definition fetched (Buffer_base64 : value -> result string)
    (reply : result response) : result string :=
  imageResponse <~ reply ;; dataUrlOf Buffer_base64 imageResponse.

(** *** The polling loop as a step relation *)

(** [goes_round pid gid w r a s r' a' s']: from the head of the loop with
    [r] attempts left, counter [a] and state [s], a number of passes that
    each end in [attempts++] lead to the head of the loop with [r'] left,
    counter [a'] and state [s']. *)
Inductive goes_round
    (errorDetails : AxiosError -> string) (Buffer_base64 : value -> result string)
    (this : ReveAIOptions) (pid gid : value) (w : World)
  : nat -> Z -> St -> nat -> Z -> St -> Prop :=
| round_here (r : nat) (a : Z) (s : St) :
    goes_round errorDetails Buffer_base64 this pid gid w r a s r a s
| round_step (r : nat) (a : Z) (s s1 : St) (r' : nat) (a' : Z) (s' : St) :
    pollIteration errorDetails Buffer_base64 this pid gid w s = (Returns None, s1) ->
    goes_round errorDetails Buffer_base64 this pid gid w r (a + 1) s1 r' a' s' ->
    goes_round errorDetails Buffer_base64 this pid gid w (S r) a s r' a' s'.

(** The requests for the node listing in a trace. *)
Definition is_poll (e : event) : bool :=
  match e with Call (GetNode _) => true | _ => false end.

Definition polls (tr : list event) : nat := List.length (filter is_poll tr).


(** *** The batch *)

(** The payloads submitted, and the enhancement requests made, in a
    trace. *)
Fixpoint submissions (tr : list event) : list GenerationPayload :=
  match tr with
  | [] => []
  | Call (PostGeneration _ p) :: rest => p :: submissions rest
  | _ :: rest => submissions rest
  end.

Fixpoint enhance_requests (tr : list event) : list EnhancePayload :=
  match tr with
  | [] => []
  | Call (PostEnhance p) :: rest => p :: enhance_requests rest
  | _ :: rest => enhance_requests rest
  end.

(** [j] settles before every pipeline that rejects. *)
Definition settles_first {A} (order : list nat) (outs : list (result A)) (j : nat) : Prop :=
  exists earlier later,
    order = earlier ++ j :: later
    /\ forall k, In k earlier -> forall e, nth_error outs k <> Some (Throws e).

Section BatchVocabulary.
Variable errorDetails : AxiosError -> string.
Variable JSON_stringify : value -> string.
Variable Buffer_base64 : value -> result string.
Variable IS_TEST_ENV : bool.
Variable this : ReveAIOptions.

(** The jobs [generateImage] dispatches, by index, and how each pipeline
    ends. *)
Definition dispatched (options : GenerateImageOptions) (env : Env) : list JobSpec :=
  match fst (orchestrate errorDetails this options (main env) init) with
  | Returns specs => specs
  | Throws _ => []
  end.

Definition job_runs (options : GenerateImageOptions) (env : Env)
  : list (result SingleResult * St) :=
  run_jobs errorDetails JSON_stringify Buffer_base64 IS_TEST_ENV this env 0
    (dispatched options env).

Definition job_outcomes (options : GenerateImageOptions) (env : Env)
  : list (result SingleResult) :=
  map fst (job_runs options env).
End BatchVocabulary.

(** *** What a computation may leave in the trace *)

(** [emits P c]: whatever the world, [c] draws no random number and adds
    to the trace only events that satisfy [P]. *)
Definition emits {A} (P : event -> bool) (c : M A) : Prop :=
  forall w s,
    draws (snd (c w s)) = draws s
    /\ exists evs, trace (snd (c w s)) = trace s ++ evs /\ forallb P evs = true.

Definition project_lookup (e : event) : bool :=
  match e with Call GetProjects => true | _ => false end.

Definition enhancer_traffic (e : event) : bool :=
  match e with Call GetProjects | Call (PostEnhance _) => true | _ => false end.

Definition poller_traffic (e : event) : bool :=
  match e with Call (GetNode _) | Call (GetImage _ _) | Delay _ => true | _ => false end.

Definition fetch_or_wait (e : event) : bool :=
  match e with Call (GetImage _ _) | Delay _ => true | _ => false end.

(** *** The enhancement reply *)

(** The variants the last entry of an enhancement reply carries, when that
    entry has status "success" and an array [outputs.expanded_prompts]. *)
Definition last_entry_variants (reply : result response) : option (list value) :=
  match reply with
  | Returns r =>
      match data r with
      | VArr (e :: es) =>
          let lastResponse := last_or_undefined (e :: es) in
          if strict_eq (member_opt lastResponse "status") (VStr "success") then
            match member_opt (member_opt lastResponse "outputs") "expanded_prompts" with
            | VArr variants => Some variants
            | _ => None
            end
          else None
      | _ => None
      end
  | Throws _ => None
  end.




Definition enhance_payload (prompt : string) (n : Z) (pid : value) : EnhancePayload :=
  mkEnhancePayload n prompt "promptenhancer_v1/prod/20250224-0952" pid.

(** *** The seed of a job *)

(** The position, among the random draws of a pipeline that has made [d]
    draws, of the one used for the seed: the fallback node identifier takes
    one draw first when [crypto.randomUUID] is missing. *)
Definition seed_draw_index (w : World) (d : nat) : nat :=
  match randomUUID w with Some _ => d | None => S d end.

Definition random_seed (w : World) (d : nat) : Z :=
  floor_mul (random w (seed_draw_index w d)) 10000000.

(** The payload of a job, given its caption, its resolved seed and the
    identifier of its tracking node. *)
Definition job_payload (options : GenerateImageOptions) (finalPrompt : value)
    (seedToSend : Z) (generationId : string) : GenerationPayload :=
  mkGenerationPayload
    (string_of_Z (num_or (width options) 1024) ++ ":"
     ++ string_of_Z (num_or (height options) 1024))
    (prompt options) (bool_or (enhancePrompt_opt options) true) (prompt options)
    finalPrompt (num_or (height options) 1024)
    (str_or (negativePrompt options) EmptyString) seedToSend
    (num_or (width options) 1024)
    (str_or (model options) "text2image_v1/prod/20250325-2246") generationId.

(** What the reply to a submission is read as. *)
Definition read_submission (JSON_stringify : value -> string) (IS_TEST_ENV : bool)
    (pid finalPrompt : value) (resp : response) : result Submission :=
  if IS_TEST_ENV && negb (truthy (data resp)) then Returns TestStub
  else
    gid <~ extractGenerationId (data resp) ;;
    if negb (truthy gid) then
      Throws (ThrownReve (mkReveAIError
        ("Failed to get generation ID from response: " ++ JSON_stringify (data resp))
        UNEXPECTED_RESPONSE None))
    else Returns (Submitted pid gid finalPrompt).

(** *** The jobs of a batch *)

(** The variant handed to job [j] out of the variants [vs]. *)
Definition variant_for (enhance : bool) (vs : list value) (j : nat) : value :=
  if enhance && negb (Nat.eqb (List.length vs) 0)
  then nth (Nat.modulo j (List.length vs)) vs VUndefined
  else VUndefined.

(** The seed handed to job [j]: the sentinel when the request has no seed,
    the base seed plus the jitter of the orchestrator's [j]-th draw
    otherwise. *)
Definition job_seed (base : option Z) (w : World) (j : nat) : Z :=
  match base with
  | None => -1
  | Some x => x + floor_mul (random w j) 1000
  end.

Definition job_spec_of (options : GenerateImageOptions) (vs : list value)
    (w : World) (j : nat) : JobSpec :=
  mkJobSpec (with_seed options (Some (job_seed (seed options) w j)))
    (variant_for (bool_or (enhancePrompt_opt options) true) vs j).

(** The number of jobs of a request. *)
Definition batch_count (options : GenerateImageOptions) : nat :=
  Z.to_nat (num_or (batchSize options) 1).

(** The variants the orchestrator holds when it fans out. *)
Definition batch_variants (errorDetails : AxiosError -> string) (this : ReveAIOptions)
    (options : GenerateImageOptions) (w : World) : list value :=
  if bool_or (enhancePrompt_opt options) true && (num_or (batchSize options) 1 >? 1)
  then match fst (enhancePrompt errorDetails this (prompt options)
                    (num_or (batchSize options) 1) w init) with
       | Returns vs => vs
       | Throws _ => []
       end
  else [].

(** The result of a pipeline whose polling resolved with [res]. *)
Definition single_result (options : GenerateImageOptions) (fp : value)
    (res : PollResult) : SingleResult :=
  mkSingleResult
    (match pr_imageUrls res with u :: _ => VStr u | [] => VUndefined end)
    (pr_seed res)
    (if shouldEnhance options && negb (strict_eq fp (VStr (prompt options)))
     then fp else VUndefined).

(** The enhancement requests of a whole run: those of the orchestrator,
    then those of the pipelines. *)
Definition all_enhance_requests (run : Run) : list EnhancePayload :=
  enhance_requests (trace (main_st run))
  ++ flat_map (fun st => enhance_requests (trace st)) (job_sts run).

(** The seeds submitted by each pipeline of a run. *)
Definition submitted_seeds (run : Run) : list (list Z) :=
  map (fun st => map pl_seed (submissions (trace st))) (job_sts run).

(** The captions submitted by each pipeline of a run. *)
Definition submitted_captions (run : Run) : list (list value) :=
  map (fun st => map caption (submissions (trace st))) (job_sts run).

(** ** A small service, to run the client against *)

Definition no_details (_ : AxiosError) : string := "details".
Definition stringify_stub (_ : value) : string := "{}".
Definition base64_stub (_ : value) : result string := Returns "AAAA".

(** Project id configured, three polling attempts, two seconds apart. *)
Definition client_cfg : ReveAIOptions := mkReveAIOptions (Some "proj") 3 2000 false.

Definition ok_reply (d : value) : result response :=
  Returns (mkResponse d (VObj [("content-type", VStr "image/webp")])).

Definition network_error : result response :=
  Throws (ThrownAxios (mkAxiosError "Network Error" None None VUndefined)).

(** The reply to a submission: generation "gen-1". *)
Definition gen_reply : result response :=
  ok_reply (VObj [("create", VObj [("node", VObj [("id", VStr "gen-1")])])]).

(** A node listing with one entry, for "gen-1", with the given data. *)
Definition status_of (fields : list (string * value)) : value :=
  VObj [("list", VArr [VObj [("node", VObj [("id", VStr "gen-1")]);
                             ("data", VObj fields)]])].

(** An enhancement reply whose only entry is a success with these
    variants. *)
Definition variants_reply (vs : list value) : result response :=
  ok_reply (VArr [VObj [("status", VStr "success");
                        ("outputs", VObj [("expanded_prompts", VArr vs)])]]).

Definition service (listing_data : value) (image enhancement : result response)
  : nat -> request -> result response :=
  fun _ r =>
    match r with
    | GetProjects => ok_reply (VArr [])
    | PostEnhance _ => enhancement
    | PostGeneration _ _ => gen_reply
    | GetNode _ => ok_reply listing_data
    | GetImage _ _ => image
    end.

Definition world_of (net : nat -> request -> result response) (u : unit_draw) : World :=
  mkWorld net (fun _ => u) (Some "node-1") (fun _ => "gen-0-x").

(** Every pipeline meets the same service; the orchestrator draws [jitter],
    the pipelines draw [u]; the pipelines settle in the order given. *)
Definition env_of (net : nat -> request -> result response) (jitter u : unit_draw)
    (order : list nat) : Env :=
  mkEnv (world_of net jitter) (fun _ => world_of net u) order 0.

Definition half : unit_draw := mkDraw 1 2.

Definition request_of (b : option Z) (sd : option Z) (enh : option bool)
  : GenerateImageOptions :=
  mkGenerateImageOptions "a cat" None None None b sd None enh.

Definition plain_options (w h : option Z) : GenerateImageOptions :=
  mkGenerateImageOptions "a cat" None w h None None None None.

Definition done_fields : list (string * value) :=
  [("output", VStr "img-1"); ("inference_inputs", VObj [("seed", VNum 12345)])].

Definition three_variants : list value := [VStr "v1"; VStr "v2"; VStr "v3"].

(** The job completes at the first poll; the enhancer returns three
    variants. *)
Definition happy : nat -> request -> result response :=
  service (status_of done_fields) (ok_reply (VStr "bytes")) (variants_reply three_variants).



(** The job is listed with an error. *)
Definition failing : nat -> request -> result response :=
  service (status_of [("error", VStr "boom")]) (ok_reply (VStr "bytes"))
    (variants_reply three_variants).

(** The job is listed with an output and an error. *)
Definition output_and_error : nat -> request -> result response :=
  service (status_of [("output", VStr "img-1"); ("error", VStr "boom")])
    (ok_reply (VStr "bytes")) (variants_reply three_variants).

(** The job is never listed. *)
Definition never_listed : nat -> request -> result response :=
  service (VObj [("list", VArr [])]) (ok_reply (VStr "bytes"))
    (variants_reply three_variants).

(** The job is listed with an output and the image cannot be fetched. *)
Definition unfetchable : nat -> request -> result response :=
  service (status_of done_fields) network_error (variants_reply three_variants).



(** The client run against the small service. *)
Definition run_of (test_env : bool) (options : GenerateImageOptions) (env : Env) : Run :=
  generateImage no_details stringify_stub base64_stub test_env client_cfg options env.

(** The status entry [status_of fields] lists for "gen-1". *)
Definition entry_of (fields : list (string * value)) : value :=
  VObj [("node", VObj [("id", VStr "gen-1")]); ("data", VObj fields)].

(** Where the pipeline of the only job of a request stands when its
    submission has been answered. *)
Definition submitted_state (options : GenerateImageOptions) (env : Env) : St :=
  snd (submitJob no_details stringify_stub false client_cfg
         (with_seed options (Some (job_seed (seed options) (main env) 0)))
         VUndefined (job env 0%nat) init).

(** The images of a run that resolved. *)
Definition imageUrls_of (o : result GenerateImageResult) : option (list value) :=
  match o with Returns r => Some (imageUrls r) | Throws _ => None end.

Definition throws {A} (r : result A) : bool :=
  match r with Throws _ => true | Returns _ => false end.


(** ** More vocabulary *)

(** A width or height [validateImageOptions] lets through: omitted, zero,
    or allowed. *)
Definition dimension_let_through (d : option Z) : Prop :=
  match d with Some x => x = 0 \/ dimension_ok x | None => True end.

(** The kind of a thrown error, when it is a [ReveAIError]. *)
Definition kind_of (e : exn) : option ReveAIErrorType :=
  match e with ThrownReve r => Some (type r) | _ => None end.

Definition is_typed (e : exn) : bool :=
  match e with ThrownReve _ => true | _ => false end.

(** [yields Q c]: whatever the world, a value [c] returns satisfies [Q]. *)
Definition yields {A} (Q : A -> Prop) (c : M A) : Prop :=
  forall w s a, fst (c w s) = Returns a -> Q a.

(** [raises Q c]: whatever the world, an error [c] throws satisfies [Q]. *)
Definition raises {A} (Q : exn -> Prop) (c : M A) : Prop :=
  forall w s e, fst (c w s) = Throws e -> Q e.

(** A data URL: "data:", a content type, ";base64,", a payload. *)
Definition is_data_url (u : string) : Prop :=
  exists mime payload, u = ("data:" ++ mime ++ ";base64," ++ payload)%string.

(** The error [getProjectId] throws when the service lists no project. *)
Definition no_projects_found : ReveAIError :=
  mkReveAIError
    ("No projects found. Please provide a projectId in the options. You can find your project ID in the browser network tab when making requests to "
     ++ dquote ++ "/api/project/{projectId}/generation" ++ dquote ++ ".")
    API_ERROR None.

(** The time-out error of the poller after [attempts] attempts. *)
Definition timed_out (attempts : Z) : ReveAIError :=
  mkReveAIError
    ("Generation timed out after " ++ string_of_Z attempts ++ " polling attempts")
    POLLING_ERROR None.

(** What the poller resolves with: one image, as a data URL, and a seed
    that is truthy. *)
Definition poll_result_ok (res : PollResult) : Prop :=
  (exists url, pr_imageUrls res = [url] /\ is_data_url url)
  /\ truthy (pr_seed res) = true.

(** What the catch block of the poller makes of a failure. *)
Definition polling_error (errorDetails : AxiosError -> string) (this : ReveAIOptions)
    (e : exn) : ReveAIError :=
  handleAxiosError errorDetails e "polling generation status" (verbose this).


(** The two places a submission reply can carry the generation id:
    [data.create?.node?.id] and [data.generation_id]. *)
Definition new_format_id (d : value) : value :=
  member_opt (member_opt (member_opt d "create") "node") "id".

Definition old_format_id (d : value) : value := member_opt d "generation_id".

(** ** More of the small service *)

(** A client with no project id configured. *)
Definition unconfigured : ReveAIOptions := mkReveAIOptions None 3 2000 false.

(** A client with no polling attempt to spend. *)
Definition no_budget_cfg : ReveAIOptions := mkReveAIOptions (Some "proj") 0 2000 false.

(** The service lists one project, "p-1". *)
Definition one_project : nat -> request -> result response :=
  fun k r =>
    match r with
    | GetProjects => ok_reply (VArr [VObj [("id", VStr "p-1")]])
    | _ => happy k r
    end.

(** The request for the node listing fails. *)
Definition listing_down : nat -> request -> result response :=
  fun k r =>
    match r with
    | GetNode _ => network_error
    | _ => happy k r
    end.

(** The node listing opens with a null entry. *)
Definition null_listed : nat -> request -> result response :=
  service (VObj [("list", VArr [VNull; entry_of done_fields])])
    (ok_reply (VStr "bytes")) (variants_reply three_variants).

(** The image reply of the small service. *)
Definition image_reply : response :=
  mkResponse (VStr "bytes") (VObj [("content-type", VStr "image/webp")]).
(** ** The repository's tests, replayed on the model *)

(** helpers.test.ts, validateImageOptions *)
Example valid_options_pass :
  validateImageOptions (Some 512) (Some 512) (Some 2) = Returns tt.
Proof. reflexivity. Qed.

Example invalid_widths_throw :
  map (fun w => throws (validateImageOptions (Some w) (Some 512) None)) [100; 1025; 513]
  = [true; true; true].
Proof. reflexivity. Qed.

Example invalid_heights_throw :
  map (fun h => throws (validateImageOptions (Some 512) (Some h) None)) [100; 1025; 513]
  = [true; true; true].
Proof. reflexivity. Qed.

Example invalid_batch_sizes_throw :
  map (fun b => throws (validateImageOptions (Some 512) (Some 512) (Some b))) [0; 9]
  = [true; true].
Proof. reflexivity. Qed.

Example boundary_dimensions :
  map (fun d => throws (validateImageOptions (Some d) (Some d) None))
    [384; 1024; 1025; 513; 100]
  = [false; false; true; true; true].
Proof. reflexivity. Qed.

(** reveai.test.ts, generateImage *)
Example default_parameters :
  let run := run_of true (request_of None None None) (env_of happy half half [0%nat]) in
  imageUrls_of (outcome run) = Some [VStr "data:image/webp;base64,AAAA"]
  /\ submitted_captions run = [[VStr "v1"]]
  /\ map num_variants (all_enhance_requests run) = [1].
Proof. repeat split; vm_compute; reflexivity. Qed.

Example enhancement_switched_off :
  let run := run_of true (request_of None None (Some false))
               (env_of happy half half [0%nat]) in
  all_enhance_requests run = []
  /\ submitted_captions run = [[VStr "a cat"]].
Proof. repeat split; vm_compute; reflexivity. Qed.

Example seeds_based_on_the_seed_provided :
  submitted_seeds (run_of true (request_of (Some 2) (Some 42) (Some false))
                     (mkEnv (mkWorld happy
                               (fun k => mkDraw (Z.of_nat k + 1) 4) (Some "node-1")
                               (fun _ => "gen-0-x"))
                        (fun _ => world_of happy half) [0; 1]%nat 0))
  = [[42 + 250]; [42 + 500]].
Proof. vm_compute. reflexivity. Qed.

Example a_variant_for_each_image :
  let run := run_of true (request_of (Some 3) None None)
               (env_of happy half half [2; 0; 1]%nat) in
  map num_variants (all_enhance_requests run) = [3]
  /\ submitted_captions run = [[VStr "v1"]; [VStr "v2"]; [VStr "v3"]].
Proof. repeat split; vm_compute; reflexivity. Qed.

Example generation_failure_under_jest :
  outcome (run_of true (request_of None None None) (env_of failing half half [0%nat]))
  = Throws (ThrownReve (mkReveAIError "Generation failed" GENERATION_ERROR None)).
Proof. vm_compute. reflexivity. Qed.

Example generation_time_out_under_jest :
  outcome (run_of true (request_of None None None)
             (env_of never_listed half half [0%nat]))
  = Throws (ThrownReve (mkReveAIError "Generation timed out" POLLING_ERROR None)).
Proof. vm_compute. reflexivity. Qed.

(** ** Validation (helpers.ts, and the first statement of generateImage) *)

Lemma rem8_mod8 (d : Z) : 384 <= d <= 1024 -> Z.rem d 8 = d mod 8.
Proof. intros H. apply Z.rem_mod_nonneg; lia. Qed.

Lemma bad_dimension_accepted (d : option Z) :
  dimension_accepted d -> bad_dimension d = false.
Proof.
  destruct d as [x|]; simpl; [|reflexivity].
  intros [Hr Hm]. rewrite (rem8_mod8 x Hr), Hm.
  replace (x <? 384) with false by (symmetry; apply Z.ltb_ge; lia).
  replace (x >? 1024) with false by (rewrite Z.gtb_ltb; symmetry; apply Z.ltb_ge; lia).
  simpl. apply andb_false_r.
Qed.

Lemma bad_dimension_rejected (d : option Z) :
  dimension_rejected d -> bad_dimension d = true.
Proof.
  destruct d as [x|]; simpl; [|tauto].
  intros [Hnz Hbad]. unfold dimension_ok in Hbad.
  apply andb_true_iff. split.
  - apply negb_true_iff, Z.eqb_neq, Hnz.
  - destruct (Z.ltb_spec x 384) as [|Hlo]; [reflexivity|].
    rewrite Z.gtb_ltb.
    destruct (Z.ltb_spec 1024 x) as [|Hhi]; [reflexivity|].
    simpl. apply negb_true_iff, Z.eqb_neq.
    rewrite rem8_mod8 by lia. intros Hm. apply Hbad. split; [lia|exact Hm].
Qed.

Section Validation.
Variable errorDetails : AxiosError -> string.
Variable JSON_stringify : value -> string.
Variable Buffer_base64 : value -> result string.
Variable IS_TEST_ENV : bool.
Variable this : ReveAIOptions.

Lemma orchestrate_invalid (options : GenerateImageOptions) (w : World) (e : exn) :
  validateImageOptions (width options) (height options) (batchSize options) = Throws e ->
  orchestrate errorDetails this options w init = (Throws e, init).
Proof.
  intros H. unfold orchestrate, bind, lift. rewrite H. reflexivity.
Qed.

(** What validation does for every input but 0: dimensions that are
    multiples of 8 within [384,1024] pass when the batch size is omitted or
    within [1,8]; a supplied non-zero width or height outside [384,1024] or
    not a multiple of 8 makes [validateImageOptions] throw an error of kind
    GENERATION_ERROR, and [generateImage] rejects with that error without
    any request, wait or random draw having been made. *)
Theorem dimension_validation (options : GenerateImageOptions) (env : Env) :
  (dimension_accepted (width options) ->
   dimension_accepted (height options) ->
   batch_accepted (batchSize options) ->
   validateImageOptions (width options) (height options) (batchSize options)
   = Returns tt)
  /\
  (dimension_rejected (width options) \/ dimension_rejected (height options) ->
   exists e,
     validateImageOptions (width options) (height options) (batchSize options)
     = Throws (ThrownReve e)
     /\ type e = GENERATION_ERROR
     /\ generateImage errorDetails JSON_stringify Buffer_base64 IS_TEST_ENV this
          options env
        = mkRun (Throws (ThrownReve e)) init []).
Proof.
  split.
  - intros Hw Hh Hb. unfold validateImageOptions.
    rewrite (bad_dimension_accepted _ Hw), (bad_dimension_accepted _ Hh).
    destruct (batchSize options) as [b|]; [|reflexivity].
    simpl in Hb.
    replace (b <? 1) with false by (symmetry; apply Z.ltb_ge; lia).
    replace (b >? 8) with false
      by (rewrite Z.gtb_ltb; symmetry; apply Z.ltb_ge; lia).
    reflexivity.
  - intros Hbad.
    assert (Hv : exists e,
               validateImageOptions (width options) (height options)
                 (batchSize options) = Throws (ThrownReve e)
               /\ type e = GENERATION_ERROR
               /\ rethrow errorDetails IS_TEST_ENV this (ThrownReve e)
                  = ThrownReve e).
    { unfold validateImageOptions.
      destruct (bad_dimension (width options)) eqn:Bw.
      - eexists; repeat split.
        unfold rethrow; destruct IS_TEST_ENV; reflexivity.
      - destruct Hbad as [Hbad|Hbad].
        + rewrite (bad_dimension_rejected _ Hbad) in Bw. discriminate.
        + rewrite (bad_dimension_rejected _ Hbad).
          eexists; repeat split.
          unfold rethrow; destruct IS_TEST_ENV; reflexivity. }
    destruct Hv as (e & Hv & Ht & Hr).
    exists e. repeat split; try assumption.
    unfold generateImage.
    rewrite (orchestrate_invalid options (main env) _ Hv), Hr. reflexivity.
Qed.
End Validation.

(** ** Reading values *)

Lemma member_non_nullish (v : value) (k : string) :
  is_nullish v = false -> member v k = Returns (member_opt v k).
Proof. destruct v; simpl; intros H; try discriminate; reflexivity. Qed.

Lemma truthy_non_nullish (v : value) : truthy v = true -> is_nullish v = false.
Proof. destruct v; simpl; intros H; try discriminate; reflexivity. Qed.

Lemma falsy_member_opt (v : value) (k : string) :
  truthy v = false -> member_opt v k = VUndefined.
Proof. destruct v; simpl; intros H; try discriminate; reflexivity. Qed.

Lemma member_opt_source (v : value) (k : string) :
  truthy (member_opt v k) = true -> is_nullish v = false.
Proof. destruct v; simpl; intros H; try discriminate; reflexivity. Qed.

(** [a && a.k] never throws; it is truthy exactly when [a?.k] is, and is
    then that value. *)
Lemma and_member_spec (a : value) (k : string) :
  exists v, and_member a k = Returns v
            /\ truthy v = truthy (member_opt a k)
            /\ (truthy v = true -> v = member_opt a k).
Proof.
  unfold and_member. destruct (truthy a) eqn:Ha.
  - exists (member_opt a k).
    rewrite (member_non_nullish a k (truthy_non_nullish a Ha)). auto.
  - exists a. rewrite (falsy_member_opt a k Ha). simpl.
    repeat split; auto. intros H; congruence.
Qed.

Lemma strict_eq_truthy (a b : value) :
  strict_eq a b = true -> truthy b = true -> truthy a = true.
Proof.
  destruct a, b; simpl; try discriminate; auto.
  - intros E. apply Bool.eqb_prop in E. congruence.
  - intros E. apply Z.eqb_eq in E. congruence.
  - intros E. apply String.eqb_eq in E. congruence.
Qed.

(** The client's search agrees with [status_entry] on a listing without
    null entries. *)
Lemma find_generation_status_entry (items : list value) (gid : value) :
  truthy gid = true ->
  well_formed items = true ->
  find_generation items gid
  = Returns (match status_entry items gid with
             | Some entry => entry
             | None => VUndefined
             end).
Proof.
  intros Hg. induction items as [|item rest IH]; simpl; [reflexivity|].
  intros Hwf. apply andb_true_iff in Hwf as [Hi Hrest].
  apply negb_true_iff in Hi.
  rewrite (member_non_nullish item "node" Hi). simpl.
  unfold item_node_id.
  destruct (truthy (member_opt item "node")) eqn:Hn.
  - rewrite (member_non_nullish _ "id" (truthy_non_nullish _ Hn)). simpl.
    destruct (strict_eq _ gid); [reflexivity|auto].
  - simpl. rewrite (falsy_member_opt _ "id" Hn).
    destruct (strict_eq VUndefined gid) eqn:E.
    + apply strict_eq_truthy in E; [discriminate|assumption].
    + auto.
Qed.

Lemma status_entry_truthy (items : list value) (gid entry : value) :
  truthy gid = true ->
  status_entry items gid = Some entry ->
  truthy entry = true /\ is_nullish entry = false.
Proof.
  intros Hg H. unfold status_entry in H. apply find_some in H as [_ E].
  apply strict_eq_truthy in E; [|assumption].
  unfold item_node_id in E. destruct entry; simpl in *; try discriminate; auto.
Qed.

(** ** The monad, read through [after] *)


Lemma call_after (r : request) (w : World) (s : St) :
  call r w s = (net w (calls s) r, after s [Call r] 1).
Proof. reflexivity. Qed.

Lemma listing_and_member (r : response) (items : list value) :
  listing (Returns r) = Some items ->
  and_member (data r) "list" = Returns (VArr items).
Proof.
  simpl. intros H.
  destruct (and_member_spec (data r) "list") as (v & E & Ht & Hv).
  destruct (member_opt (data r) "list"); try discriminate.
  injection H as ->. rewrite E, Hv; [reflexivity|]. rewrite Ht. reflexivity.
Qed.


(** Two runs that differ only in how the trace is bracketed. *)
Ltac same_run :=
  unfold after; simpl; repeat rewrite <- app_assoc; simpl; reflexivity.

Section Poller.
Variable errorDetails : AxiosError -> string.
Variable Buffer_base64 : value -> result string.
Variable this : ReveAIOptions.

Local Abbreviation pollIteration' := (pollIteration errorDetails Buffer_base64 this).
Local Abbreviation pollLoop' := (pollLoop errorDetails Buffer_base64 this).
Local Abbreviation pollGenerationStatus' :=
  (pollGenerationStatus errorDetails Buffer_base64 this).


(** The common start of a pass that finds the status entry of the job. *)
Ltac find_entry Hg Hent :=
  unfold pollIteration, try_catch, bind, wait_and_retry;
  rewrite call_after;
  unfold job_entry in Hent;
  match type of Hent with
  | context [listing ?reply] =>
      let r := fresh "r" in
      let items := fresh "items" in
      let Hl := fresh "Hl" in
      let Hwf := fresh "Hwf" in
      let Htr := fresh "Htr" in
      let Hnn := fresh "Hnn" in
      destruct reply as [r|] eqn:?; [|discriminate];
      destruct (listing (Returns r)) as [items|] eqn:Hl; [|discriminate];
      destruct (well_formed items) eqn:Hwf; [|discriminate];
      unfold lift at 1; rewrite (listing_and_member r items Hl);
      unfold lift at 1; rewrite (find_generation_status_entry items _ Hg Hwf), Hent;
      destruct (status_entry_truthy items _ _ Hg Hent) as [Htr Hnn]; rewrite Htr;
      unfold lift at 1; rewrite (member_non_nullish _ "data" Hnn)
  end.

(** The job is listed without output and without error: still running. *)
Lemma pollIteration_pending (pid gid entry : value) (w : World) (s : St) :
  truthy gid = true ->
  job_entry (net w (calls s) (GetNode pid)) gid = Some entry ->
  truthy (entry_field entry "output") = false ->
  truthy (entry_field entry "error") = false ->
  pollIteration' pid gid w s
  = (Returns None, after s [Call (GetNode pid); Delay (pollingInterval this)] 1).
Proof.
  intros Hg Hent Hout Herr. unfold entry_field in *.
  find_entry Hg Hent.
  destruct (and_member_spec (member_opt entry "data") "output") as (o & Eo & To & _).
  unfold lift at 1. rewrite Eo, To, Hout.
  destruct (and_member_spec (member_opt entry "data") "error") as (x & Ex & Tx & _).
  unfold lift at 1. rewrite Ex, Tx, Herr.
  same_run.
Qed.

(** The job is listed without output and with an error. *)
Lemma pollIteration_failed (pid gid entry : value) (w : World) (s : St) :
  truthy gid = true ->
  job_entry (net w (calls s) (GetNode pid)) gid = Some entry ->
  truthy (entry_field entry "output") = false ->
  truthy (entry_field entry "error") = true ->
  pollIteration' pid gid w s
  = (Throws (ThrownReve (mkReveAIError
       ("Generation failed: " ++ to_string (entry_field entry "error"))
       GENERATION_ERROR None)),
     after s [Call (GetNode pid)] 1).
Proof.
  intros Hg Hent Hout Herr. unfold entry_field in *.
  find_entry Hg Hent.
  destruct (and_member_spec (member_opt entry "data") "output") as (o & Eo & To & _).
  unfold lift at 1. rewrite Eo, To, Hout.
  destruct (and_member_spec (member_opt entry "data") "error") as (x & Ex & Tx & Vx).
  unfold lift at 1. rewrite Ex.
  rewrite Tx, Herr in Vx. rewrite (Vx eq_refl), Herr.
  same_run.
Qed.

(** The job is listed with an output and the image cannot be had. *)
Lemma pollIteration_fetch_failed (pid gid entry : value) (w : World) (s : St) (e : exn) :
  truthy gid = true ->
  job_entry (net w (calls s) (GetNode pid)) gid = Some entry ->
  truthy (entry_field entry "output") = true ->
  fetched Buffer_base64
    (net w (S (calls s)) (GetImage pid (entry_field entry "output"))) = Throws e ->
  pollIteration' pid gid w s
  = (Returns None,
     after s [Call (GetNode pid);
              Call (GetImage pid (entry_field entry "output"));
              Delay (pollingInterval this)] 2).
Proof.
  intros Hg Hent Hout Hfetch. unfold entry_field in *.
  find_entry Hg Hent.
  destruct (and_member_spec (member_opt entry "data") "output") as (o & Eo & To & Vo).
  unfold lift at 1. rewrite Eo.
  rewrite To, Hout in Vo. rewrite (Vo eq_refl), Hout.
  unfold lift at 1.
  rewrite (member_non_nullish _ "inference_inputs" (member_opt_source _ _ Hout)).
  rewrite call_after. simpl calls.
  unfold fetched, rbind in Hfetch.
  destruct (net w (S (calls s)) _) as [resp|e']; [|same_run].
  unfold lift. rewrite Hfetch. same_run.
Qed.

(** The job is listed with an output and the image is had. *)
Lemma pollIteration_fetched (pid gid entry : value) (w : World) (s : St) (url : string) :
  truthy gid = true ->
  job_entry (net w (calls s) (GetNode pid)) gid = Some entry ->
  truthy (entry_field entry "output") = true ->
  fetched Buffer_base64
    (net w (S (calls s)) (GetImage pid (entry_field entry "output"))) = Returns url ->
  pollIteration' pid gid w s
  = (Returns (Some (mkPollResult [url] (or_else (echoed_seed entry) (VNum (-1))))),
     after s [Call (GetNode pid);
              Call (GetImage pid (entry_field entry "output"))] 2).
Proof.
  intros Hg Hent Hout Hfetch. unfold echoed_seed, entry_field in *.
  find_entry Hg Hent.
  destruct (and_member_spec (member_opt entry "data") "output") as (o & Eo & To & Vo).
  unfold lift at 1. rewrite Eo.
  rewrite To, Hout in Vo. rewrite (Vo eq_refl), Hout.
  unfold lift at 1.
  rewrite (member_non_nullish _ "inference_inputs" (member_opt_source _ _ Hout)).
  rewrite call_after. simpl calls.
  unfold fetched, rbind in Hfetch.
  destruct (net w (S (calls s)) _) as [resp|e']; [|discriminate].
  unfold lift. rewrite Hfetch. same_run.
Qed.
End Poller.

(** ** The polling loop *)

Section Loop.
Variable errorDetails : AxiosError -> string.
Variable Buffer_base64 : value -> result string.
Variable this : ReveAIOptions.

Local Abbreviation pollIteration' := (pollIteration errorDetails Buffer_base64 this).
Local Abbreviation pollLoop' := (pollLoop errorDetails Buffer_base64 this).
Local Abbreviation goes_round' := (goes_round errorDetails Buffer_base64 this).

Lemma pollLoop_pass (pid gid : value) (r : nat) (a : Z) (w : World) (s s1 : St) :
  pollIteration' pid gid w s = (Returns None, s1) ->
  pollLoop' pid gid (S r) a w s = pollLoop' pid gid r (a + 1) w s1.
Proof. intros H. simpl. unfold bind. rewrite H. reflexivity. Qed.

Lemma pollLoop_return (pid gid : value) (r : nat) (a : Z) (w : World) (s s1 : St)
    (res : PollResult) :
  pollIteration' pid gid w s = (Returns (Some res), s1) ->
  pollLoop' pid gid (S r) a w s = (Returns res, s1).
Proof. intros H. simpl. unfold bind. rewrite H. reflexivity. Qed.

Lemma pollLoop_throw (pid gid : value) (r : nat) (a : Z) (w : World) (s s1 : St)
    (e : exn) :
  pollIteration' pid gid w s = (Throws e, s1) ->
  pollLoop' pid gid (S r) a w s = (Throws e, s1).
Proof. intros H. simpl. unfold bind. rewrite H. reflexivity. Qed.

Lemma pollLoop_goes_round (pid gid : value) (w : World)
    (r : nat) (a : Z) (s : St) (r' : nat) (a' : Z) (s' : St) :
  goes_round' pid gid w r a s r' a' s' ->
  pollLoop' pid gid r a w s = pollLoop' pid gid r' a' w s'.
Proof.
  induction 1 as [|r a s s1 r' a' s' Hpass _ IH]; [reflexivity|].
  rewrite (pollLoop_pass pid gid r a w s s1 Hpass). exact IH.
Qed.

(** Passes only use up attempts: the counter and the attempts left always
    add up to the same budget. *)
Lemma goes_round_budget (pid gid : value) (w : World)
    (r : nat) (a : Z) (s : St) (r' : nat) (a' : Z) (s' : St) :
  goes_round' pid gid w r a s r' a' s' ->
  a' + Z.of_nat r' = a + Z.of_nat r /\ (r' <= r)%nat.
Proof.
  induction 1 as [|r a s s1 r' a' s' _ _ [IH1 IH2]]; [lia|]. lia.
Qed.
End Loop.

(** ** What each part of the client leaves in the trace *)

Lemma emits_ret {A} (P : event -> bool) (a : A) : emits P (ret a).
Proof. intros w s. split; [reflexivity|]. exists []. split; [symmetry; apply app_nil_r|reflexivity]. Qed.

Lemma emits_throw {A} (P : event -> bool) (e : exn) : emits P (@throw A e).
Proof. intros w s. split; [reflexivity|]. exists []. split; [symmetry; apply app_nil_r|reflexivity]. Qed.

Lemma emits_lift {A} (P : event -> bool) (r : result A) : emits P (lift r).
Proof. intros w s. split; [reflexivity|]. exists []. split; [symmetry; apply app_nil_r|reflexivity]. Qed.

Lemma emits_call (P : event -> bool) (r : request) :
  P (Call r) = true -> emits P (call r).
Proof.
  intros H w s. split; [reflexivity|]. exists [Call r]. simpl. rewrite H. auto.
Qed.

Lemma emits_delay (P : event -> bool) (ms : Z) :
  P (Delay ms) = true -> emits P (delay ms).
Proof.
  intros H w s. split; [reflexivity|]. exists [Delay ms]. simpl. rewrite H. auto.
Qed.

Lemma emits_bind {A B} (P : event -> bool) (c : M A) (k : A -> M B) :
  emits P c -> (forall a, emits P (k a)) -> emits P (bind c k).
Proof.
  intros Hc Hk w s. unfold bind.
  destruct (Hc w s) as (Hd & evs & Ht & Hp).
  destruct (c w s) as [[a|e] s1]; simpl in *.
  - destruct (Hk a w s1) as (Hd' & evs' & Ht' & Hp').
    split; [congruence|]. exists (evs ++ evs').
    rewrite Ht', Ht, app_assoc, forallb_app, Hp, Hp'. auto.
  - split; [assumption|]. exists evs. auto.
Qed.

Lemma emits_try_catch {A} (P : event -> bool) (c : M A) (h : exn -> M A) :
  emits P c -> (forall e, emits P (h e)) -> emits P (try_catch c h).
Proof.
  intros Hc Hh w s. unfold try_catch.
  destruct (Hc w s) as (Hd & evs & Ht & Hp).
  destruct (c w s) as [[a|e] s1]; simpl in *.
  - split; [assumption|]. exists evs. auto.
  - destruct (Hh e w s1) as (Hd' & evs' & Ht' & Hp').
    split; [congruence|]. exists (evs ++ evs').
    rewrite Ht', Ht, app_assoc, forallb_app, Hp, Hp'. auto.
Qed.

Lemma emits_weaken {A} (P Q : event -> bool) (c : M A) :
  (forall e, P e = true -> Q e = true) -> emits P c -> emits Q c.
Proof.
  intros HPQ Hc w s. destruct (Hc w s) as (Hd & evs & Ht & Hp).
  split; [assumption|]. exists evs. split; [assumption|].
  apply forallb_forall. intros e He. apply HPQ.
  exact (proj1 (forallb_forall P evs) Hp e He).
Qed.

(** After its first step, a guarded sequence adds what the rest and the
    handler add. *)
Lemma emits_after_first {A B} (P : event -> bool) (c : M A) (k : A -> M B)
    (h : exn -> M B) :
  (forall a, emits P (k a)) -> (forall e, emits P (h e)) ->
  forall w s,
    draws (snd (try_catch (bind c k) h w s)) = draws (snd (c w s))
    /\ exists evs,
         trace (snd (try_catch (bind c k) h w s)) = trace (snd (c w s)) ++ evs
         /\ forallb P evs = true.
Proof.
  intros Hk Hh w s. unfold try_catch, bind.
  destruct (c w s) as [[a|e] s1]; simpl.
  - destruct (Hk a w s1) as (Hd & evs & Ht & Hp).
    destruct (k a w s1) as [[b|e] s2]; simpl in *.
    + split; [assumption|]. exists evs. auto.
    + destruct (Hh e w s2) as (Hd' & evs' & Ht' & Hp').
      split; [congruence|]. exists (evs ++ evs').
      rewrite Ht', Ht, app_assoc, forallb_app, Hp, Hp'. auto.
  - apply Hh.
Qed.

Ltac emits_step :=
  first
    [ apply emits_ret
    | apply emits_throw
    | apply emits_lift
    | apply emits_call; reflexivity
    | apply emits_delay; reflexivity
    | apply emits_bind; [|intros ?]
    | apply emits_try_catch; [|intros ?]
    | match goal with
      | |- emits _ (match ?x with _ => _ end) => destruct x
      end ].

Ltac emits_all := repeat emits_step.

Lemma submissions_app (a b : list event) :
  submissions (a ++ b) = submissions a ++ submissions b.
Proof.
  induction a as [|e a IH]; simpl; [reflexivity|].
  destruct e as [[| | | |]|]; simpl; rewrite ?IH; reflexivity.
Qed.

Lemma enhance_requests_app (a b : list event) :
  enhance_requests (a ++ b) = enhance_requests a ++ enhance_requests b.
Proof.
  induction a as [|e a IH]; simpl; [reflexivity|].
  destruct e as [[| | | |]|]; simpl; rewrite ?IH; reflexivity.
Qed.

Lemma polls_app (a b : list event) : polls (a ++ b) = (polls a + polls b)%nat.
Proof. unfold polls. rewrite filter_app, length_app. reflexivity. Qed.

Lemma no_submissions (P : event -> bool) (evs : list event) :
  (forall pid p, P (Call (PostGeneration pid p)) = false) ->
  forallb P evs = true -> submissions evs = [].
Proof.
  intros HP. induction evs as [|e evs IH]; simpl; [reflexivity|].
  intros H. apply andb_true_iff in H as [He Hr].
  destruct e as [[| | pid p | |]|]; auto.
  rewrite HP in He. discriminate.
Qed.

Lemma no_enhance_requests (P : event -> bool) (evs : list event) :
  (forall p, P (Call (PostEnhance p)) = false) ->
  forallb P evs = true -> enhance_requests evs = [].
Proof.
  intros HP. induction evs as [|e evs IH]; simpl; [reflexivity|].
  intros H. apply andb_true_iff in H as [He Hr].
  destruct e as [[| p | | |]|]; auto.
  rewrite HP in He. discriminate.
Qed.

Lemma no_polls (P : event -> bool) (evs : list event) :
  (forall pid, P (Call (GetNode pid)) = false) ->
  forallb P evs = true -> polls evs = 0%nat.
Proof.
  intros HP. unfold polls. induction evs as [|e evs IH]; simpl; [reflexivity|].
  intros H. apply andb_true_iff in H as [He Hr].
  destruct e as [[| | | pid |]|]; simpl; auto.
  rewrite HP in He. discriminate.
Qed.

Section Traffic.
Variable errorDetails : AxiosError -> string.
Variable JSON_stringify : value -> string.
Variable Buffer_base64 : value -> result string.
Variable IS_TEST_ENV : bool.
Variable this : ReveAIOptions.

Lemma getProjectId_emits : emits project_lookup (getProjectId errorDetails this).
Proof.
  unfold getProjectId, fetchProjectId.
  destruct (projectId this) as [p|]; [destruct (String.eqb p EmptyString)|];
    emits_all.
Qed.

Lemma enhancePrompt_emits (prompt : string) (n : Z) :
  emits enhancer_traffic (enhancePrompt errorDetails this prompt n).
Proof.
  unfold enhancePrompt.
  apply emits_try_catch; [|intros; apply emits_ret].
  apply emits_bind.
  - apply (emits_weaken project_lookup); [|apply getProjectId_emits].
    intros [[| | | |]|]; simpl; auto.
  - intros pid. emits_all.
Qed.

(** Every pass makes one request for the node listing, first of all. *)
Lemma pollIteration_emits (pid gid : value) (w : World) (s : St) :
  let s' := snd (pollIteration errorDetails Buffer_base64 this pid gid w s) in
  draws s' = draws s
  /\ exists evs, trace s' = trace s ++ Call (GetNode pid) :: evs
                 /\ forallb fetch_or_wait evs = true.
Proof.
  cbv zeta. unfold pollIteration.
  match goal with
  | |- context [try_catch (bind ?c ?k) ?h] =>
      destruct (emits_after_first fetch_or_wait c k h) with (w := w) (s := s)
        as (Hd & evs & Ht & Hp)
  end.
  - intros resp. unfold wait_and_retry. emits_all.
  - intros e. emits_all.
  - rewrite Hd, Ht.
    change (snd (call (GetNode pid) w s)) with (after s [Call (GetNode pid)] 1).
    split; [reflexivity|].
    exists evs. unfold after; simpl. rewrite <- app_assoc. auto.
Qed.

Lemma pollLoop_emits (pid gid : value) (r : nat) (a : Z) :
  emits poller_traffic (pollLoop errorDetails Buffer_base64 this pid gid r a).
Proof.
  revert a. induction r as [|r IH]; intros a; simpl.
  - apply emits_throw.
  - intros w s. unfold bind.
    destruct (pollIteration_emits pid gid w s) as (Hd & evs & Ht & Hp).
    destruct (pollIteration errorDetails Buffer_base64 this pid gid w s)
      as [[[res|]|e] s1]; simpl in *.
    + split; [assumption|]. exists (Call (GetNode pid) :: evs).
      split; [assumption|]. simpl.
      apply forallb_forall. intros x Hx.
      pose proof (proj1 (forallb_forall _ _) Hp x Hx) as Hf.
      destruct x as [[| | | |]|]; simpl in *; auto.
    + destruct (IH (a + 1) w s1) as (Hd' & evs' & Ht' & Hp').
      split; [congruence|]. exists ((Call (GetNode pid) :: evs) ++ evs').
      rewrite Ht', Ht, app_assoc. split; [reflexivity|].
      rewrite forallb_app, Hp'. simpl. rewrite andb_true_r.
      apply forallb_forall. intros x Hx.
      pose proof (proj1 (forallb_forall _ _) Hp x Hx) as Hf.
      destruct x as [[| | | |]|]; simpl in *; auto.
    + split; [assumption|]. exists (Call (GetNode pid) :: evs).
      split; [assumption|]. simpl.
      apply forallb_forall. intros x Hx.
      pose proof (proj1 (forallb_forall _ _) Hp x Hx) as Hf.
      destruct x as [[| | | |]|]; simpl in *; auto.
Qed.

(** The loop asks for the listing at most once per attempt left. *)
Lemma pollLoop_polls (pid gid : value) (r : nat) (a : Z) (w : World) (s : St) :
  (polls (trace (snd (pollLoop errorDetails Buffer_base64 this pid gid r a w s)))
   <= polls (trace s) + r)%nat.
Proof.
  revert a s. induction r as [|r IH]; intros a s; simpl.
  - lia.
  - unfold bind.
    destruct (pollIteration_emits pid gid w s) as (Hd & evs & Ht & Hp).
    assert (Hone : polls (trace (snd (pollIteration errorDetails Buffer_base64 this
                                        pid gid w s)))
                   = S (polls (trace s))).
    { rewrite Ht, polls_app.
      change (Call (GetNode pid) :: evs) with ([Call (GetNode pid)] ++ evs).
      rewrite polls_app, (no_polls fetch_or_wait evs); auto.
      unfold polls; simpl; lia. }
    destruct (pollIteration errorDetails Buffer_base64 this pid gid w s)
      as [[[res|]|e] s1]; simpl in *; try lia.
    specialize (IH (a + 1) s1). lia.
Qed.
End Traffic.

(** ** The prompt enhancer *)

Section Enhancer.
Variable errorDetails : AxiosError -> string.
Variable this : ReveAIOptions.

(** [enhancePrompt] always returns: the variants of the last entry when
    the project id is known and the reply carries them, the prompt alone
    otherwise. *)
Lemma enhancePrompt_run (prompt : string) (n : Z) (w : World) (s : St) :
  enhancePrompt errorDetails this prompt n w s
  = match getProjectId errorDetails this w s with
    | (Returns pid, s1) =>
        (Returns
           (match last_entry_variants
                    (net w (calls s1) (PostEnhance (enhance_payload prompt n pid))) with
            | Some variants => variants
            | None => [VStr prompt]
            end),
         after s1 [Call (PostEnhance (enhance_payload prompt n pid))] 1)
    | (Throws _, s1) => (Returns [VStr prompt], s1)
    end.
Proof.
  unfold enhancePrompt, try_catch, bind at 1.
  destruct (getProjectId errorDetails this w s) as [[pid|e] s1]; [|reflexivity].
  unfold bind at 1. rewrite call_after. fold (enhance_payload prompt n pid).
  destruct (net w (calls s1) _) as [r|e]; [|reflexivity].
  unfold last_entry_variants.
  destruct (data r) as [| | | | |items|]; try reflexivity.
  destruct items as [|e es]; [reflexivity|].
  cbv zeta. remember (last_or_undefined (e :: es)) as lastResponse.
  destruct lastResponse as [| | | | | |fs]; try reflexivity.
  unfold bind, lift, member, member_opt.
  destruct (strict_eq (assoc "status" fs) (VStr "success")); [|reflexivity].
  destruct (assoc "outputs" fs) as [| |[|]|k|str| |ofs]; simpl; try reflexivity.
  - destruct (k =? 0); reflexivity.
  - destruct (String.eqb str EmptyString); reflexivity.
  - destruct (assoc "expanded_prompts" ofs); reflexivity.
Qed.

Lemma enhancePrompt_returns (prompt : string) (n : Z) (w : World) (s : St) :
  exists variants, fst (enhancePrompt errorDetails this prompt n w s) = Returns variants.
Proof.
  rewrite enhancePrompt_run.
  destruct (getProjectId errorDetails this w s) as [[pid|e] s1]; eexists; reflexivity.
Qed.
End Enhancer.

(** ** The submission of one job *)

Lemma lookup_is_enhancer_traffic (evs : list event) :
  forallb project_lookup evs = true -> forallb enhancer_traffic evs = true.
Proof.
  intros H. apply forallb_forall. intros x Hx.
  pose proof (proj1 (forallb_forall _ _) H x Hx).
  destruct x as [[| | | |]|]; simpl in *; auto.
Qed.

Section Submitter.
Variable errorDetails : AxiosError -> string.
Variable JSON_stringify : value -> string.
Variable Buffer_base64 : value -> result string.
Variable IS_TEST_ENV : bool.
Variable this : ReveAIOptions.

Local Abbreviation submitJob' :=
  (submitJob errorDetails JSON_stringify IS_TEST_ENV this).
Local Abbreviation finalPromptFor' := (finalPromptFor errorDetails this).

Lemma finalPromptFor_given (options : GenerateImageOptions) (ep : value) :
  truthy ep && shouldEnhance options = true ->
  finalPromptFor' options ep = ret ep.
Proof. intros H. unfold finalPromptFor. rewrite H. reflexivity. Qed.

Lemma finalPromptFor_emits (options : GenerateImageOptions) (ep : value) :
  emits enhancer_traffic (finalPromptFor' options ep).
Proof.
  unfold finalPromptFor.
  destruct (truthy ep && shouldEnhance options); [apply emits_ret|].
  destruct (shouldEnhance options); [|apply emits_ret].
  apply emits_bind; [apply enhancePrompt_emits|].
  intros [|v vs]; apply emits_ret.
Qed.

Lemma finalPromptFor_returns (options : GenerateImageOptions) (ep : value)
    (w : World) (s : St) :
  exists fp, fst (finalPromptFor' options ep w s) = Returns fp.
Proof.
  unfold finalPromptFor.
  destruct (truthy ep && shouldEnhance options); [eexists; reflexivity|].
  destruct (shouldEnhance options); [|eexists; reflexivity].
  unfold bind.
  destruct (enhancePrompt_returns errorDetails this (prompt options) 1 w s) as (vs & E).
  destruct (enhancePrompt errorDetails this (prompt options) 1 w s) as [r s1].
  simpl in E. subst r. destruct vs; eexists; reflexivity.
Qed.

(** [submitJob], step by step. *)
Lemma submitJob_steps (options : GenerateImageOptions) (ep : value) (w : World) (s : St) :
  submitJob' options ep w s
  = match getProjectId errorDetails this w s with
    | (Throws e, s1) => (Throws e, s1)
    | (Returns pid, s1) =>
        match validateImageOptions (width options) (height options) (Some 1) with
        | Throws e => (Throws e, s1)
        | Returns _ =>
            match finalPromptFor' options ep w s1 with
            | (Throws e, s2) => (Throws e, s2)
            | (Returns fp, s2) =>
                match freshGenerationId w s2 with
                | (Throws e, s3) => (Throws e, s3)
                | (Returns gen, s3) =>
                    match seedFor (match seed options with
                                   | None => -1
                                   | Some x => x
                                   end) w s3 with
                    | (Throws e, s4) => (Throws e, s4)
                    | (Returns z, s4) =>
                        let req := PostGeneration pid (job_payload options fp z gen) in
                        (resp <~ net w (calls s4) req ;;
                         read_submission JSON_stringify IS_TEST_ENV pid fp resp,
                         after s4 [Call req] 1)
                    end
                end
            end
        end
    end.
Proof.
  unfold submitJob, bind at 1.
  destruct (getProjectId errorDetails this w s) as [[pid|e] s1]; [|reflexivity].
  unfold bind at 1, lift at 1.
  destruct (validateImageOptions _ _ _) as [[]|e]; [|reflexivity].
  unfold bind at 1.
  destruct (finalPromptFor' options ep w s1) as [[fp|e] s2]; [|reflexivity].
  unfold bind at 1.
  destruct (freshGenerationId w s2) as [[gen|e] s3]; [|reflexivity].
  unfold bind at 1.
  destruct (seedFor _ w s3) as [[z|e] s4]; [|reflexivity].
  unfold bind at 1. rewrite call_after.
  unfold job_payload, shouldEnhance. cbv zeta.
  destruct (net w (calls s4) _) as [resp|e]; [|reflexivity].
  unfold read_submission, rbind. simpl.
  destruct (IS_TEST_ENV && negb (truthy (data resp))); [reflexivity|].
  unfold bind, lift.
  destruct (extractGenerationId (data resp)) as [gid|e]; [|reflexivity].
  destruct (negb (truthy gid)); reflexivity.
Qed.

Lemma freshGenerationId_run (w : World) (s : St) :
  exists gen s3,
    freshGenerationId w s = (Returns gen, s3)
    /\ trace s3 = trace s /\ calls s3 = calls s
    /\ draws s3 = seed_draw_index w (draws s).
Proof.
  unfold freshGenerationId, seed_draw_index.
  destruct (randomUUID w); do 2 eexists; repeat split.
Qed.

Lemma seedFor_run (jobSeed : option Z) (w : World) (d : nat) (s3 : St) :
  draws s3 = seed_draw_index w d ->
  exists s4,
    seedFor (match jobSeed with None => -1 | Some x => x end) w s3
    = (Returns (match jobSeed with
                | None => random_seed w d
                | Some x => if x =? -1 then random_seed w d else x
                end), s4)
    /\ trace s4 = trace s3 /\ calls s4 = calls s3.
Proof.
  intros Hs3. unfold seedFor, random_seed.
  destruct jobSeed as [x|]; simpl.
  - destruct (x =? -1).
    + unfold bind, Math_random, ret. rewrite Hs3. eexists. repeat split.
    + eexists. repeat split.
  - unfold bind, Math_random, ret. rewrite Hs3. eexists. repeat split.
Qed.

Lemma read_submission_submitted (pid fp : value) (resp : response)
    (pid' gid fp' : value) :
  read_submission JSON_stringify IS_TEST_ENV pid fp resp
  = Returns (Submitted pid' gid fp') ->
  pid' = pid /\ fp' = fp /\ truthy gid = true.
Proof.
  unfold read_submission.
  destruct (IS_TEST_ENV && negb (truthy (data resp))); [discriminate|].
  unfold rbind. destruct (extractGenerationId (data resp)) as [g|e]; [|discriminate].
  destruct (truthy g) eqn:Hg; simpl; [|discriminate].
  intros H. injection H as <- <- <-. auto.
Qed.

(** [submitJob] either throws before it has sent anything but look-ups and
    enhancement requests, or sends one submission, whose seed and caption
    are as follows, and then throws, returns the test stub, or returns a
    truthy generation id. *)
Lemma submitJob_run (options : GenerateImageOptions) (ep : value) (w : World) (s : St) :
  exists evs,
    forallb enhancer_traffic evs = true
    /\ (truthy ep && shouldEnhance options = true -> forallb project_lookup evs = true)
    /\ ((trace (snd (submitJob' options ep w s)) = trace s ++ evs
         /\ exists e, fst (submitJob' options ep w s) = Throws e)
        \/ exists pid p,
             trace (snd (submitJob' options ep w s))
             = trace s ++ evs ++ [Call (PostGeneration pid p)]
             /\ pl_seed p
                = (match seed options with
                   | None => random_seed w (draws s)
                   | Some x => if x =? -1 then random_seed w (draws s) else x
                   end)
             /\ (truthy ep && shouldEnhance options = true -> caption p = ep)
             /\ (forall pid' gid fp,
                   fst (submitJob' options ep w s) = Returns (Submitted pid' gid fp) ->
                   pid' = pid /\ fp = caption p /\ truthy gid = true)).
Proof.
  rewrite submitJob_steps.
  destruct (getProjectId_emits errorDetails this w s) as (Hd1 & evs1 & Ht1 & Hp1).
  pose proof (lookup_is_enhancer_traffic evs1 Hp1) as Hp1'.
  destruct (getProjectId errorDetails this w s) as [[pid|e] s1]; simpl in Hd1, Ht1.
  2:{ exists evs1. split; [assumption|]. split; [auto|].
      left. simpl. split; [exact Ht1|eauto]. }
  destruct (validateImageOptions (width options) (height options) (Some 1)) as [[]|e].
  2:{ exists evs1. split; [assumption|]. split; [auto|].
      left. simpl. split; [exact Ht1|eauto]. }
  destruct (finalPromptFor_emits options ep w s1) as (Hd2 & evs2 & Ht2 & Hp2).
  destruct (finalPromptFor_returns options ep w s1) as (fp & Hfp).
  assert (Hgiven : truthy ep && shouldEnhance options = true ->
                   fp = ep /\ evs2 = []).
  { intros Hg. rewrite (finalPromptFor_given options ep Hg) in Hfp, Ht2.
    simpl in Hfp, Ht2. split; [congruence|].
    apply (app_inv_head (trace s1)). rewrite app_nil_r. symmetry. exact Ht2. }
  destruct (finalPromptFor' options ep w s1) as [r2 s2].
  simpl in Hfp, Hd2, Ht2. subst r2.
  exists (evs1 ++ evs2).
  split; [rewrite forallb_app, Hp1', Hp2; reflexivity|].
  split.
  { intros Hg. destruct (Hgiven Hg) as [_ ->]. rewrite app_nil_r. exact Hp1. }
  right.
  destruct (freshGenerationId_run w s2) as (gen & s3 & Eid & Tid & Cid & Did).
  rewrite Eid.
  assert (Did' : draws s3 = seed_draw_index w (draws s)) by congruence.
  destruct (seedFor_run (seed options) w (draws s) s3 Did') as (s4 & Ez & Tz & Cz).
  rewrite Ez. cbv zeta.
  eexists pid, _. split; [|split; [|split]].
  - unfold after; simpl. rewrite Tz, Tid, Ht2, Ht1, !app_assoc. reflexivity.
  - reflexivity.
  - intros Hg. apply (Hgiven Hg).
  - simpl. intros pid' gid fp' Hsub.
    destruct (net w (calls s4) _) as [resp|e]; [|discriminate].
    simpl in Hsub. apply read_submission_submitted in Hsub.
    destruct Hsub as (-> & -> & Hg). auto.
Qed.
End Submitter.

(** ** The orchestrator *)

Section Orchestrator.
Variable errorDetails : AxiosError -> string.
Variable JSON_stringify : value -> string.
Variable Buffer_base64 : value -> result string.
Variable IS_TEST_ENV : bool.
Variable this : ReveAIOptions.

Local Abbreviation jobSpec' := jobSpec.
Local Abbreviation orchestrate' := (orchestrate errorDetails this).
Local Abbreviation dispatched' := (dispatched errorDetails this).
Local Abbreviation job_runs' :=
  (job_runs errorDetails JSON_stringify Buffer_base64 IS_TEST_ENV this).
Local Abbreviation job_outcomes' :=
  (job_outcomes errorDetails JSON_stringify Buffer_base64 IS_TEST_ENV this).
Local Abbreviation generateImage' :=
  (generateImage errorDetails JSON_stringify Buffer_base64 IS_TEST_ENV this).
Local Abbreviation generateSingleImage' :=
  (generateSingleImage errorDetails JSON_stringify Buffer_base64 IS_TEST_ENV this).

Lemma mapM_cons {A B} (f : A -> M B) (x : A) (l : list A) (w : World) (s : St) :
  mapM f (x :: l) w s
  = match f x w s with
    | (Returns y, s1) =>
        match mapM f l w s1 with
        | (Returns ys, s2) => (Returns (y :: ys), s2)
        | (Throws e, s2) => (Throws e, s2)
        end
    | (Throws e, s1) => (Throws e, s1)
    end.
Proof.
  simpl. unfold bind. destruct (f x w s) as [[y|e] s1]; [|reflexivity].
  destruct (mapM f l w s1) as [[ys|e] s2]; reflexivity.
Qed.

(** The callback of [Array.from] for job [j]: a draw is made only when
    the request has a base seed. *)
Lemma jobSpec_run (options : GenerateImageOptions) (enhance : bool) (vs : list value)
    (j : nat) (w : World) (s : St) :
  jobSpec options enhance vs j w s
  = (Returns (mkJobSpec (with_seed options (Some (job_seed (seed options) w (draws s))))
                (variant_for enhance vs j)),
     mkSt (trace s) (calls s)
       (match seed options with None => draws s | Some _ => S (draws s) end)).
Proof.
  unfold jobSpec, job_seed, variant_for, bind.
  destruct (seed options); [reflexivity|]. destruct s; reflexivity.
Qed.

(** Run over the indices [i, i+1, ...], job [j] takes the draw that follows
    those of the jobs before it. *)
Lemma mapM_jobSpec (options : GenerateImageOptions) (vs : list value)
    (w : World) (n i : nat) (s : St) :
  seed options = None \/ draws s = i ->
  exists s',
    mapM (jobSpec options (bool_or (enhancePrompt_opt options) true) vs) (seq i n) w s
    = (Returns (map (job_spec_of options vs w) (seq i n)), s')
    /\ trace s' = trace s /\ calls s' = calls s.
Proof.
  revert i s. induction n as [|n IH]; intros i s Hd.
  - eexists. repeat split.
  - change (seq i (S n)) with (i :: seq (S i) n).
    rewrite mapM_cons, jobSpec_run.
    match goal with
    | |- context [mapM ?f (seq (S i) n) w ?s1] =>
        destruct (IH (S i) s1) as (s' & E & T & C)
    end.
    { destruct Hd as [Hn|Hd]; [left; exact Hn|].
      destruct (seed options); [right; simpl; congruence|left; reflexivity]. }
    rewrite E. exists s'. split; [|split; [exact T|exact C]].
    simpl map. f_equal. f_equal. f_equal.
    unfold job_spec_of. f_equal. f_equal. f_equal.
    unfold job_seed. destruct Hd as [ -> | -> ]; [reflexivity|].
    destruct (seed options); reflexivity.
Qed.

Lemma enhancePrompt_draws (prompt : string) (n : Z) (w : World) (s : St) :
  draws (snd (enhancePrompt errorDetails this prompt n w s)) = draws s.
Proof. apply (enhancePrompt_emits errorDetails this prompt n w s). Qed.

(** A request that passes validation is fanned out into [batch_count]
    jobs, job [j] with the arguments [job_spec_of ... j]. *)
Lemma orchestrate_run (options : GenerateImageOptions) (w : World) :
  validateImageOptions (width options) (height options) (batchSize options)
  = Returns tt ->
  exists s',
    orchestrate' options w init
    = (Returns (map (job_spec_of options (batch_variants errorDetails this options w) w)
                  (seq 0 (batch_count options))), s')
    /\ trace s'
       = (if bool_or (enhancePrompt_opt options) true
             && (num_or (batchSize options) 1 >? 1)
          then trace (snd (enhancePrompt errorDetails this (prompt options)
                             (num_or (batchSize options) 1) w init))
          else []).
Proof.
  intros Hv. unfold orchestrate, batch_variants, batch_count.
  unfold bind at 1, lift at 1. rewrite Hv. cbv zeta.
  destruct (bool_or (enhancePrompt_opt options) true
            && (num_or (batchSize options) 1 >? 1)).
  - unfold bind at 1.
    pose proof (enhancePrompt_draws (prompt options) (num_or (batchSize options) 1)
                  w init) as Hd.
    destruct (enhancePrompt_returns errorDetails this (prompt options)
                (num_or (batchSize options) 1) w init) as (vs & Hvs).
    destruct (enhancePrompt errorDetails this (prompt options)
                (num_or (batchSize options) 1) w init) as [r s1].
    simpl in Hvs, Hd. subst r. simpl fst. cbv iota.
    destruct (mapM_jobSpec options vs w (Z.to_nat (num_or (batchSize options) 1))
                0 s1 (or_intror Hd)) as (s' & E & T & C).
    exists s'. split; [exact E|exact T].
  - unfold bind at 1, ret at 1.
    destruct (mapM_jobSpec options [] w (Z.to_nat (num_or (batchSize options) 1))
                0 init (or_intror eq_refl)) as (s' & E & T & C).
    exists s'. split; [exact E|exact T].
Qed.

Lemma dispatched_valid (options : GenerateImageOptions) (env : Env) :
  validateImageOptions (width options) (height options) (batchSize options)
  = Returns tt ->
  dispatched' options env
  = map (job_spec_of options (batch_variants errorDetails this options (main env))
           (main env))
      (seq 0 (batch_count options)).
Proof.
  intros Hv. unfold dispatched.
  destruct (orchestrate_run options (main env) Hv) as (s' & E & _).
  rewrite E. reflexivity.
Qed.

Lemma dispatched_invalid (options : GenerateImageOptions) (env : Env) (e : exn) :
  validateImageOptions (width options) (height options) (batchSize options)
  = Throws e ->
  dispatched' options env = [].
Proof.
  intros Hv. unfold dispatched.
  rewrite (orchestrate_invalid errorDetails this options (main env) e Hv). reflexivity.
Qed.
End Orchestrator.

(** ** Promise.all *)

Lemma sequence_returns {A} (outs : list (result A)) (rs : list A) :
  sequence outs = Returns rs -> outs = map Returns rs.
Proof.
  revert rs. induction outs as [|[x|e] outs IH]; simpl; intros rs H.
  - injection H as <-. reflexivity.
  - destruct (sequence outs) as [xs|e]; simpl in H; [|discriminate].
    injection H as <-. simpl. rewrite (IH xs eq_refl). reflexivity.
  - discriminate.
Qed.

Lemma first_rejection_none_prefix {A} (earlier later : list nat)
    (outs : list (result A)) :
  (forall k, In k earlier -> forall e, nth_error outs k <> Some (Throws e)) ->
  first_rejection (earlier ++ later) outs = first_rejection later outs.
Proof.
  induction earlier as [|k earlier IH]; simpl; intros H; [reflexivity|].
  destruct (nth_error outs k) as [[x|e]|] eqn:E.
  - apply IH. intros k' Hk'. apply H. auto.
  - exfalso. apply (H k (or_introl eq_refl) e). exact E.
  - apply IH. intros k' Hk'. apply H. auto.
Qed.

Lemma first_rejection_some {A} (order : list nat) (outs : list (result A)) (e : exn) :
  first_rejection order outs = Some e ->
  exists j, In j order /\ nth_error outs j = Some (Throws e).
Proof.
  induction order as [|k order IH]; simpl; [discriminate|].
  destruct (nth_error outs k) as [[x|e']|] eqn:E; intros H.
  - destruct (IH H) as (j & Hj & Hn). exists j. auto.
  - injection H as <-. exists k. auto.
  - destruct (IH H) as (j & Hj & Hn). exists j. auto.
Qed.

Lemma sequence_throws {A} (outs : list (result A)) (e : exn) :
  sequence outs = Throws e -> exists j, nth_error outs j = Some (Throws e).
Proof.
  induction outs as [|[x|e'] outs IH]; simpl; intros H.
  - discriminate.
  - destruct (sequence outs) as [xs|e'']; simpl in H; [discriminate|].
    injection H as <-. destruct (IH eq_refl) as (j & Hj). exists (S j). exact Hj.
  - injection H as <-. exists 0%nat. reflexivity.
Qed.

Lemma Promise_all_returns {A} (order : list nat) (outs : list (result A)) (rs : list A) :
  Promise_all order outs = Returns rs -> outs = map Returns rs.
Proof.
  unfold Promise_all. destruct (first_rejection order outs); [discriminate|].
  apply sequence_returns.
Qed.

Lemma Promise_all_throws {A} (order : list nat) (outs : list (result A)) (e : exn) :
  Promise_all order outs = Throws e -> exists j, nth_error outs j = Some (Throws e).
Proof.
  unfold Promise_all. destruct (first_rejection order outs) as [e'|] eqn:E.
  - intros H. injection H as <-.
    destruct (first_rejection_some order outs e' E) as (j & _ & Hj). eauto.
  - apply sequence_throws.
Qed.

Lemma Promise_all_one_failure {A} (order : list nat) (outs : list (result A))
    (i : nat) (e : exn) :
  nth_error outs i = Some (Throws e) ->
  exists j e', nth_error outs j = Some (Throws e')
               /\ Promise_all order outs = Throws e'.
Proof.
  intros Hi. destruct (Promise_all order outs) as [rs|e'] eqn:E.
  - apply Promise_all_returns in E. rewrite E, nth_error_map in Hi.
    destruct (nth_error rs i); discriminate.
  - destruct (Promise_all_throws order outs e' E) as (j & Hj). eauto.
Qed.

Lemma Promise_all_first {A} (order : list nat) (outs : list (result A))
    (j : nat) (e : exn) :
  settles_first order outs j ->
  nth_error outs j = Some (Throws e) ->
  Promise_all order outs = Throws e.
Proof.
  intros (earlier & later & -> & Hclean) Hj. unfold Promise_all.
  rewrite (first_rejection_none_prefix earlier (j :: later) outs Hclean).
  simpl. rewrite Hj. reflexivity.
Qed.

(** ** generateImage *)

Section Batches.
Variable errorDetails : AxiosError -> string.
Variable JSON_stringify : value -> string.
Variable Buffer_base64 : value -> result string.
Variable IS_TEST_ENV : bool.
Variable this : ReveAIOptions.

Local Abbreviation rethrow' := (rethrow errorDetails IS_TEST_ENV this).
Local Abbreviation dispatched' := (dispatched errorDetails this).
Local Abbreviation run_jobs' :=
  (run_jobs errorDetails JSON_stringify Buffer_base64 IS_TEST_ENV this).
Local Abbreviation job_runs' :=
  (job_runs errorDetails JSON_stringify Buffer_base64 IS_TEST_ENV this).
Local Abbreviation job_outcomes' :=
  (job_outcomes errorDetails JSON_stringify Buffer_base64 IS_TEST_ENV this).
Local Abbreviation generateImage' :=
  (generateImage errorDetails JSON_stringify Buffer_base64 IS_TEST_ENV this).
Local Abbreviation generateSingleImage' :=
  (generateSingleImage errorDetails JSON_stringify Buffer_base64 IS_TEST_ENV this).

Lemma run_jobs_nth (env : Env) (specs : list JobSpec) (i0 j : nat) :
  nth_error (run_jobs' env i0 specs) j
  = option_map
      (fun spec =>
         generateSingleImage' (job_options spec) (job_enhancedPrompt spec)
           (job env (i0 + j)) init)
      (nth_error specs j).
Proof.
  revert i0 j. induction specs as [|spec specs IH]; intros i0 j; simpl.
  - destruct j; reflexivity.
  - destruct j; simpl.
    + rewrite Nat.add_0_r. reflexivity.
    + rewrite IH. rewrite Nat.add_succ_r. reflexivity.
Qed.

Lemma run_jobs_length (env : Env) (specs : list JobSpec) (i0 : nat) :
  List.length (run_jobs' env i0 specs) = List.length specs.
Proof.
  revert i0. induction specs as [|spec specs IH]; intros i0; simpl; [reflexivity|].
  rewrite IH. reflexivity.
Qed.

(** How each pipeline ends, by index. *)
Lemma job_runs_nth (options : GenerateImageOptions) (env : Env) (j : nat) :
  nth_error (job_runs' options env) j
  = option_map
      (fun spec =>
         generateSingleImage' (job_options spec) (job_enhancedPrompt spec)
           (job env j) init)
      (nth_error (dispatched' options env) j).
Proof. unfold job_runs. rewrite run_jobs_nth. reflexivity. Qed.

Lemma job_outcomes_nth (options : GenerateImageOptions) (env : Env) (j : nat) :
  nth_error (job_outcomes' options env) j
  = option_map fst (nth_error (job_runs' options env) j).
Proof. unfold job_outcomes. apply nth_error_map. Qed.

(** [generateImage] in terms of the outcomes of its pipelines. *)
Lemma generateImage_run (options : GenerateImageOptions) (env : Env) :
  validateImageOptions (width options) (height options) (batchSize options)
  = Returns tt ->
  outcome (generateImage' options env)
  = match results <~ Promise_all (settle_order env) (job_outcomes' options env) ;;
          assemble options env results with
    | Returns r => Returns r
    | Throws e => Throws (rethrow' e)
    end
  /\ job_sts (generateImage' options env) = map snd (job_runs' options env)
  /\ trace (main_st (generateImage' options env))
     = (if bool_or (enhancePrompt_opt options) true
           && (num_or (batchSize options) 1 >? 1)
        then trace (snd (enhancePrompt errorDetails this (prompt options)
                           (num_or (batchSize options) 1) (main env) init))
        else []).
Proof.
  intros Hv. unfold generateImage, job_outcomes, job_runs, dispatched.
  destruct (orchestrate_run errorDetails this options (main env) Hv) as (s' & E & T).
  rewrite E. simpl fst. cbv zeta.
  destruct (results <~ Promise_all _ _ ;; assemble options env results);
    simpl; auto.
Qed.

Lemma generateImage_invalid (options : GenerateImageOptions) (env : Env) (e : exn) :
  validateImageOptions (width options) (height options) (batchSize options)
  = Throws e ->
  generateImage' options env = mkRun (Throws (rethrow' e)) init [].
Proof.
  intros Hv. unfold generateImage.
  rewrite (orchestrate_invalid errorDetails this options (main env) e Hv). reflexivity.
Qed.

Lemma validate_cases (options : GenerateImageOptions) :
  validateImageOptions (width options) (height options) (batchSize options)
  = Returns tt
  \/ exists e, validateImageOptions (width options) (height options) (batchSize options)
               = Throws e.
Proof.
  destruct (validateImageOptions _ _ _) as [[]|e]; eauto.
Qed.

Lemma validate_batch (w h b : option Z) :
  validateImageOptions w h b = Returns tt -> batch_accepted b.
Proof.
  unfold validateImageOptions.
  destruct (bad_dimension w); [discriminate|].
  destruct (bad_dimension h); [discriminate|].
  destruct b as [n|]; simpl; [|auto].
  destruct (Z.ltb_spec n 1); [discriminate|].
  rewrite Z.gtb_ltb. destruct (Z.ltb_spec 8 n); [discriminate|]. lia.
Qed.

Lemma assemble_returns (options : GenerateImageOptions) (env : Env)
    (results : list SingleResult) (r : GenerateImageResult) :
  assemble options env results = Returns r ->
  imageUrls r = map imageUrl results
  /\ exists first rest, results = first :: rest /\ res_seed r = sr_seed first.
Proof.
  unfold assemble. destruct results as [|first rest]; [discriminate|].
  intros H. injection H as <-. split; [reflexivity|]. eauto.
Qed.

Lemma rethrow_typed (x : ReveAIError) :
  IS_TEST_ENV = false -> rethrow' (ThrownReve x) = ThrownReve x.
Proof. intros ->. reflexivity. Qed.

End Batches.

(** ** One pipeline *)

Section Pipelines.
Variable errorDetails : AxiosError -> string.
Variable JSON_stringify : value -> string.
Variable Buffer_base64 : value -> result string.
Variable IS_TEST_ENV : bool.
Variable this : ReveAIOptions.

Local Abbreviation submitJob' :=
  (submitJob errorDetails JSON_stringify IS_TEST_ENV this).
Local Abbreviation pollGenerationStatus' :=
  (pollGenerationStatus errorDetails Buffer_base64 this).
Local Abbreviation generateSingleImage' :=
  (generateSingleImage errorDetails JSON_stringify Buffer_base64 IS_TEST_ENV this).
Local Abbreviation dispatched' := (dispatched errorDetails this).
Local Abbreviation job_runs' :=
  (job_runs errorDetails JSON_stringify Buffer_base64 IS_TEST_ENV this).
Local Abbreviation job_outcomes' :=
  (job_outcomes errorDetails JSON_stringify Buffer_base64 IS_TEST_ENV this).
Local Abbreviation generateImage' :=
  (generateImage errorDetails JSON_stringify Buffer_base64 IS_TEST_ENV this).

Lemma generateSingleImage_steps (options : GenerateImageOptions) (ep : value)
    (w : World) (s : St) :
  generateSingleImage' options ep w s
  = match submitJob' options ep w s with
    | (Throws e, s1) => (Throws e, s1)
    | (Returns TestStub, s1) =>
        (Returns (mkSingleResult (VStr "https://example.com/test-image.jpg")
                    (VNum (-1)) VUndefined), s1)
    | (Returns (Submitted pid gid fp), s1) =>
        match pollGenerationStatus' pid gid w s1 with
        | (Returns res, s2) => (Returns (single_result options fp res), s2)
        | (Throws e, s2) => (Throws e, s2)
        end
    end.
Proof.
  unfold generateSingleImage, bind at 1.
  destruct (submitJob' options ep w s) as [[[|pid gid fp]|e] s1]; reflexivity.
Qed.

(** The pipeline of job [j], once its submission has been answered with a
    generation id, ends as its polling ends. *)
Lemma job_run_submitted (options : GenerateImageOptions) (env : Env) (j : nat)
    (spec : JobSpec) (pid gid fp : value) (s1 : St) :
  nth_error (dispatched' options env) j = Some spec ->
  submitJob' (job_options spec) (job_enhancedPrompt spec) (job env j) init
  = (Returns (Submitted pid gid fp), s1) ->
  nth_error (job_runs' options env) j
  = Some (match pollGenerationStatus' pid gid (job env j) s1 with
          | (Returns res, s2) => (Returns (single_result (job_options spec) fp res), s2)
          | (Throws e, s2) => (Throws e, s2)
          end).
Proof.
  intros Hspec Hsub.
  rewrite (job_runs_nth errorDetails JSON_stringify Buffer_base64 IS_TEST_ENV this),
    Hspec.
  simpl. rewrite generateSingleImage_steps, Hsub. reflexivity.
Qed.

Lemma dispatched_some_valid (options : GenerateImageOptions) (env : Env) (j : nat)
    (spec : JobSpec) :
  nth_error (dispatched' options env) j = Some spec ->
  validateImageOptions (width options) (height options) (batchSize options)
  = Returns tt.
Proof.
  intros H. destruct (validate_cases options) as [Hv|(e & Hv)]; [exact Hv|].
  rewrite (dispatched_invalid errorDetails this options env e Hv) in H.
  destruct j; discriminate.
Qed.

(** When the pipeline that settles first among those that reject is job
    [j], [generateImage] rejects with what the [catch] block makes of its
    failure. *)
Lemma generateImage_first_failure (options : GenerateImageOptions) (env : Env)
    (j : nat) (e : exn) (st : St) :
  nth_error (job_runs' options env) j = Some (Throws e, st) ->
  settles_first (settle_order env) (job_outcomes' options env) j ->
  outcome (generateImage' options env)
  = Throws (rethrow errorDetails IS_TEST_ENV this e).
Proof.
  intros Hrun Hfirst.
  assert (Hout : nth_error (job_outcomes' options env) j = Some (Throws e)).
  { rewrite job_outcomes_nth, Hrun. reflexivity. }
  destruct (validate_cases options) as [Hv|(e0 & Hv)].
  - destruct (generateImage_run errorDetails JSON_stringify Buffer_base64 IS_TEST_ENV
                this options env Hv) as (Ho & _).
    rewrite Ho, (Promise_all_first _ _ j e Hfirst Hout). reflexivity.
  - unfold job_runs in Hrun.
    rewrite (dispatched_invalid errorDetails this options env e0 Hv) in Hrun.
    destruct j; discriminate.
Qed.

Lemma submitted_truthy (options : GenerateImageOptions) (ep : value) (w : World)
    (s s1 : St) (pid gid fp : value) :
  submitJob' options ep w s = (Returns (Submitted pid gid fp), s1) ->
  truthy gid = true.
Proof.
  intros H.
  destruct (submitJob_run errorDetails JSON_stringify IS_TEST_ENV this options ep w s)
    as (evs & _ & _ & [[_ (e & He)]|(pid0 & p & _ & _ & _ & Hs)]).
  - rewrite H in He. discriminate.
  - apply (Hs pid gid fp). rewrite H. reflexivity.
Qed.
End Pipelines.

(** ** Strings *)

Lemma includes_cons (c : ascii) (s t : string) :
  includes (String c s) t
  = if String.prefix t (String c s) then true else includes s t.
Proof. reflexivity. Qed.

Lemma prefix_append (x q : string) : String.prefix x (x ++ q) = true.
Proof.
  induction x as [|c x IH]; simpl; [destruct q; reflexivity|].
  destruct (ascii_dec c c) as [_|N]; [exact IH|contradiction].
Qed.

Lemma includes_infix (p x q : string) : includes (p ++ (x ++ q)) x = true.
Proof.
  induction p as [|c p IH].
  - cbn [append]. destruct x as [|d x]; [destruct q; reflexivity|].
    cbn [append]. rewrite includes_cons.
    change (String d (x ++ q)) with (String d x ++ q)%string.
    rewrite prefix_append. reflexivity.
  - cbn [append]. rewrite includes_cons.
    destruct (String.prefix x (String c (p ++ (x ++ q)))); [reflexivity|exact IH].
Qed.

Lemma append_empty (x : string) : (x ++ EmptyString)%string = x.
Proof. induction x as [|c x IH]; simpl; [reflexivity|]. rewrite IH. reflexivity. Qed.

Lemma includes_append (p x : string) : includes (p ++ x) x = true.
Proof.
  rewrite <- (append_empty x) at 1. apply includes_infix.
Qed.

(** ** The poller: failure, time-out, retry, echoed seed *)

Section PollerClaims.
Variable errorDetails : AxiosError -> string.
Variable JSON_stringify : value -> string.
Variable Buffer_base64 : value -> result string.
Variable IS_TEST_ENV : bool.
Variable this : ReveAIOptions.

Local Abbreviation submitJob' :=
  (submitJob errorDetails JSON_stringify IS_TEST_ENV this).
Local Abbreviation pollIteration' := (pollIteration errorDetails Buffer_base64 this).
Local Abbreviation pollLoop' := (pollLoop errorDetails Buffer_base64 this).
Local Abbreviation pollGenerationStatus' :=
  (pollGenerationStatus errorDetails Buffer_base64 this).
Local Abbreviation goes_round' := (goes_round errorDetails Buffer_base64 this).
Local Abbreviation dispatched' := (dispatched errorDetails this).
Local Abbreviation job_runs' :=
  (job_runs errorDetails JSON_stringify Buffer_base64 IS_TEST_ENV this).
Local Abbreviation job_outcomes' :=
  (job_outcomes errorDetails JSON_stringify Buffer_base64 IS_TEST_ENV this).
Local Abbreviation generateImage' :=
  (generateImage errorDetails JSON_stringify Buffer_base64 IS_TEST_ENV this).

(** C6 (as amended): outside the test environment, when a pass of the
    polling loop of job [j] finds the status entry of the job with no
    output identifier and with [data.error] a non-empty message [X], the
    pipeline makes no further request and does not wait: it rejects with a
    GENERATION_ERROR whose message is "Generation failed: X", and
    [generateImage] rejects with that error when job [j] settles first
    among the pipelines that reject. *)
Theorem C6_failed_job_stops_polling
    (options : GenerateImageOptions) (env : Env) (j : nat) (spec : JobSpec)
    (pid gid fp : value) (s1 : St) (r : nat) (a : Z) (s : St)
    (entry : value) (X : string) :
  IS_TEST_ENV = false ->
  nth_error (dispatched' options env) j = Some spec ->
  submitJob' (job_options spec) (job_enhancedPrompt spec) (job env j) init
  = (Returns (Submitted pid gid fp), s1) ->
  goes_round' pid gid (job env j) (Z.to_nat (maxPollingAttempts this)) 0 s1 (S r) a s ->
  job_entry (net (job env j) (calls s) (GetNode pid)) gid = Some entry ->
  truthy (entry_field entry "output") = false ->
  entry_field entry "error" = VStr X ->
  X <> EmptyString ->
  let failure := mkReveAIError ("Generation failed: " ++ X) GENERATION_ERROR None in
  nth_error (job_runs' options env) j
  = Some (Throws (ThrownReve failure), after s [Call (GetNode pid)] 1)
  /\ includes (message failure) X = true
  /\ (settles_first (settle_order env) (job_outcomes' options env) j ->
      outcome (generateImage' options env) = Throws (ThrownReve failure)).
Proof.
  intros Hprod Hspec Hsub Hround Hentry Hout Herr HX failure.
  pose proof (submitted_truthy errorDetails JSON_stringify IS_TEST_ENV this
                _ _ _ _ _ _ _ _ Hsub) as Hg.
  assert (Htruthy : truthy (entry_field entry "error") = true).
  { rewrite Herr. simpl. apply negb_true_iff, String.eqb_neq. exact HX. }
  pose proof (pollIteration_failed errorDetails Buffer_base64 this
                pid gid entry (job env j) s Hg Hentry Hout Htruthy) as Hpass.
  rewrite Herr in Hpass. simpl to_string in Hpass.
  assert (Hpoll : pollGenerationStatus' pid gid (job env j) s1
                  = (Throws (ThrownReve failure), after s [Call (GetNode pid)] 1)).
  { unfold pollGenerationStatus.
    rewrite (pollLoop_goes_round errorDetails Buffer_base64 this _ _ _ _ _ _ _ _ _
               Hround).
    apply pollLoop_throw. exact Hpass. }
  assert (Hrun : nth_error (job_runs' options env) j
                 = Some (Throws (ThrownReve failure), after s [Call (GetNode pid)] 1)).
  { rewrite (job_run_submitted errorDetails JSON_stringify Buffer_base64 IS_TEST_ENV
               this options env j spec pid gid fp s1 Hspec Hsub), Hpoll.
    reflexivity. }
  split; [exact Hrun|]. split; [apply includes_append|].
  intros Hfirst.
  rewrite (generateImage_first_failure errorDetails JSON_stringify Buffer_base64
             IS_TEST_ENV this options env j _ _ Hrun Hfirst).
  rewrite rethrow_typed; [reflexivity|exact Hprod].
Qed.




(** With an attempt left, the first thing the loop does is ask for the
    listing. *)
Lemma pollLoop_first_poll (pid gid : value) (r : nat) (a : Z) (w : World) (s : St) :
  exists evs,
    trace (snd (pollLoop' pid gid (S r) a w s)) = trace s ++ Call (GetNode pid) :: evs.
Proof.
  simpl. unfold bind.
  destruct (pollIteration_emits errorDetails Buffer_base64 this pid gid w s)
    as (_ & evs & Ht & _).
  destruct (pollIteration' pid gid w s) as [[[res|]|e] s1]; simpl in *; eauto.
  destruct (pollLoop_emits errorDetails Buffer_base64 this pid gid r (a + 1) w s1)
    as (_ & evs' & Ht' & _).
  exists (evs ++ evs'). rewrite Ht', Ht, <- app_assoc. reflexivity.
Qed.

(** C8: a pass of the polling loop that finds the status entry of the job
    with an output identifier, and cannot get the image, does not end the
    polling: it waits one polling interval and goes round with one attempt
    fewer left and the counter one higher; with an attempt left the loop
    then asks for the listing again, with none left it times out; and the
    listing is never asked for more than [maxPollingAttempts] times. *)
Theorem C8_fetch_failure_is_retried
    (pid gid : value) (w : World) (r : nat) (a : Z) (s : St) (entry : value) (e : exn) :
  truthy gid = true ->
  job_entry (net w (calls s) (GetNode pid)) gid = Some entry ->
  truthy (entry_field entry "output") = true ->
  fetched Buffer_base64
    (net w (S (calls s)) (GetImage pid (entry_field entry "output"))) = Throws e ->
  let s' := after s [Call (GetNode pid);
                     Call (GetImage pid (entry_field entry "output"));
                     Delay (pollingInterval this)] 2 in
  pollIteration' pid gid w s = (Returns None, s')
  /\ pollLoop' pid gid (S r) a w s = pollLoop' pid gid r (a + 1) w s'
  /\ (r = 0%nat ->
      pollLoop' pid gid (S r) a w s
      = (Throws (ThrownReve (mkReveAIError
           ("Generation timed out after " ++ string_of_Z (a + 1) ++ " polling attempts")
           POLLING_ERROR None)), s'))
  /\ (forall r', r = S r' ->
      exists evs,
        trace (snd (pollLoop' pid gid (S r) a w s))
        = trace s' ++ Call (GetNode pid) :: evs)
  /\ (forall w0 s0,
        (polls (trace (snd (pollGenerationStatus' pid gid w0 s0)))
         <= polls (trace s0) + Z.to_nat (maxPollingAttempts this))%nat).
Proof.
  intros Hg Hentry Hout Hfetch s'.
  pose proof (pollIteration_fetch_failed errorDetails Buffer_base64 this
                pid gid entry w s e Hg Hentry Hout Hfetch) as Hpass.
  pose proof (pollLoop_pass errorDetails Buffer_base64 this pid gid r a w s s' Hpass)
    as Hloop.
  split; [exact Hpass|]. split; [exact Hloop|]. split; [|split].
  - intros ->. rewrite Hloop. reflexivity.
  - intros r' ->. rewrite Hloop. apply pollLoop_first_poll.
  - intros w0 s0. apply pollLoop_polls.
Qed.

End PollerClaims.

(** ** What a pipeline submits *)

Lemma floor_mul_range (u : unit_draw) (n : Z) :
  in_unit u -> 0 < n -> 0 <= floor_mul u n < n.
Proof.
  unfold in_unit, floor_mul. intros [Hlo Hhi] Hn. split.
  - apply Z.div_pos; nia.
  - apply Z.div_lt_upper_bound; nia.
Qed.


Section Submissions.
Variable errorDetails : AxiosError -> string.
Variable JSON_stringify : value -> string.
Variable Buffer_base64 : value -> result string.
Variable IS_TEST_ENV : bool.
Variable this : ReveAIOptions.

Local Abbreviation submitJob' :=
  (submitJob errorDetails JSON_stringify IS_TEST_ENV this).
Local Abbreviation generateSingleImage' :=
  (generateSingleImage errorDetails JSON_stringify Buffer_base64 IS_TEST_ENV this).
Local Abbreviation dispatched' := (dispatched errorDetails this).
Local Abbreviation job_runs' :=
  (job_runs errorDetails JSON_stringify Buffer_base64 IS_TEST_ENV this).
Local Abbreviation generateImage' :=
  (generateImage errorDetails JSON_stringify Buffer_base64 IS_TEST_ENV this).

(** The trace of a pipeline: look-ups and enhancement requests, then at
    most one submission, then polling. *)
Lemma job_trace (options : GenerateImageOptions) (ep : value) (w : World) (s : St) :
  exists evs,
    forallb enhancer_traffic evs = true
    /\ (truthy ep && shouldEnhance options = true -> forallb project_lookup evs = true)
    /\ (trace (snd (generateSingleImage' options ep w s)) = trace s ++ evs
        \/ exists pid p tail,
             trace (snd (generateSingleImage' options ep w s))
             = trace s ++ evs ++ [Call (PostGeneration pid p)] ++ tail
             /\ forallb poller_traffic tail = true
             /\ pl_seed p
                = (match seed options with
                   | None => random_seed w (draws s)
                   | Some x => if x =? -1 then random_seed w (draws s) else x
                   end)
             /\ (truthy ep && shouldEnhance options = true -> caption p = ep)).
Proof.
  rewrite generateSingleImage_steps.
  destruct (submitJob_run errorDetails JSON_stringify IS_TEST_ENV this options ep w s)
    as (evs & Hp & Hq & Hcases).
  exists evs. split; [exact Hp|]. split; [exact Hq|].
  destruct (submitJob' options ep w s) as [[[|pid gid fp]|e] s1]; simpl in Hcases.
  - destruct Hcases as [[_ (e & He)]|(pid0 & p & Ht & Hs & Hc & _)]; [discriminate|].
    right. exists pid0, p, []. simpl. rewrite Ht. auto.
  - destruct Hcases as [[_ (e & He)]|(pid0 & p & Ht & Hs & Hc & _)]; [discriminate|].
    right.
    destruct (pollLoop_emits errorDetails Buffer_base64 this pid gid
                (Z.to_nat (maxPollingAttempts this)) 0 w s1)
      as (_ & tail & Htail & Hpt).
    exists pid0, p, tail. unfold pollGenerationStatus.
    destruct (pollLoop errorDetails Buffer_base64 this pid gid _ 0 w s1)
      as [[res|e] s2]; simpl in *;
      rewrite Htail, Ht, <- !app_assoc; auto.
  - destruct Hcases as [[Ht _]|(pid0 & p & Ht & Hs & Hc & _)].
    + left. exact Ht.
    + right. exists pid0, p, []. simpl. rewrite Ht. auto.
Qed.

(** A pipeline submits at most one payload; its seed is the job's seed,
    or a draw of its own when that seed is the sentinel; its caption is the
    variant handed in, when there is one and enhancement is on. *)
Lemma job_submissions (options : GenerateImageOptions) (ep : value) (w : World)
    (p : GenerationPayload) :
  In p (submissions (trace (snd (generateSingleImage' options ep w init)))) ->
  pl_seed p
  = (match seed options with
     | None => random_seed w 0
     | Some x => if x =? -1 then random_seed w 0 else x
     end)
  /\ (truthy ep && shouldEnhance options = true -> caption p = ep).
Proof.
  destruct (job_trace options ep w init)
    as (evs & Hp & _ & [Ht|(pid & q & tail & Ht & Hpt & Hs & Hc)]);
    rewrite Ht; simpl trace; rewrite ?submissions_app;
    rewrite (no_submissions enhancer_traffic evs) by (auto; reflexivity).
  - intros [].
  - rewrite (no_submissions poller_traffic tail) by (auto; reflexivity).
    simpl. intros [<-|[]]. auto.
Qed.


(** The state a pipeline of a run ends in. *)
Lemma job_sts_nth (options : GenerateImageOptions) (env : Env) (j : nat) (st : St) :
  nth_error (job_sts (generateImage' options env)) j = Some st ->
  validateImageOptions (width options) (height options) (batchSize options)
  = Returns tt
  /\ (j < batch_count options)%nat
  /\ st = snd (generateSingleImage'
                 (with_seed options (Some (job_seed (seed options) (main env) j)))
                 (variant_for (bool_or (enhancePrompt_opt options) true)
                    (batch_variants errorDetails this options (main env)) j)
                 (job env j) init).
Proof.
  intros H. destruct (validate_cases options) as [Hv|(e & Hv)].
  - split; [exact Hv|].
    destruct (generateImage_run errorDetails JSON_stringify Buffer_base64 IS_TEST_ENV
                this options env Hv) as (_ & Hj & _).
    rewrite Hj, nth_error_map,
      (job_runs_nth errorDetails JSON_stringify Buffer_base64 IS_TEST_ENV this),
      (dispatched_valid errorDetails this options env Hv), nth_error_map in H.
    destruct (nth_error (seq 0 (batch_count options)) j) as [k|] eqn:Hk;
      [|discriminate].
    pose proof (nth_error_Some (seq 0 (batch_count options)) j) as Hlt.
    rewrite Hk, length_seq in Hlt.
    assert (Hj' : (j < batch_count options)%nat) by (apply Hlt; discriminate).
    rewrite (nth_error_nth' _ 0%nat) in Hk by (rewrite length_seq; exact Hj').
    rewrite seq_nth in Hk by exact Hj'. injection Hk as <-.
    simpl in H. injection H as <-. auto.
  - rewrite (generateImage_invalid errorDetails JSON_stringify Buffer_base64
               IS_TEST_ENV this options env e Hv) in H.
    destruct j; discriminate.
Qed.
End Submissions.

(** ** Seeds, variants and the enhancer *)

Section BatchClaims.
Variable errorDetails : AxiosError -> string.
Variable JSON_stringify : value -> string.
Variable Buffer_base64 : value -> result string.
Variable IS_TEST_ENV : bool.
Variable this : ReveAIOptions.

Local Abbreviation getProjectId' := (getProjectId errorDetails this).
Local Abbreviation enhancePrompt' := (enhancePrompt errorDetails this).
Local Abbreviation batch_variants' := (batch_variants errorDetails this).
Local Abbreviation generateImage' :=
  (generateImage errorDetails JSON_stringify Buffer_base64 IS_TEST_ENV this).


(** A base seed plus its jitter is submitted as it is, unless the sum is
    the sentinel; in either case the seed submitted is not below the
    base. *)
Lemma specified_seed_submitted
    (options : GenerateImageOptions) (env : Env) (i : nat) (st : St)
    (p : GenerationPayload) (S0 : Z) :
  seed options = Some S0 ->
  in_unit (random (main env) i) ->
  in_unit (random (job env i) (seed_draw_index (job env i) 0)) ->
  nth_error (job_sts (generateImage' options env)) i = Some st ->
  In p (submissions (trace st)) ->
  let jitter := floor_mul (random (main env) i) 1000 in
  0 <= jitter < 1000
  /\ (S0 + jitter <> -1 -> pl_seed p = S0 + jitter)
  /\ (S0 + jitter = -1 -> pl_seed p = random_seed (job env i) 0)
  /\ S0 <= pl_seed p.
Proof.
  intros Hsome Hmain Hjob Hst Hin jitter.
  assert (Hj : 0 <= jitter < 1000) by (apply floor_mul_range; [exact Hmain|lia]).
  destruct (job_sts_nth errorDetails JSON_stringify Buffer_base64 IS_TEST_ENV this
              options env i st Hst) as (_ & _ & ->).
  apply job_submissions in Hin. destruct Hin as [Hs _].
  rewrite Hsome in Hs. simpl in Hs. fold jitter in Hs.
  pose proof (floor_mul_range _ 10000000 Hjob ltac:(lia)) as Hr.
  fold (random_seed (job env i) 0) in Hr.
  split; [exact Hj|].
  destruct (Z.eqb_spec (S0 + jitter) (-1)) as [E|E]; repeat split; intros; lia.
Qed.



End BatchClaims.

(** ** The statements at work on the small service *)

Lemma alone_settles_first {A} (outs : list (result A)) :
  settles_first [0%nat] outs 0.
Proof. exists [], []. split; [reflexivity|]. intros k []. Qed.


(** Validation at work: 384 by 1024 passes, a width of 1025 is refused
    before any request. *)
Lemma dimension_validation_at_work :
  validateImageOptions (Some 384) (Some 1024) None = Returns tt
  /\ exists e,
       validateImageOptions (Some 1025) None None = Throws (ThrownReve e)
       /\ type e = GENERATION_ERROR
       /\ run_of false (plain_options (Some 1025) None)
            (env_of happy half half [0%nat])
          = mkRun (Throws (ThrownReve e)) init [].
Proof.
  split.
  - apply (proj1 (dimension_validation no_details stringify_stub base64_stub
                    false client_cfg (plain_options (Some 384) (Some 1024))
                    (env_of happy half half [0%nat]))).
    + simpl. unfold dimension_ok. split; [lia|reflexivity].
    + simpl. unfold dimension_ok. split; [lia|reflexivity].
    + exact I.
  - apply (proj2 (dimension_validation no_details stringify_stub base64_stub
                    false client_cfg (plain_options (Some 1025) None)
                    (env_of happy half half [0%nat]))).
    left. simpl. unfold dimension_ok. split; [lia|]. intros [H _]. lia.
Defined.

(** C2 fails on the code: a width of 0 is supplied and is outside
    [384,1024], yet [validateImageOptions] lets it through (where a batch
    size of 0 is refused), and [generateImage] goes on to submit the default
    width. *)
Theorem C2_zero_width_is_let_through :
  ~ dimension_ok 0
  /\ validateImageOptions (Some 0) (Some 512) None = Returns tt
  /\ throws (validateImageOptions (Some 512) (Some 512) (Some 0)) = true
  /\ map (map pl_width)
       (map (fun st => submissions (trace st))
          (job_sts (run_of false (plain_options (Some 0) (Some 512))
                      (env_of happy half half [0%nat]))))
     = [[1024]].
Proof.
  split; [unfold dimension_ok; lia|]. repeat split; vm_compute; reflexivity.
Qed.







(** C6 at work: the job is listed with the error "boom". *)
Lemma C6_witness :
  outcome (run_of false (request_of None None (Some false))
             (env_of failing half half [0%nat]))
  = Throws (ThrownReve (mkReveAIError "Generation failed: boom" GENERATION_ERROR None)).
Proof.
  set (options := request_of None None (Some false)).
  set (env := env_of failing half half [0%nat]).
  destruct (C6_failed_job_stops_polling
              no_details stringify_stub base64_stub false client_cfg
              options env 0 (job_spec_of options [] (main env) 0)
              (VStr "proj") (VStr "gen-1") (VStr "a cat")
              (submitted_state options env) 2 0 (submitted_state options env)
              (entry_of [("error", VStr "boom")]) "boom")
    as (_ & _ & H).
  - reflexivity.
  - vm_compute. reflexivity.
  - vm_compute. reflexivity.
  - apply round_here.
  - vm_compute. reflexivity.
  - reflexivity.
  - reflexivity.
  - discriminate.
  - apply H. apply alone_settles_first.
Defined.

(** C6 as stated fails: the job is listed with [data.error = "boom"] and
    with an output; the poller takes the output, and [generateImage]
    resolves.  And in the test environment, with the error alone in the
    entry, the message [generateImage] rejects with does not contain
    "boom". *)
Lemma C6_output_wins_over_error :
  let env := env_of output_and_error half half [0%nat] in
  let entry := entry_of [("output", VStr "img-1"); ("error", VStr "boom")] in
  job_entry (net (job env 0%nat) 1 (GetNode (VStr "proj"))) (VStr "gen-1") = Some entry
  /\ entry_field entry "error" = VStr "boom"
  /\ imageUrls_of (outcome (run_of false (request_of None None (Some false)) env))
     = Some [VStr "data:image/webp;base64,AAAA"]
  /\ outcome (run_of true (request_of None None (Some false))
                (env_of failing half half [0%nat]))
     = Throws (ThrownReve (mkReveAIError "Generation failed" GENERATION_ERROR None))
  /\ includes "Generation failed" "boom" = false.
Proof.
  repeat split; vm_compute; reflexivity.
Qed.



(** C8 at work: the image cannot be fetched at the first pass. *)
Lemma C8_witness :
  pollIteration no_details base64_stub client_cfg (VStr "proj") (VStr "gen-1")
    (world_of unfetchable half) init
  = (Returns None,
     after init [Call (GetNode (VStr "proj"));
                 Call (GetImage (VStr "proj") (VStr "img-1"));
                 Delay 2000] 2).
Proof.
  destruct (C8_fetch_failure_is_retried no_details base64_stub client_cfg
              (VStr "proj") (VStr "gen-1") (world_of unfetchable half) 2 0 init
              (entry_of done_fields)
              (ThrownAxios (mkAxiosError "Network Error" None None VUndefined)))
    as (H & _).
  - reflexivity.
  - reflexivity.
  - reflexivity.
  - reflexivity.
  - exact H.
Defined.

(** C9 fails on the code: with base seed -2 and a jitter of 1 the job is
    handed -1, the sentinel, and submits a seed drawn at random, here
    5000000, which is not -2 plus a jitter of [0, 1000). *)
Theorem C9_jitter_can_hit_the_sentinel :
  let options := request_of None (Some (-2)) (Some false) in
  let env := env_of happy (mkDraw 1 1000) half [0%nat] in
  in_unit (mkDraw 1 1000)
  /\ floor_mul (mkDraw 1 1000) 1000 = 1
  /\ map (fun spec => seed (job_options spec)) (dispatched no_details client_cfg options env)
     = [Some (-1)]
  /\ submitted_seeds (run_of false options env) = [[5000000]]
  /\ ~ (exists jitter, 0 <= jitter < 1000 /\ 5000000 = -2 + jitter).
Proof.
  split; [unfold in_unit; simpl; lia|].
  split; [reflexivity|].
  split; [vm_compute; reflexivity|].
  split; [vm_compute; reflexivity|].
  intros (jitter & H & E). lia.
Qed.


(** * More of the client: helpers.ts *)

Lemma bad_dimension_false_iff (d : option Z) :
  bad_dimension d = false <-> dimension_let_through d.
Proof.
  destruct d as [x|]; simpl; [|tauto].
  unfold dimension_ok. rewrite andb_false_iff, negb_false_iff, Z.eqb_eq.
  rewrite !orb_false_iff, negb_false_iff, Z.eqb_eq, Z.ltb_ge, Z.gtb_ltb, Z.ltb_ge.
  split.
  - intros [H|[[H1 H2] H3]]; [left; exact H|right].
    split; [lia|]. rewrite <- rem8_mod8 by lia. exact H3.
  - intros [H|[H1 H2]]; [left; exact H|right].
    rewrite rem8_mod8 by lia. repeat split; lia || assumption.
Qed.

(** X1: [validateImageOptions] returns exactly when each of width and
    height is omitted, zero, or a multiple of 8 within [384,1024], and the
    batch size is omitted or within [1,8]; otherwise it throws a
    [ReveAIError] of kind GENERATION_ERROR without status code, and the
    message names the first constraint violated in the order width,
    height, batch size. *)
Theorem validateImageOptions_accepts_exactly (w h b : option Z) :
  (validateImageOptions w h b = Returns tt
   <-> dimension_let_through w /\ dimension_let_through h /\ batch_accepted b)
  /\ (validateImageOptions w h b = Returns tt
      \/ exists r, validateImageOptions w h b = Throws (ThrownReve r)
                   /\ type r = GENERATION_ERROR /\ statusCode r = None)
  /\ (~ dimension_let_through w ->
      validateImageOptions w h b
      = Throws (ThrownReve (mkReveAIError
          "Width must be between 384 and 1024 and be divisible by 8"
          GENERATION_ERROR None)))
  /\ (dimension_let_through w -> ~ dimension_let_through h ->
      validateImageOptions w h b
      = Throws (ThrownReve (mkReveAIError
          "Height must be between 384 and 1024 and be divisible by 8"
          GENERATION_ERROR None)))
  /\ (dimension_let_through w -> dimension_let_through h -> ~ batch_accepted b ->
      validateImageOptions w h b
      = Throws (ThrownReve (mkReveAIError
          "Batch size must be between 1 and 8" GENERATION_ERROR None))).
Proof.
  pose proof (bad_dimension_false_iff w) as Hw.
  pose proof (bad_dimension_false_iff h) as Hh.
  assert (Hb : match b with
               | Some n => (n <? 1) || (n >? 8) = false <-> batch_accepted b
               | None => batch_accepted b
               end).
  { destruct b as [n|]; simpl; [|exact I].
    rewrite orb_false_iff, Z.ltb_ge, Z.gtb_ltb, Z.ltb_ge. lia. }
  unfold validateImageOptions.
  destruct (bad_dimension w).
  { assert (Nw : ~ dimension_let_through w)
      by (intros H; apply Hw in H; discriminate).
    split; [split; [discriminate|tauto]|].
    split; [right; eexists; repeat split|].
    repeat split; tauto. }
  pose proof (proj1 Hw eq_refl) as Pw.
  destruct (bad_dimension h).
  { assert (Nh : ~ dimension_let_through h)
      by (intros H; apply Hh in H; discriminate).
    split; [split; [discriminate|tauto]|].
    split; [right; eexists; repeat split|].
    repeat split; tauto. }
  pose proof (proj1 Hh eq_refl) as Ph.
  destruct b as [n|].
  - destruct ((n <? 1) || (n >? 8)).
    + assert (Nb : ~ batch_accepted (Some n))
        by (intros H; apply Hb in H; discriminate).
      split; [split; [discriminate|tauto]|].
      split; [right; eexists; repeat split|].
      repeat split; tauto.
    + pose proof (proj1 Hb eq_refl) as Pb.
      split; [tauto|]. split; [left; reflexivity|]. repeat split; tauto.
  - split; [tauto|]. split; [left; reflexivity|]. repeat split; tauto.
Qed.



Section HelperProperties.
Variable errorDetails : AxiosError -> string.

Local Abbreviation normalise := (handleAxiosError errorDetails).

Lemma status_is_iff (st : option Z) (n : Z) : status_is st n = true <-> st = Some n.
Proof.
  destruct st as [x|]; simpl; [|split; discriminate].
  rewrite Z.eqb_eq. split; [intros ->; reflexivity|intros H; injection H; auto].
Qed.

(** X3: what the kinds mean for an error of the transport.
    [handleAxiosError] gives AUTHENTICATION_ERROR exactly for a status of
    401 or 403, and keeps the status; API_ERROR only for a status of 400 or
    more, which it keeps; TIMEOUT_ERROR only for the code ECONNABORTED or a
    message that includes "timeout", and then drops the status; never
    another kind than these and REQUEST_ERROR.  Kind and status do not
    depend on the operation named or on verbose mode, which only appends
    the details to the message. *)
Theorem handleAxiosError_kinds (ax : AxiosError) (op : string) (v : bool) :
  let r := normalise (ThrownAxios ax) op v in
  (type r = AUTHENTICATION_ERROR
   <-> ax_status ax = Some 401 \/ ax_status ax = Some 403)
  /\ (type r = AUTHENTICATION_ERROR -> statusCode r = ax_status ax)
  /\ (type r = API_ERROR ->
      exists s, ax_status ax = Some s /\ 400 <= s /\ statusCode r = Some s)
  /\ (type r = TIMEOUT_ERROR ->
      statusCode r = None
      /\ (ax_code ax = Some "ECONNABORTED" \/ includes (ax_message ax) "timeout" = true))
  /\ (type r = AUTHENTICATION_ERROR \/ type r = TIMEOUT_ERROR
      \/ type r = REQUEST_ERROR \/ type r = API_ERROR)
  /\ (forall op' v',
        type (normalise (ThrownAxios ax) op' v') = type r
        /\ statusCode (normalise (ThrownAxios ax) op' v') = statusCode r)
  /\ message (normalise (ThrownAxios ax) op true)
     = (message (normalise (ThrownAxios ax) op false) ++ errorDetails ax)%string.
Proof.
  cbv zeta. unfold handleAxiosError, with_details.
  pose proof (status_is_iff (ax_status ax) 401) as H401.
  pose proof (status_is_iff (ax_status ax) 403) as H403.
  destruct (status_is (ax_status ax) 401) eqn:E1.
  { pose proof (proj1 H401 eq_refl) as Hs. simpl.
    repeat split; auto; try discriminate. }
  destruct (status_is (ax_status ax) 403) eqn:E3.
  { pose proof (proj1 H403 eq_refl) as Hs. simpl.
    repeat split; auto; try discriminate. }
  assert (Hno : ~ (ax_status ax = Some 401 \/ ax_status ax = Some 403)).
  { intros [H|H]; [apply H401 in H|apply H403 in H]; discriminate. }
  simpl orb at 1.
  assert (Hcode : match ax_code ax with
                  | Some c => String.eqb c "ECONNABORTED"
                  | None => false
                  end = true -> ax_code ax = Some "ECONNABORTED").
  { destruct (ax_code ax) as [c|]; [|discriminate].
    intros H. apply String.eqb_eq in H. congruence. }
  destruct (match ax_code ax with
            | Some c => String.eqb c "ECONNABORTED"
            | None => false
            end) eqn:Ec.
  { simpl. repeat split; auto; try discriminate; try tauto. }
  simpl orb at 1.
  destruct (includes (ax_message ax) "timeout") eqn:Et.
  { simpl. repeat split; auto; try discriminate; try tauto. }
  destruct (includes (ax_message ax) "Network Error").
  { simpl. repeat split; auto; try discriminate; try tauto. }
  destruct (ax_status ax) as [st|] eqn:Es.
  - destruct (negb (st =? 0) && (st >=? 400)) eqn:Ea.
    + simpl. apply andb_true_iff in Ea as [_ Ea].
      rewrite Z.geb_le in Ea.
      repeat split; auto; try discriminate; try tauto.
      intros _. exists st. repeat split; auto.
    + simpl. repeat split; auto; try discriminate; try tauto.
  - simpl. repeat split; auto; try discriminate; try tauto.
Qed.

End HelperProperties.

(** * More of the client: index.ts *)

Lemma yields_ret {A} (Q : A -> Prop) (a : A) : Q a -> yields Q (ret a).
Proof. intros H w s a' E. injection E as <-. exact H. Qed.

Lemma yields_throw {A} (Q : A -> Prop) (e : exn) : yields Q (@throw A e).
Proof. intros w s a E. discriminate. Qed.

Lemma yields_bind {A B} (Q : B -> Prop) (c : M A) (k : A -> M B) :
  (forall a, yields Q (k a)) -> yields Q (bind c k).
Proof.
  intros Hk w s b. unfold bind.
  destruct (c w s) as [[a|e] s1]; [apply Hk|discriminate].
Qed.

Lemma yields_try_catch {A} (Q : A -> Prop) (c : M A) (h : exn -> M A) :
  yields Q c -> (forall e, yields Q (h e)) -> yields Q (try_catch c h).
Proof.
  intros Hc Hh w s a. unfold try_catch.
  pose proof (Hc w s) as Hc'.
  destruct (c w s) as [[a'|e] s1]; [exact (Hc' a)|apply Hh].
Qed.

Lemma raises_catch {A} (Q : exn -> Prop) (c : M A) (h : exn -> M A) :
  (forall e, raises Q (h e)) -> raises Q (try_catch c h).
Proof.
  intros Hh w s e. unfold try_catch.
  destruct (c w s) as [[a|e'] s1]; [discriminate|apply Hh].
Qed.

Lemma raises_throw {A} (Q : exn -> Prop) (e : exn) : Q e -> raises Q (@throw A e).
Proof. intros H w s e' E. injection E as <-. exact H. Qed.

Section Lookup.
Variable errorDetails : AxiosError -> string.
Variable this : ReveAIOptions.

Local Abbreviation getProjectId' := (getProjectId errorDetails this).
Local Abbreviation fetchProjectId' := (fetchProjectId errorDetails this).

Ltac lookup_reply H :=
  unfold fetchProjectId, try_catch, bind at 1; rewrite call_after, H.

Lemma fetchProjectId_state (w : World) (s : St) :
  snd (fetchProjectId' w s) = after s [Call GetProjects] 1.
Proof.
  unfold fetchProjectId, try_catch, bind at 1. rewrite call_after.
  destruct (net w (calls s) GetProjects) as [r|e].
  - destruct (data r) as [| | | | |[|first rest]|]; try reflexivity.
    unfold bind, lift.
    destruct (member first "id") as [v|[x|ax|msg]]; try reflexivity.
    destruct (status_is (ax_status ax) 404); reflexivity.
  - destruct e as [x|ax|msg]; try reflexivity.
    destruct (status_is (ax_status ax) 404); reflexivity.
Qed.

Lemma fetchProjectId_raises : raises (fun e => is_typed e = true) fetchProjectId'.
Proof.
  unfold fetchProjectId. apply raises_catch. intros e.
  destruct e as [x|ax|msg]; [| |]; try (apply raises_throw; reflexivity).
  destruct (status_is (ax_status ax) 404); apply raises_throw; reflexivity.
Qed.

(** X5: with a project id configured, [getProjectId] returns it without
    any request; without one (absent or empty) it makes exactly one
    request, for the list of projects, and whatever goes wrong it throws a
    [ReveAIError]. *)
Theorem getProjectId_requests (w : World) (s : St) :
  (forall p, projectId this = Some p -> p <> EmptyString ->
             getProjectId' w s = (Returns (VStr p), s))
  /\ (projectId this = None \/ projectId this = Some EmptyString ->
      snd (getProjectId' w s) = after s [Call GetProjects] 1)
  /\ (forall e, fst (getProjectId' w s) = Throws e -> is_typed e = true).
Proof.
  unfold getProjectId. split; [|split].
  - intros p -> N. apply String.eqb_neq in N. rewrite N. reflexivity.
  - intros [->| ->]; apply fetchProjectId_state.
  - intros e. destruct (projectId this) as [p|].
    + destruct (String.eqb p EmptyString); [apply fetchProjectId_raises|discriminate].
    + apply fetchProjectId_raises.
Qed.

(** X6: what the look-up of the project id makes of the reply: the [id] of
    the first project listed; an API_ERROR when the reply is not a
    non-empty array; an API_ERROR with status 404 when the endpoint is not
    found; a [ReveAIError] of the transport as it is; any other failure as
    [handleAxiosError] reads it. *)
Theorem getProjectId_outcomes (w : World) (s : St) :
  projectId this = None \/ projectId this = Some EmptyString ->
  let reply := net w (calls s) GetProjects in
  (forall r first rest,
     reply = Returns r -> data r = VArr (first :: rest) -> is_nullish first = false ->
     fst (getProjectId' w s) = Returns (member_opt first "id"))
  /\ (forall r,
        reply = Returns r ->
        match data r with VArr (_ :: _) => False | _ => True end ->
        fst (getProjectId' w s) = Throws (ThrownReve no_projects_found))
  /\ (forall ax,
        reply = Throws (ThrownAxios ax) -> ax_status ax = Some 404 ->
        exists r, fst (getProjectId' w s) = Throws (ThrownReve r)
                  /\ type r = API_ERROR /\ statusCode r = Some 404)
  /\ (forall x,
        reply = Throws (ThrownReve x) ->
        fst (getProjectId' w s) = Throws (ThrownReve x))
  /\ (forall e,
        reply = Throws e ->
        (forall ax, e = ThrownAxios ax -> ax_status ax <> Some 404) ->
        fst (getProjectId' w s)
        = Throws (ThrownReve (handleAxiosError errorDetails e "getting project ID"
                                (verbose this)))).
Proof.
  intros Hcfg.
  assert (E : getProjectId' w s = fetchProjectId' w s).
  { unfold getProjectId. destruct Hcfg as [->| ->]; reflexivity. }
  cbv zeta. rewrite E. clear E.
  split; [|split; [|split; [|split]]].
  - intros r first rest H Hd Hn. lookup_reply H. rewrite Hd.
    unfold bind, lift. rewrite (member_non_nullish first "id" Hn). reflexivity.
  - intros r H. lookup_reply H.
    destruct (data r) as [| | | | |[|first rest]|]; intros Hd;
      try reflexivity. destruct Hd.
  - intros ax H Hs. lookup_reply H.
    apply status_is_iff in Hs. rewrite Hs. eexists. repeat split.
  - intros x H. lookup_reply H. reflexivity.
  - intros e H Hn. lookup_reply H.
    destruct e as [x|ax|msg]; try reflexivity.
    destruct (status_is (ax_status ax) 404) eqn:Es; [|reflexivity].
    apply status_is_iff in Es. exfalso. exact (Hn ax eq_refl Es).
Qed.
End Lookup.

Lemma yields_bind_with {A B} (P : A -> Prop) (Q : B -> Prop) (c : M A) (k : A -> M B) :
  yields P c -> (forall a, P a -> yields Q (k a)) -> yields Q (bind c k).
Proof.
  intros Hc Hk w s b. unfold bind. pose proof (Hc w s) as Hc'.
  destruct (c w s) as [[a|e] s1]; [|discriminate].
  apply Hk. apply Hc'. reflexivity.
Qed.

Lemma yields_lift {A} (P : A -> Prop) (r : result A) :
  (forall a, r = Returns a -> P a) -> yields P (lift r).
Proof. intros H w s a E. apply H. exact E. Qed.

Lemma raises_bind {A B} (Q : exn -> Prop) (c : M A) (k : A -> M B) :
  raises Q c -> (forall a, raises Q (k a)) -> raises Q (bind c k).
Proof.
  intros Hc Hk w s e. unfold bind. pose proof (Hc w s) as Hc'.
  destruct (c w s) as [[a|e'] s1]; [apply Hk|].
  intros E. injection E as <-. apply Hc'. reflexivity.
Qed.

Lemma raises_ret {A} (Q : exn -> Prop) (a : A) : raises Q (ret a).
Proof. intros w s e E. discriminate. Qed.

Lemma or_else_truthy (a b : value) : truthy b = true -> truthy (or_else a b) = true.
Proof. intros H. unfold or_else. destruct (truthy a) eqn:E; [exact E|exact H]. Qed.

Section PollerProperties.
Variable errorDetails : AxiosError -> string.
Variable Buffer_base64 : value -> result string.
Variable this : ReveAIOptions.

Local Abbreviation pollIteration' := (pollIteration errorDetails Buffer_base64 this).
Local Abbreviation pollLoop' := (pollLoop errorDetails Buffer_base64 this).
Local Abbreviation pollGenerationStatus' :=
  (pollGenerationStatus errorDetails Buffer_base64 this).
Local Abbreviation goes_round' := (goes_round errorDetails Buffer_base64 this).

Lemma dataUrlOf_is_data_url (r : response) (u : string) :
  dataUrlOf Buffer_base64 r = Returns u -> is_data_url u.
Proof.
  unfold dataUrlOf, rbind.
  destruct (Buffer_base64 (data r)) as [b|e]; [|discriminate].
  destruct (member (headers r) "content-type") as [c|e]; [|discriminate].
  intros H. injection H as <-. eexists. eexists. reflexivity.
Qed.

Lemma wait_and_retry_yields (Q : PollResult -> Prop) :
  yields (fun o => forall res, o = Some res -> Q res) (wait_and_retry this).
Proof. intros w s o E. injection E as <-. discriminate. Qed.

Lemma pollIteration_yields (pid gid : value) :
  yields (fun o => forall res, o = Some res -> poll_result_ok res)
    (pollIteration' pid gid).
Proof.
  unfold pollIteration. apply yields_try_catch.
  - apply yields_bind. intros nodeResponse. apply yields_bind. intros list.
    destruct list; try apply wait_and_retry_yields.
    apply yields_bind. intros ourGeneration.
    destruct (truthy ourGeneration); [|apply wait_and_retry_yields].
    apply yields_bind. intros d. apply yields_bind. intros output.
    destruct (truthy output).
    + apply yields_bind. intros inference_inputs.
      apply yields_try_catch; [|intros e; apply wait_and_retry_yields].
      apply yields_bind. intros imageResponse.
      apply (yields_bind_with is_data_url).
      * apply yields_lift. apply dataUrlOf_is_data_url.
      * intros url Hurl. apply yields_ret. intros res E. injection E as <-.
        split; [exists url; split; [reflexivity|exact Hurl]|].
        apply or_else_truthy. reflexivity.
    + apply yields_bind. intros error.
      destruct (truthy error); [apply yields_throw|apply wait_and_retry_yields].
  - intros e. destruct e; apply yields_throw.
Qed.

Lemma pollIteration_raises (pid gid : value) :
  raises (fun e => is_typed e = true) (pollIteration' pid gid).
Proof.
  unfold pollIteration. apply raises_catch.
  intros e. destruct e; apply raises_throw; reflexivity.
Qed.

Lemma pollLoop_postcondition (pid gid : value) (r : nat) (a : Z) (w : World) (s : St) :
  match fst (pollLoop' pid gid r a w s) with
  | Returns res => poll_result_ok res
  | Throws e => is_typed e = true
  end.
Proof.
  revert a s. induction r as [|r IH]; intros a s; [reflexivity|].
  simpl. unfold bind at 1.
  pose proof (pollIteration_yields pid gid w s) as Hy.
  pose proof (pollIteration_raises pid gid w s) as Hr.
  destruct (pollIteration' pid gid w s) as [[[res|]|e] s1].
  - apply (Hy (Some res)); reflexivity.
  - apply IH.
  - apply (Hr e). reflexivity.
Qed.

(** X7: whatever the service replies, the poller throws nothing but a
    [ReveAIError], and what it resolves with is exactly one image, as a
    data URL, with a truthy seed; on the way it makes no random draw and
    nothing but requests for the listing, requests for an image and
    waits, the requests for the listing being at most
    [maxPollingAttempts]. *)
Theorem pollGenerationStatus_postcondition (pid gid : value) (w : World) (s : St) :
  let out := pollGenerationStatus' pid gid w s in
  match fst out with
  | Returns res => poll_result_ok res
  | Throws e => is_typed e = true
  end
  /\ draws (snd out) = draws s
  /\ exists evs,
       trace (snd out) = trace s ++ evs
       /\ forallb poller_traffic evs = true
       /\ (polls evs <= Z.to_nat (maxPollingAttempts this))%nat.
Proof.
  cbv zeta. unfold pollGenerationStatus.
  split; [apply pollLoop_postcondition|].
  destruct (pollLoop_emits errorDetails Buffer_base64 this pid gid
              (Z.to_nat (maxPollingAttempts this)) 0 w s)
    as (Hd & evs & Ht & Hp).
  split; [exact Hd|].
  exists evs. split; [exact Ht|]. split; [exact Hp|].
  pose proof (pollLoop_polls errorDetails Buffer_base64 this pid gid
                (Z.to_nat (maxPollingAttempts this)) 0 w s) as Hpolls.
  rewrite Ht, polls_app in Hpolls. lia.
Qed.

Lemma pollIteration_listing_failed (pid gid : value) (w : World) (s : St) (e : exn) :
  net w (calls s) (GetNode pid) = Throws e ->
  pollIteration' pid gid w s
  = (Throws (ThrownReve (polling_error errorDetails this e)),
     after s [Call (GetNode pid)] 1).
Proof.
  intros H. unfold pollIteration, try_catch, bind at 1. rewrite call_after, H.
  destruct e; reflexivity.
Qed.

(** X8: a request for the node listing that fails ends the polling at
    once, at whatever pass it happens: the failure is thrown as
    [handleAxiosError] reads it, with no wait and no further request. *)
Theorem listing_failure_ends_polling (pid gid : value) (w : World) (s : St)
    (r : nat) (a : Z) (s' : St) (e : exn) :
  goes_round' pid gid w (Z.to_nat (maxPollingAttempts this)) 0 s (S r) a s' ->
  net w (calls s') (GetNode pid) = Throws e ->
  pollGenerationStatus' pid gid w s
  = (Throws (ThrownReve (polling_error errorDetails this e)),
     after s' [Call (GetNode pid)] 1).
Proof.
  intros Hg He. unfold pollGenerationStatus.
  rewrite (pollLoop_goes_round _ _ _ _ _ _ _ _ _ _ _ _ Hg).
  apply pollLoop_throw. apply pollIteration_listing_failed. exact He.
Qed.

Lemma pollGenerationStatus_no_budget (pid gid : value) (w : World) (s : St) :
  maxPollingAttempts this <= 0 ->
  pollGenerationStatus' pid gid w s = (Throws (ThrownReve (timed_out 0)), s).
Proof.
  intros H. unfold pollGenerationStatus.
  replace (Z.to_nat (maxPollingAttempts this)) with O by lia. reflexivity.
Qed.
End PollerProperties.

(** ** The pipeline of one image *)

Section PipelineProperties.
Variable errorDetails : AxiosError -> string.
Variable JSON_stringify : value -> string.
Variable Buffer_base64 : value -> result string.
Variable IS_TEST_ENV : bool.
Variable this : ReveAIOptions.

Local Abbreviation enhancePrompt' := (enhancePrompt errorDetails this).
Local Abbreviation finalPromptFor' := (finalPromptFor errorDetails this).
Local Abbreviation submitJob' :=
  (submitJob errorDetails JSON_stringify IS_TEST_ENV this).
Local Abbreviation generateSingleImage' :=
  (generateSingleImage errorDetails JSON_stringify Buffer_base64 IS_TEST_ENV this).
Local Abbreviation generateImage' :=
  (generateImage errorDetails JSON_stringify Buffer_base64 IS_TEST_ENV this).

Lemma enhancePrompt_requests (prompt : string) (n : Z) (w : World) (s : St) :
  exists evs,
    trace (snd (enhancePrompt' prompt n w s)) = trace s ++ evs
    /\ forallb enhancer_traffic evs = true
    /\ (enhance_requests evs = []
        \/ exists pid, enhance_requests evs = [enhance_payload prompt n pid]).
Proof.
  rewrite enhancePrompt_run.
  destruct (getProjectId_emits errorDetails this w s) as (_ & evs1 & Ht1 & Hp1).
  pose proof (lookup_is_enhancer_traffic evs1 Hp1) as Hp1'.
  assert (Hq : enhance_requests evs1 = [])
    by (apply (no_enhance_requests project_lookup); auto).
  destruct (getProjectId errorDetails this w s) as [[pid|e] s1]; simpl in Ht1.
  - exists (evs1 ++ [Call (PostEnhance (enhance_payload prompt n pid))]).
    split; [|split].
    + unfold after. simpl. rewrite Ht1, app_assoc. reflexivity.
    + rewrite forallb_app, Hp1'. reflexivity.
    + right. exists pid. rewrite enhance_requests_app, Hq. reflexivity.
  - exists evs1. simpl. auto.
Qed.

Lemma finalPromptFor_anatomy (options : GenerateImageOptions) (ep : value)
    (w : World) (s : St) :
  exists fp s2 evs,
    finalPromptFor' options ep w s = (Returns fp, s2)
    /\ trace s2 = trace s ++ evs
    /\ forallb enhancer_traffic evs = true
    /\ (enhance_requests evs = []
        \/ exists pid, enhance_requests evs = [enhance_payload (prompt options) 1 pid])
    /\ (shouldEnhance options = false -> fp = VStr (prompt options) /\ evs = []).
Proof.
  unfold finalPromptFor.
  destruct (shouldEnhance options) eqn:Hsh.
  - destruct (truthy ep); simpl.
    + exists ep, s, []. rewrite app_nil_r. repeat split; auto; discriminate.
    + destruct (enhancePrompt_requests (prompt options) 1 w s)
        as (evs & Ht & Hp & Hq).
      destruct (enhancePrompt_returns errorDetails this (prompt options) 1 w s)
        as (vs & Hvs).
      unfold bind. destruct (enhancePrompt' (prompt options) 1 w s) as [r s1].
      simpl in Ht, Hvs. subst r.
      destruct vs as [|first rest]; eexists _, s1, evs;
        (split; [reflexivity|]); repeat split; auto; discriminate.
  - rewrite andb_false_r. exists (VStr (prompt options)), s, [].
    rewrite app_nil_r. repeat split; auto.
Qed.

(** The requests of a pipeline, in order: a look-up of the project, at
    most one enhancement, then at most one submission followed by the
    traffic of the poller. *)
Lemma pipeline_anatomy (options : GenerateImageOptions) (ep : value)
    (w : World) (s : St) :
  exists head,
    forallb enhancer_traffic head = true
    /\ (enhance_requests head = []
        \/ exists pid,
             enhance_requests head = [enhance_payload (prompt options) 1 pid])
    /\ (shouldEnhance options = false -> enhance_requests head = [])
    /\ (trace (snd (generateSingleImage' options ep w s)) = trace s ++ head
        \/ exists pid fp z gen tail,
             trace (snd (generateSingleImage' options ep w s))
             = trace s ++ head
               ++ [Call (PostGeneration pid (job_payload options fp z gen))] ++ tail
             /\ forallb poller_traffic tail = true
             /\ (polls tail <= Z.to_nat (maxPollingAttempts this))%nat
             /\ validateImageOptions (width options) (height options) (Some 1)
                = Returns tt
             /\ (shouldEnhance options = false -> fp = VStr (prompt options))).
Proof.
  rewrite generateSingleImage_steps, submitJob_steps.
  destruct (getProjectId_emits errorDetails this w s) as (_ & evs1 & Ht1 & Hp1).
  pose proof (lookup_is_enhancer_traffic evs1 Hp1) as Hp1'.
  assert (Hq1 : enhance_requests evs1 = [])
    by (apply (no_enhance_requests project_lookup); auto).
  destruct (getProjectId errorDetails this w s) as [[pid|e] s1]; simpl in Ht1.
  2:{ exists evs1. repeat split; auto. }
  destruct (validateImageOptions (width options) (height options) (Some 1))
    as [[]|e] eqn:Hval.
  2:{ exists evs1. repeat split; auto. }
  destruct (finalPromptFor_anatomy options ep w s1)
    as (fp & s2 & evs2 & -> & Ht2 & Hp2 & Hq2 & Hoff).
  destruct (freshGenerationId_run w s2) as (gen & s3 & -> & Tid & Cid & Did).
  destruct (seedFor (match seed options with Some x => x | None => -1 end) w s3)
    as [[z|e] s4] eqn:Ez.
  2:{ exfalso. unfold seedFor in Ez.
      destruct (_ =? -1); discriminate. }
  assert (Tz : trace s4 = trace s3).
  { unfold seedFor in Ez. destruct (_ =? -1); injection Ez as _ <-; reflexivity. }
  cbv zeta.
  exists (evs1 ++ evs2).
  split; [rewrite forallb_app, Hp1', Hp2; reflexivity|].
  split; [rewrite enhance_requests_app, Hq1; exact Hq2|].
  split.
  { intros Hsh. destruct (Hoff Hsh) as [_ ->]. rewrite app_nil_r. exact Hq1. }
  right.
  assert (Tpost : trace (after s4 [Call (PostGeneration pid (job_payload options fp z gen))] 1)
                  = trace s ++ (evs1 ++ evs2)
                    ++ [Call (PostGeneration pid (job_payload options fp z gen))]).
  { unfold after. simpl. rewrite Tz, Tid, Ht2, Ht1, <- !app_assoc. reflexivity. }
  set (posted := after s4 _ 1) in *.
  destruct (resp <~ net w (calls s4) _ ;; read_submission _ _ _ _ resp)
    as [[|pid' gid fp']|e].
  - exists pid, fp, z, gen, []. rewrite app_nil_r. simpl.
    repeat split; auto; try apply Nat.le_0_l; intros H; apply Hoff, H.
  - destruct (pollLoop_emits errorDetails Buffer_base64 this pid' gid
                (Z.to_nat (maxPollingAttempts this)) 0 w posted)
      as (_ & tail & Htail & Hpt).
    pose proof (pollLoop_polls errorDetails Buffer_base64 this pid' gid
                  (Z.to_nat (maxPollingAttempts this)) 0 w posted) as Hpolls.
    rewrite Htail, polls_app in Hpolls.
    exists pid, fp, z, gen, tail. unfold pollGenerationStatus.
    destruct (pollLoop errorDetails Buffer_base64 this pid' gid _ 0 w posted)
      as [[res|e] s5]; simpl in *;
      (split; [rewrite Htail, Tpost, <- !app_assoc; reflexivity|]);
      repeat split; auto; try lia; intros H; apply Hoff, H.
  - exists pid, fp, z, gen, []. rewrite app_nil_r. simpl.
    repeat split; auto; try apply Nat.le_0_l; intros H; apply Hoff, H.
Qed.
End PipelineProperties.

(** ** The batch *)



Lemma validateImageOptions_dimensions (w h b : option Z) :
  validateImageOptions w h b = Returns tt ->
  dimension_let_through w /\ dimension_let_through h.
Proof.
  unfold validateImageOptions.
  destruct (bad_dimension w) eqn:Hw; [discriminate|].
  destruct (bad_dimension h) eqn:Hh; [discriminate|].
  intros _. split; apply bad_dimension_false_iff; assumption.
Qed.

Section BatchProperties.
Variable errorDetails : AxiosError -> string.
Variable JSON_stringify : value -> string.
Variable Buffer_base64 : value -> result string.
Variable IS_TEST_ENV : bool.
Variable this : ReveAIOptions.

Local Abbreviation rethrow' := (rethrow errorDetails IS_TEST_ENV this).
Local Abbreviation submitJob' :=
  (submitJob errorDetails JSON_stringify IS_TEST_ENV this).
Local Abbreviation generateSingleImage' :=
  (generateSingleImage errorDetails JSON_stringify Buffer_base64 IS_TEST_ENV this).
Local Abbreviation job_runs' :=
  (job_runs errorDetails JSON_stringify Buffer_base64 IS_TEST_ENV this).
Local Abbreviation job_outcomes' :=
  (job_outcomes errorDetails JSON_stringify Buffer_base64 IS_TEST_ENV this).
Local Abbreviation generateImage' :=
  (generateImage errorDetails JSON_stringify Buffer_base64 IS_TEST_ENV this).

Lemma validation_error_rethrown (w h b : option Z) (e : exn) :
  validateImageOptions w h b = Throws e ->
  rethrow' e = e /\ exists r, e = ThrownReve r /\ type r = GENERATION_ERROR.
Proof.
  unfold validateImageOptions, rethrow.
  destruct (bad_dimension w);
    [intros H; injection H as <-; destruct IS_TEST_ENV; split; eauto|].
  destruct (bad_dimension h);
    [intros H; injection H as <-; destruct IS_TEST_ENV; split; eauto|].
  destruct b as [n|]; [|discriminate].
  destruct ((n <? 1) || (n >? 8)); [|discriminate].
  intros H; injection H as <-; destruct IS_TEST_ENV; split; eauto.
Qed.

Lemma batch_count_range (options : GenerateImageOptions) :
  validateImageOptions (width options) (height options) (batchSize options)
  = Returns tt ->
  (1 <= batch_count options <= 8)%nat.
Proof.
  intros Hv. pose proof (validate_batch _ _ _ Hv) as Hb.
  unfold batch_count, num_or. destruct (batchSize options) as [n|]; simpl in *.
  - destruct (Z.eqb_spec n 0); lia.
  - lia.
Qed.

Lemma job_runs_length (options : GenerateImageOptions) (env : Env) :
  validateImageOptions (width options) (height options) (batchSize options)
  = Returns tt ->
  List.length (job_runs' options env) = batch_count options.
Proof.
  intros Hv. unfold job_runs. rewrite run_jobs_length.
  rewrite (dispatched_valid errorDetails this options env Hv).
  rewrite length_map, length_seq. reflexivity.
Qed.

(** X9: a request the validator refuses is rejected before anything is
    sent: [generateImage] rejects with the validator's own error, of kind
    GENERATION_ERROR, in the test environment as well, and neither the
    orchestrator nor any pipeline has made a request or a draw. *)
Theorem invalid_request_makes_no_request (options : GenerateImageOptions) (env : Env) :
  validateImageOptions (width options) (height options) (batchSize options)
  <> Returns tt ->
  exists r,
    validateImageOptions (width options) (height options) (batchSize options)
    = Throws (ThrownReve r)
    /\ type r = GENERATION_ERROR
    /\ generateImage' options env = mkRun (Throws (ThrownReve r)) init [].
Proof.
  intros Hn. destruct (validate_cases options) as [Hv|(e & Hv)]; [contradiction|].
  destruct (validation_error_rethrown _ _ _ e Hv) as (Hre & r & -> & Hty).
  exists r. split; [exact Hv|]. split; [exact Hty|].
  rewrite (generateImage_invalid errorDetails JSON_stringify Buffer_base64
             IS_TEST_ENV this options env _ Hv), Hre.
  reflexivity.
Qed.

(** X10: [generateImage] rejects with nothing but a [ReveAIError], and
    never for a reason of its own: the error is the validator's, or it is
    what the catch block makes of the failure of one of the pipelines;
    outside the test environment that is the failure as
    [handleAxiosError] reads it, and a [ReveAIError] of a pipeline is
    reported as it is. *)
Theorem generateImage_rejections (options : GenerateImageOptions) (env : Env)
    (e : exn) :
  outcome (generateImage' options env) = Throws e ->
  exists r,
    e = ThrownReve r
    /\ (validateImageOptions (width options) (height options) (batchSize options)
        = Throws (ThrownReve r)
        \/ exists j e' st,
             nth_error (job_runs' options env) j = Some (Throws e', st)
             /\ ThrownReve r = rethrow' e'
             /\ (IS_TEST_ENV = false ->
                 r = handleAxiosError errorDetails e' "generating image"
                       (verbose this)
                 /\ forall x, e' = ThrownReve x -> r = x)).
Proof.
  destruct (validate_cases options) as [Hv|(e0 & Hv)].
  - destruct (generateImage_run errorDetails JSON_stringify Buffer_base64
                IS_TEST_ENV this options env Hv) as (Ho & _ & _).
    rewrite Ho. clear Ho. intros H.
    destruct (Promise_all (settle_order env) (job_outcomes' options env))
      as [results|e1] eqn:E; simpl in H.
    + exfalso. apply Promise_all_returns in E.
      assert (Hlen : List.length results = batch_count options).
      { rewrite <- (length_map Returns results), <- E.
        unfold job_outcomes. rewrite length_map. apply job_runs_length, Hv. }
      pose proof (batch_count_range options Hv) as Hr.
      destruct results as [|first rest]; [simpl in Hlen; lia|discriminate].
    + injection H as <-.
      apply Promise_all_throws in E. destruct E as (j & Hj).
      rewrite job_outcomes_nth in Hj.
      destruct (nth_error (job_runs' options env) j) as [[o st]|] eqn:Hrun;
        [|discriminate].
      simpl in Hj. injection Hj as ->.
      assert (Hr : exists r, rethrow' e1 = ThrownReve r
                             /\ (IS_TEST_ENV = false ->
                                 r = handleAxiosError errorDetails e1
                                       "generating image" (verbose this)
                                 /\ forall x, e1 = ThrownReve x -> r = x)).
      { unfold rethrow. destruct IS_TEST_ENV; simpl.
        - destruct (includes (exn_message e1) "Generation failed");
            [eexists; split; [reflexivity|discriminate]|].
          destruct (includes (exn_message e1) "timed out");
            eexists; (split; [reflexivity|discriminate]).
        - eexists. split; [reflexivity|]. intros _. split; [reflexivity|].
          intros x ->. reflexivity. }
      destruct Hr as (r & Hr & Hprod). exists r. split; [exact Hr|].
      right. exists j, e1, st. auto.
  - rewrite (generateImage_invalid errorDetails JSON_stringify Buffer_base64
               IS_TEST_ENV this options env e0 Hv). simpl.
    intros H. injection H as <-.
    destruct (validation_error_rethrown _ _ _ e0 Hv) as (Hre & r & -> & _).
    exists r. split; [exact Hre|]. left. exact Hv.
Qed.

Lemma job_state_anatomy (options : GenerateImageOptions) (env : Env) (j : nat)
    (st : St) :
  nth_error (job_sts (generateImage' options env)) j = Some st ->
  validateImageOptions (width options) (height options) (batchSize options)
  = Returns tt
  /\ exists head,
       forallb enhancer_traffic head = true
       /\ (enhance_requests head = []
           \/ exists pid,
                enhance_requests head = [enhance_payload (prompt options) 1 pid])
       /\ (shouldEnhance options = false -> enhance_requests head = [])
       /\ (trace st = head
           \/ exists pid fp z gen tail,
                trace st
                = head
                  ++ [Call (PostGeneration pid (job_payload options fp z gen))]
                  ++ tail
                /\ forallb poller_traffic tail = true
                /\ (polls tail <= Z.to_nat (maxPollingAttempts this))%nat
                /\ (shouldEnhance options = false -> fp = VStr (prompt options))).
Proof.
  intros Hst.
  destruct (job_sts_nth errorDetails JSON_stringify Buffer_base64 IS_TEST_ENV this
              options env j st Hst) as (Hv & _ & ->).
  split; [exact Hv|].
  destruct (pipeline_anatomy errorDetails JSON_stringify Buffer_base64 IS_TEST_ENV
              this (with_seed options (Some (job_seed (seed options) (main env) j)))
              (variant_for (bool_or (enhancePrompt_opt options) true)
                 (batch_variants errorDetails this options (main env)) j)
              (job env j) init)
    as (head & Hp & Hq & Hoff & Hcases).
  exists head. split; [exact Hp|]. split; [exact Hq|]. split; [exact Hoff|].
  destruct Hcases as [Ht|(pid & fp & z & gen & tail & Ht & Hpt & Hpolls & _ & Hfp)].
  - left. exact Ht.
  - right. exists pid, fp, z, gen, tail. auto.
Qed.

Lemma job_state_submissions (options : GenerateImageOptions) (env : Env) (j : nat)
    (st : St) :
  nth_error (job_sts (generateImage' options env)) j = Some st ->
  submissions (trace st) = []
  \/ exists fp z gen,
       submissions (trace st) = [job_payload options fp z gen]
       /\ (shouldEnhance options = false -> fp = VStr (prompt options)).
Proof.
  intros Hst.
  destruct (job_state_anatomy options env j st Hst)
    as (_ & head & Hp & _ & _ &
        [Ht|(pid & fp & z & gen & tail & Ht & Hpt & _ & Hfp)]);
    rewrite Ht, ?submissions_app;
    rewrite (no_submissions enhancer_traffic head) by (auto; reflexivity).
  - left. reflexivity.
  - right. exists fp, z, gen.
    rewrite (no_submissions poller_traffic tail) by (auto; reflexivity).
    split; [reflexivity|exact Hfp].
Qed.

Lemma job_state_enhance_requests (options : GenerateImageOptions) (env : Env)
    (j : nat) (st : St) :
  nth_error (job_sts (generateImage' options env)) j = Some st ->
  (enhance_requests (trace st) = []
   \/ exists pid,
        enhance_requests (trace st) = [enhance_payload (prompt options) 1 pid])
  /\ (shouldEnhance options = false -> enhance_requests (trace st) = []).
Proof.
  intros Hst.
  destruct (job_state_anatomy options env j st Hst)
    as (_ & head & Hp & Hq & Hoff &
        [Ht|(pid & fp & z & gen & tail & Ht & Hpt & _)]);
    rewrite Ht, ?enhance_requests_app.
  - auto.
  - rewrite (no_enhance_requests poller_traffic tail) by (auto; reflexivity).
    simpl. rewrite app_nil_r. auto.
Qed.

Lemma main_enhance_requests (options : GenerateImageOptions) (env : Env) :
  let tr := trace (main_st (generateImage' options env)) in
  (enhance_requests tr = []
   \/ exists pid,
        enhance_requests tr
        = [enhance_payload (prompt options) (num_or (batchSize options) 1) pid]
        /\ 1 < num_or (batchSize options) 1)
  /\ (shouldEnhance options = false -> enhance_requests tr = []).
Proof.
  cbv zeta. destruct (validate_cases options) as [Hv|(e & Hv)].
  - destruct (generateImage_run errorDetails JSON_stringify Buffer_base64
                IS_TEST_ENV this options env Hv) as (_ & _ & ->).
    unfold shouldEnhance.
    destruct (bool_or (enhancePrompt_opt options) true); simpl; [|auto].
    destruct (Z.gtb_spec (num_or (batchSize options) 1) 1) as [Hb|Hb]; [|auto].
    destruct (enhancePrompt_requests errorDetails this (prompt options)
                (num_or (batchSize options) 1) (main env) init)
      as (evs & -> & _ & [Hq|(pid & Hq)]); simpl; rewrite Hq.
    + split; [auto|discriminate].
    + split; [right; exists pid; auto|discriminate].
  - rewrite (generateImage_invalid errorDetails JSON_stringify Buffer_base64
               IS_TEST_ENV this options env e Hv). simpl. auto.
Qed.

Lemma job_state_polls (options : GenerateImageOptions) (env : Env) (j : nat)
    (st : St) :
  nth_error (job_sts (generateImage' options env)) j = Some st ->
  (polls (trace st) <= Z.to_nat (maxPollingAttempts this))%nat.
Proof.
  intros Hst.
  destruct (job_state_anatomy options env j st Hst)
    as (_ & head & Hp & _ & _ &
        [Ht|(pid & fp & z & gen & tail & Ht & Hpt & Hpolls & _)]);
    rewrite Ht, ?polls_app;
    rewrite (no_polls enhancer_traffic head) by (auto; reflexivity).
  - lia.
  - exact Hpolls.
Qed.

(** X11: the requests of a run are bounded: at most eight pipelines; the
    orchestrator makes at most one enhancement request; each pipeline
    makes at most one enhancement request and at most one submission, and
    asks for the node listing at most [maxPollingAttempts] times. *)
Theorem request_budget (options : GenerateImageOptions) (env : Env) :
  let run := generateImage' options env in
  (List.length (job_sts run) <= 8)%nat
  /\ (List.length (enhance_requests (trace (main_st run))) <= 1)%nat
  /\ forall j st,
       nth_error (job_sts run) j = Some st ->
       (List.length (enhance_requests (trace st)) <= 1)%nat
       /\ (List.length (submissions (trace st)) <= 1)%nat
       /\ (polls (trace st) <= Z.to_nat (maxPollingAttempts this))%nat.
Proof.
  cbv zeta. split; [|split].
  - destruct (validate_cases options) as [Hv|(e & Hv)].
    + destruct (generateImage_run errorDetails JSON_stringify Buffer_base64
                  IS_TEST_ENV this options env Hv) as (_ & -> & _).
      rewrite length_map, (job_runs_length options env Hv).
      apply (batch_count_range options Hv).
    + rewrite (generateImage_invalid errorDetails JSON_stringify Buffer_base64
                 IS_TEST_ENV this options env e Hv). simpl. lia.
  - destruct (main_enhance_requests options env) as ([->|(pid & -> & _)] & _);
      simpl; lia.
  - intros j st Hst. split; [|split].
    + destruct (job_state_enhance_requests options env j st Hst)
        as ([->|(pid & ->)] & _); simpl; lia.
    + destruct (job_state_submissions options env j st Hst)
        as [->|(fp & z & gen & -> & _)]; simpl; lia.
    + apply (job_state_polls options env j st Hst).
Qed.

Lemma dimension_sent_ok (d : option Z) :
  dimension_let_through d -> dimension_ok (num_or d 1024).
Proof.
  unfold dimension_let_through, num_or. destruct d as [x|].
  - intros [->|H]; [simpl; unfold dimension_ok; split; [lia|reflexivity]|].
    destruct (Z.eqb_spec x 0) as [->|_]; [|exact H].
    destruct H as [H _]. lia.
  - intros _. unfold dimension_ok. split; [lia|reflexivity].
Qed.

(** X12: every submission of a run is well formed.  Its width and height
    are those of the request, or 1024 for one that is omitted or zero, and
    are multiples of 8 within [384,1024]; the aspect ratio is
    width:height; instruction and unexpanded prompt are the prompt of the
    request; negative caption and model are those of the request or their
    defaults. *)
Theorem submitted_payload_is_well_formed (options : GenerateImageOptions) (env : Env)
    (j : nat) (st : St) (p : GenerationPayload) :
  nth_error (job_sts (generateImage' options env)) j = Some st ->
  In p (submissions (trace st)) ->
  pl_width p = num_or (width options) 1024
  /\ pl_height p = num_or (height options) 1024
  /\ dimension_ok (pl_width p) /\ dimension_ok (pl_height p)
  /\ aspectRatio p
     = (string_of_Z (pl_width p) ++ ":" ++ string_of_Z (pl_height p))%string
  /\ instruction p = prompt options
  /\ unexpandedPrompt p = prompt options
  /\ optimizeEnabled p = bool_or (enhancePrompt_opt options) true
  /\ negative_caption p = str_or (negativePrompt options) EmptyString
  /\ inference_model p
     = str_or (model options) "text2image_v1/prod/20250325-2246".
Proof.
  intros Hst Hin.
  destruct (job_state_anatomy options env j st Hst) as (Hv & _).
  apply validateImageOptions_dimensions in Hv. destruct Hv as [Hw Hh].
  destruct (job_state_submissions options env j st Hst)
    as [E|(fp & z & gen & E & _)]; rewrite E in Hin; [destruct Hin|].
  destruct Hin as [<-|[]]. simpl.
  repeat split; try reflexivity; apply dimension_sent_ok; assumption.
Qed.

Lemma flat_map_nil {A B} (f : A -> list B) (l : list A) :
  (forall x, In x l -> f x = []) -> flat_map f l = [].
Proof.
  induction l as [|x l IH]; intros H; [reflexivity|].
  simpl. rewrite (H x (or_introl eq_refl)), IH; [reflexivity|].
  intros y Hy. apply H. right. exact Hy.
Qed.

Lemma resolved_run (options : GenerateImageOptions) (env : Env)
    (r : GenerateImageResult) :
  outcome (generateImage' options env) = Returns r ->
  validateImageOptions (width options) (height options) (batchSize options)
  = Returns tt
  /\ exists results,
       job_outcomes' options env = map Returns results
       /\ assemble options env results = Returns r.
Proof.
  intros H. destruct (validate_cases options) as [Hv|(e & Hv)].
  - split; [exact Hv|].
    destruct (generateImage_run errorDetails JSON_stringify Buffer_base64
                IS_TEST_ENV this options env Hv) as (Ho & _ & _).
    rewrite Ho in H. clear Ho.
    destruct (Promise_all (settle_order env) (job_outcomes' options env))
      as [results|e] eqn:E; simpl in H; [|discriminate].
    apply Promise_all_returns in E. exists results. split; [exact E|].
    destruct (assemble options env results); [congruence|discriminate].
  - rewrite (generateImage_invalid errorDetails JSON_stringify Buffer_base64
               IS_TEST_ENV this options env e Hv) in H. discriminate.
Qed.

(** X13: with enhancement switched off ([enhancePrompt: false]) a run
    makes no enhancement request at all, every submission carries the
    prompt of the request as its caption, and the result reports no
    enhanced prompt. *)
Theorem no_enhancement_when_switched_off (options : GenerateImageOptions) (env : Env) :
  enhancePrompt_opt options = Some false ->
  let run := generateImage' options env in
  all_enhance_requests run = []
  /\ (forall j st p,
        nth_error (job_sts run) j = Some st ->
        In p (submissions (trace st)) ->
        caption p = VStr (prompt options) /\ optimizeEnabled p = false)
  /\ (forall r,
        outcome run = Returns r ->
        res_enhancedPrompt r = None /\ res_enhancedPrompts r = None).
Proof.
  intros Hoff. cbv zeta.
  assert (Hsh : shouldEnhance options = false)
    by (unfold shouldEnhance; rewrite Hoff; reflexivity).
  split; [|split].
  - unfold all_enhance_requests.
    rewrite (proj2 (main_enhance_requests options env) Hsh). simpl.
    apply flat_map_nil. intros st Hin.
    apply In_nth_error in Hin. destruct Hin as (j & Hj).
    apply (proj2 (job_state_enhance_requests options env j st Hj) Hsh).
  - intros j st p Hst Hin.
    destruct (job_state_submissions options env j st Hst)
      as [E|(fp & z & gen & E & Hfp)]; rewrite E in Hin; [destruct Hin|].
    destruct Hin as [<-|[]]. simpl. rewrite Hoff. auto.
  - intros r Hr. destruct (resolved_run options env r Hr) as (_ & results & _ & Ha).
    unfold assemble in Ha. rewrite Hoff in Ha.
    destruct results; [discriminate|]. injection Ha as <-. auto.
Qed.





Lemma stub_only_in_tests (options : GenerateImageOptions) (ep : value)
    (w : World) (s : St) :
  fst (submitJob' options ep w s) = Returns TestStub -> IS_TEST_ENV = true.
Proof.
  rewrite submitJob_steps.
  destruct (getProjectId errorDetails this w s) as [[pid|e] s1]; [|discriminate].
  destruct (validateImageOptions (width options) (height options) (Some 1))
    as [[]|e]; [|discriminate].
  destruct (finalPromptFor errorDetails this options ep w s1) as [[fp|e] s2];
    [|discriminate].
  destruct (freshGenerationId w s2) as [[gen|e] s3]; [|discriminate].
  destruct (seedFor _ w s3) as [[z|e] s4]; [|discriminate].
  cbv zeta. simpl.
  destruct (net w (calls s4) _) as [resp|e]; [|discriminate].
  simpl. unfold read_submission.
  destruct IS_TEST_ENV; [reflexivity|]. simpl.
  destruct (extractGenerationId (data resp)) as [gid|e]; [|discriminate].
  simpl. destruct (negb (truthy gid)); discriminate.
Qed.

Lemma pipeline_outcome (options : GenerateImageOptions) (ep : value)
    (w : World) (s : St) (res : SingleResult) :
  fst (generateSingleImage' options ep w s) = Returns res ->
  (sr_enhancedPrompt res = VUndefined
   \/ (shouldEnhance options = true
       /\ strict_eq (sr_enhancedPrompt res) (VStr (prompt options)) = false))
  /\ (IS_TEST_ENV = false ->
      (exists url, imageUrl res = VStr url /\ is_data_url url)
      /\ truthy (sr_seed res) = true).
Proof.
  rewrite generateSingleImage_steps.
  pose proof (stub_only_in_tests options ep w s) as Hstub.
  destruct (submitJob' options ep w s) as [[[|pid gid fp]|e] s1]; simpl.
  - intros H. injection H as <-. split; [left; reflexivity|].
    intros Hprod. rewrite Hstub in Hprod by reflexivity. discriminate.
  - pose proof (pollLoop_postcondition errorDetails Buffer_base64 this pid gid
                  (Z.to_nat (maxPollingAttempts this)) 0 w s1) as Hpost.
    unfold pollGenerationStatus.
    destruct (pollLoop errorDetails Buffer_base64 this pid gid _ 0 w s1)
      as [[pres|e] s2]; simpl in *; [|discriminate].
    intros H. injection H as <-. unfold single_result. simpl. split.
    + destruct (shouldEnhance options) eqn:Hsh; simpl; [|left; reflexivity].
      destruct (strict_eq fp (VStr (prompt options))) eqn:Heq; simpl; auto.
    + intros _. destruct Hpost as ((url & Hu & Hd) & Hseed).
      rewrite Hu. eauto.
  - discriminate.
Qed.

Lemma pipeline_without_budget (options : GenerateImageOptions) (ep : value)
    (w : World) (s : St) :
  IS_TEST_ENV = false ->
  maxPollingAttempts this <= 0 ->
  exists e, fst (generateSingleImage' options ep w s) = Throws e.
Proof.
  intros Hprod Hmax. rewrite generateSingleImage_steps.
  pose proof (stub_only_in_tests options ep w s) as Hstub.
  destruct (submitJob' options ep w s) as [[[|pid gid fp]|e] s1]; simpl.
  - rewrite Hstub in Hprod by reflexivity. discriminate.
  - rewrite (pollGenerationStatus_no_budget errorDetails Buffer_base64 this
               pid gid w s1 Hmax). eexists. reflexivity.
  - eexists. reflexivity.
Qed.

Lemma job_run_is_a_pipeline (options : GenerateImageOptions) (env : Env) (j : nat)
    (o : result SingleResult) (st : St) :
  nth_error (job_runs' options env) j = Some (o, st) ->
  exists sd ep,
    (o, st)
    = generateSingleImage' (with_seed options sd) ep (job env j) init.
Proof.
  rewrite job_runs_nth. intros H.
  destruct (nth_error (dispatched errorDetails this options env) j)
    as [spec|] eqn:Hd; [|discriminate].
  pose proof (dispatched_some_valid errorDetails this options env j spec Hd) as Hv.
  rewrite (dispatched_valid errorDetails this options env Hv), nth_error_map in Hd.
  destruct (nth_error (seq 0 (batch_count options)) j) as [k|]; [|discriminate].
  simpl in Hd. injection Hd as <-. simpl in H. injection H as H.
  eexists _, _. symmetry. exact H.
Qed.

Lemma resolved_results (options : GenerateImageOptions) (env : Env)
    (r : GenerateImageResult) :
  outcome (generateImage' options env) = Returns r ->
  exists results,
    assemble options env results = Returns r
    /\ forall res, In res results ->
         (sr_enhancedPrompt res = VUndefined
          \/ (shouldEnhance options = true
              /\ strict_eq (sr_enhancedPrompt res) (VStr (prompt options)) = false))
         /\ (IS_TEST_ENV = false ->
             (exists url, imageUrl res = VStr url /\ is_data_url url)
             /\ truthy (sr_seed res) = true).
Proof.
  intros Hr. destruct (resolved_run options env r Hr) as (_ & results & E & Ha).
  exists results. split; [exact Ha|].
  intros res Hin. apply In_nth_error in Hin. destruct Hin as (j & Hj).
  assert (Ho : nth_error (job_outcomes' options env) j = Some (Returns res))
    by (rewrite E, nth_error_map, Hj; reflexivity).
  rewrite job_outcomes_nth in Ho.
  destruct (nth_error (job_runs' options env) j) as [[o st]|] eqn:Hrun;
    [|discriminate].
  simpl in Ho. injection Ho as ->.
  destruct (job_run_is_a_pipeline options env j _ st Hrun) as (sd & ep & Heq).
  apply (pipeline_outcome (with_seed options sd) ep (job env j) init res).
  rewrite <- Heq. reflexivity.
Qed.


(** X18: outside the test environment a resolved [generateImage] reports
    data URLs only, each a string, and a truthy seed. *)
Theorem production_images_are_data_urls (options : GenerateImageOptions)
    (env : Env) (r : GenerateImageResult) :
  IS_TEST_ENV = false ->
  outcome (generateImage' options env) = Returns r ->
  (forall u, In u (imageUrls r) -> exists url, u = VStr url /\ is_data_url url)
  /\ truthy (res_seed r) = true.
Proof.
  intros Hprod Hr.
  destruct (resolved_results options env r Hr) as (results & Ha & Hres).
  destruct (assemble_returns options env results r Ha)
    as (Hu & first & rest & Eres & Hseed).
  split.
  - intros u Hin. rewrite Hu in Hin. apply in_map_iff in Hin.
    destruct Hin as (res & <- & Hin).
    apply (proj2 (Hres res Hin) Hprod).
  - rewrite Hseed. apply (proj2 (Hres first ltac:(rewrite Eres; left; reflexivity))
                            Hprod).
Qed.

(** X19: outside the test environment, a client whose budget of polling
    attempts is zero or negative never produces an image: every pipeline
    of a valid request fails without asking for the node listing once,
    and [generateImage] rejects. *)
Theorem no_budget_no_image (options : GenerateImageOptions) (env : Env) :
  IS_TEST_ENV = false ->
  maxPollingAttempts this <= 0 ->
  validateImageOptions (width options) (height options) (batchSize options)
  = Returns tt ->
  (exists e, outcome (generateImage' options env) = Throws e)
  /\ forall j o st,
       nth_error (job_runs' options env) j = Some (o, st) ->
       (exists e, o = Throws e) /\ polls (trace st) = 0%nat.
Proof.
  intros Hprod Hmax Hv.
  assert (Hjobs : forall j o st,
            nth_error (job_runs' options env) j = Some (o, st) ->
            (exists e, o = Throws e) /\ polls (trace st) = 0%nat).
  { intros j o st Hrun. split.
    - destruct (job_run_is_a_pipeline options env j o st Hrun) as (sd & ep & Heq).
      destruct (pipeline_without_budget (with_seed options sd) ep (job env j) init
                  Hprod Hmax) as (e & He).
      exists e. rewrite <- Heq in He. exact He.
    - destruct (generateImage_run errorDetails JSON_stringify Buffer_base64
                  IS_TEST_ENV this options env Hv) as (_ & Hsts & _).
      assert (Hst : nth_error (job_sts (generateImage' options env)) j = Some st)
        by (rewrite Hsts, nth_error_map, Hrun; reflexivity).
      pose proof (job_state_polls options env j st Hst). lia. }
  split; [|exact Hjobs].
  pose proof (job_runs_length options env Hv) as Hlen.
  pose proof (batch_count_range options Hv) as Hcount.
  destruct (nth_error (job_runs' options env) 0) as [[o st]|] eqn:Hrun.
  2:{ apply nth_error_None in Hrun. lia. }
  destruct (proj1 (Hjobs 0%nat o st Hrun)) as (e & ->).
  assert (Ho : nth_error (job_outcomes' options env) 0 = Some (Throws e))
    by (rewrite job_outcomes_nth, Hrun; reflexivity).
  destruct (Promise_all_one_failure (settle_order env) _ 0%nat e Ho)
    as (j & e' & _ & E).
  destruct (generateImage_run errorDetails JSON_stringify Buffer_base64
              IS_TEST_ENV this options env Hv) as (-> & _ & _).
  rewrite E. simpl. eauto.
Qed.
End BatchProperties.

(** ** The reply to a submission *)

(** X20: the generation id of a submission reply is [create.node.id] when
    that is truthy, whatever [generation_id] says; else [generation_id]
    when that is truthy; else null.  Reading it throws exactly when the
    reply has no body.  The chain of [&&] of the code reads what the
    optional chain [create?.node?.id] reads. *)
Theorem extractGenerationId_precedence (d : value) :
  (is_nullish d = false ->
   extractGenerationId d
   = Returns (if truthy (new_format_id d) then new_format_id d
              else if truthy (old_format_id d) then old_format_id d
              else VNull))
  /\ (is_nullish d = true -> exists e, extractGenerationId d = Throws e).
Proof.
  split.
  - intros Hd. unfold extractGenerationId, new_format_id, old_format_id.
    rewrite (member_non_nullish d "create" Hd). simpl.
    destruct (and_member_spec (member_opt d "create") "node")
      as (node & -> & Hn & Hnv). simpl.
    destruct (and_member_spec node "id") as (id & -> & Hi & Hiv). simpl.
    assert (Hsame : truthy id
                    = truthy (member_opt
                                (member_opt (member_opt d "create") "node") "id")
                      /\ (truthy id = true ->
                          id = member_opt
                                 (member_opt (member_opt d "create") "node") "id")).
    { destruct (truthy node) eqn:Et.
      - rewrite <- (Hnv eq_refl). auto.
      - rewrite (falsy_member_opt node "id" Et) in Hi.
        rewrite (falsy_member_opt (member_opt (member_opt d "create") "node") "id")
          by congruence.
        split; [exact Hi|]. intros H. rewrite H in Hi. discriminate. }
    destruct Hsame as [Ht Hv]. rewrite <- Ht.
    destruct (truthy id) eqn:Eid.
    + rewrite (Hv eq_refl). reflexivity.
    + rewrite (member_non_nullish d "generation_id" Hd). simpl.
      destruct (truthy (member_opt d "generation_id")); reflexivity.
  - intros Hd. destruct d; try discriminate; eexists; reflexivity.
Qed.

(** ** A listing with a null entry *)

Lemma find_generation_null_entry (pre rest : list value) (item gid : value) :
  truthy gid = true ->
  well_formed pre = true ->
  status_entry pre gid = None ->
  is_nullish item = true ->
  exists msg, find_generation (pre ++ item :: rest) gid = Throws (ThrownError msg).
Proof.
  intros Hg. induction pre as [|x pre IH]; simpl; intros Hwf Hnone Hnull.
  - destruct item; try discriminate; eexists; reflexivity.
  - apply andb_true_iff in Hwf as [Hx Hpre]. apply negb_true_iff in Hx.
    unfold status_entry in Hnone. simpl in Hnone.
    destruct (strict_eq (item_node_id x) gid) eqn:Eq; [discriminate|].
    rewrite (member_non_nullish x "node" Hx). simpl.
    unfold item_node_id in Eq.
    destruct (truthy (member_opt x "node")) eqn:Hn.
    + rewrite (member_non_nullish _ "id" (truthy_non_nullish _ Hn)). simpl.
      rewrite Eq. apply IH; assumption.
    + simpl. apply IH; assumption.
Qed.

Section PollerEdges.
Variable errorDetails : AxiosError -> string.
Variable Buffer_base64 : value -> result string.
Variable this : ReveAIOptions.

Local Abbreviation pollIteration' := (pollIteration errorDetails Buffer_base64 this).
Local Abbreviation pollGenerationStatus' :=
  (pollGenerationStatus errorDetails Buffer_base64 this).
Local Abbreviation goes_round' := (goes_round errorDetails Buffer_base64 this).

Lemma pollIteration_null_entry (pid gid : value) (w : World) (s : St)
    (pre rest : list value) (item : value) :
  truthy gid = true ->
  listing (net w (calls s) (GetNode pid)) = Some (pre ++ item :: rest) ->
  well_formed pre = true ->
  status_entry pre gid = None ->
  is_nullish item = true ->
  exists r,
    pollIteration' pid gid w s
    = (Throws (ThrownReve r), after s [Call (GetNode pid)] 1)
    /\ type r = UNKNOWN_ERROR.
Proof.
  intros Hg Hl Hwf Hnone Hnull.
  destruct (find_generation_null_entry pre rest item gid Hg Hwf Hnone Hnull)
    as (msg & Hfind).
  unfold pollIteration, try_catch, bind. rewrite call_after.
  destruct (net w (calls s) (GetNode pid)) as [resp|e]; [|discriminate].
  unfold lift at 1. rewrite (listing_and_member resp _ Hl).
  unfold lift at 1. rewrite Hfind.
  eexists. split; reflexivity.
Qed.

(** X21: a null or undefined entry that comes before the entry of the job
    in the node listing ends the polling at once, at whatever pass it
    happens, with an UNKNOWN_ERROR: no wait, no further request. *)
Theorem null_entry_ends_polling (pid gid : value) (w : World) (s : St)
    (n : nat) (a : Z) (s' : St) (pre rest : list value) (item : value) :
  truthy gid = true ->
  goes_round' pid gid w (Z.to_nat (maxPollingAttempts this)) 0 s (S n) a s' ->
  listing (net w (calls s') (GetNode pid)) = Some (pre ++ item :: rest) ->
  well_formed pre = true ->
  status_entry pre gid = None ->
  is_nullish item = true ->
  exists r,
    pollGenerationStatus' pid gid w s
    = (Throws (ThrownReve r), after s' [Call (GetNode pid)] 1)
    /\ type r = UNKNOWN_ERROR.
Proof.
  intros Hg Hround Hl Hwf Hnone Hnull.
  destruct (pollIteration_null_entry pid gid w s' pre rest item
              Hg Hl Hwf Hnone Hnull) as (r & Hit & Hty).
  exists r. split; [|exact Hty].
  unfold pollGenerationStatus.
  rewrite (pollLoop_goes_round _ _ _ _ _ _ _ _ _ _ _ _ Hround).
  apply pollLoop_throw. exact Hit.
Qed.

(** X22: when a pass finds the job listed with an output and the image is
    fetched, the poller resolves at that pass, after these two requests
    and without waiting, with one data URL: the base64 text of the body
    under the content type of the reply, or under image/webp when the
    reply declares none; the seed is the one the service echoes, when
    that is truthy. *)
Theorem completed_job_resolves (pid gid : value) (w : World) (s : St)
    (n : nat) (a : Z) (s' : St) (entry : value) (img : response) (b64 : string) :
  truthy gid = true ->
  goes_round' pid gid w (Z.to_nat (maxPollingAttempts this)) 0 s (S n) a s' ->
  job_entry (net w (calls s') (GetNode pid)) gid = Some entry ->
  truthy (entry_field entry "output") = true ->
  net w (S (calls s')) (GetImage pid (entry_field entry "output")) = Returns img ->
  is_nullish (headers img) = false ->
  Buffer_base64 (data img) = Returns b64 ->
  let mime := or_else (member_opt (headers img) "content-type") (VStr "image/webp") in
  let url := ("data:" ++ to_string mime ++ ";base64," ++ b64)%string in
  pollGenerationStatus' pid gid w s
  = (Returns (mkPollResult [url] (or_else (echoed_seed entry) (VNum (-1)))),
     after s' [Call (GetNode pid);
               Call (GetImage pid (entry_field entry "output"))] 2)
  /\ (truthy (member_opt (headers img) "content-type") = false ->
      url = ("data:image/webp;base64," ++ b64)%string)
  /\ (truthy (echoed_seed entry) = true ->
      or_else (echoed_seed entry) (VNum (-1)) = echoed_seed entry).
Proof.
  intros Hg Hround Hentry Hout Himg Hhead Hb64 mime url.
  split; [|split].
  - unfold pollGenerationStatus.
    rewrite (pollLoop_goes_round _ _ _ _ _ _ _ _ _ _ _ _ Hround).
    apply pollLoop_return.
    apply (pollIteration_fetched errorDetails Buffer_base64 this pid gid entry
             w s' url Hg Hentry Hout).
    rewrite Himg. unfold fetched, dataUrlOf. simpl. rewrite Hb64. simpl.
    rewrite (member_non_nullish (headers img) "content-type" Hhead). reflexivity.
  - intros Hnone. unfold url, mime, or_else. rewrite Hnone. reflexivity.
  - intros Hseed. unfold or_else. rewrite Hseed. reflexivity.
Qed.
End PollerEdges.

(** ** The further statements at work on the small service *)


(** X6 at work: no project id configured, the service lists "p-1". *)
Lemma getProjectId_outcomes_witness :
  fst (getProjectId no_details unconfigured (world_of one_project half) init)
  = Returns (VStr "p-1").
Proof.
  destruct (getProjectId_outcomes no_details unconfigured
              (world_of one_project half) init (or_introl eq_refl)) as (H & _).
  apply (H (mkResponse (VArr [VObj [("id", VStr "p-1")]])
              (VObj [("content-type", VStr "image/webp")]))
           (VObj [("id", VStr "p-1")]) []); reflexivity.
Defined.

(** X8 at work: the first request for the listing meets a network error. *)
Lemma listing_failure_ends_polling_witness :
  exists r,
    pollGenerationStatus no_details base64_stub client_cfg (VStr "proj") (VStr "gen-1")
      (world_of listing_down half) init
    = (Throws (ThrownReve r), after init [Call (GetNode (VStr "proj"))] 1)
    /\ type r = REQUEST_ERROR.
Proof.
  eexists. split.
  - apply (listing_failure_ends_polling no_details base64_stub client_cfg
             (VStr "proj") (VStr "gen-1") (world_of listing_down half) init
             2 0 init
             (ThrownAxios (mkAxiosError "Network Error" None None VUndefined))).
    + apply round_here.
    + reflexivity.
  - reflexivity.
Defined.

(** X9 at work: a batch of nine. *)
Lemma invalid_request_makes_no_request_witness :
  exists r,
    type r = GENERATION_ERROR
    /\ run_of false (request_of (Some 9) None None) (env_of happy half half [0%nat])
       = mkRun (Throws (ThrownReve r)) init [].
Proof.
  destruct (invalid_request_makes_no_request no_details stringify_stub base64_stub
              false client_cfg (request_of (Some 9) None None)
              (env_of happy half half [0%nat]))
    as (r & _ & Hty & Hrun).
  - discriminate.
  - exists r. split; [exact Hty|exact Hrun].
Defined.

(** X10 at work: the listing cannot be had; the batch rejects with the
    error of its pipeline. *)
Lemma generateImage_rejections_witness :
  exists r,
    outcome (run_of false (request_of None None (Some false))
               (env_of listing_down half half [0%nat]))
    = Throws (ThrownReve r)
    /\ type r = REQUEST_ERROR.
Proof.
  set (options := request_of None None (Some false)).
  set (env := env_of listing_down half half [0%nat]).
  assert (Hout : outcome (run_of false options env)
                 = Throws (ThrownReve
                     (polling_error no_details client_cfg
                        (ThrownAxios (mkAxiosError "Network Error" None None
                                        VUndefined)))))
    by (vm_compute; reflexivity).
  destruct (generateImage_rejections no_details stringify_stub base64_stub
              false client_cfg options env _ Hout) as (r & Hr & _).
  exists r. split; [rewrite Hout, Hr; reflexivity|].
  injection Hr as <-. reflexivity.
Defined.

(** X12 at work: a width of 0 is submitted as 1024. *)
Lemma submitted_payload_is_well_formed_witness :
  let options := plain_options (Some 0) (Some 512) in
  let env := env_of happy half half [0%nat] in
  let p := job_payload options (VStr "v1") 5000000 "node-1" in
  In p (submissions (trace (nth 0 (job_sts (run_of false options env)) init)))
  /\ pl_width p = 1024 /\ pl_height p = 512
  /\ dimension_ok (pl_width p) /\ dimension_ok (pl_height p).
Proof.
  intros options env p.
  assert (Hin : In p (submissions
                        (trace (nth 0 (job_sts (run_of false options env)) init))))
    by (vm_compute; left; reflexivity).
  split; [exact Hin|].
  destruct (submitted_payload_is_well_formed
              no_details stringify_stub base64_stub false client_cfg
              options env 0 (nth 0 (job_sts (run_of false options env)) init) p)
    as (Hw & Hh & Hwok & Hhok & _).
  - vm_compute. reflexivity.
  - exact Hin.
  - split; [exact Hw|]. split; [exact Hh|]. split; [exact Hwok|exact Hhok].
Defined.

(** X13 at work: a batch of two with enhancement off. *)
Lemma no_enhancement_when_switched_off_witness :
  all_enhance_requests (run_of false (request_of (Some 2) None (Some false))
                          (env_of happy half half [0; 1]%nat))
  = [].
Proof.
  apply (proj1 (no_enhancement_when_switched_off
                  no_details stringify_stub base64_stub false client_cfg
                  (request_of (Some 2) None (Some false))
                  (env_of happy half half [0; 1]%nat) eq_refl)).
Defined.




(** X18 at work: the same batch. *)
Lemma production_images_are_data_urls_witness :
  exists r,
    outcome (run_of false (request_of (Some 2) None None)
               (env_of happy half half [1; 0]%nat)) = Returns r
    /\ truthy (res_seed r) = true.
Proof.
  eexists. split; [vm_compute; reflexivity|].
  apply (proj2 (production_images_are_data_urls
                  no_details stringify_stub base64_stub false client_cfg
                  (request_of (Some 2) None None) (env_of happy half half [1; 0]%nat)
                  _ eq_refl ltac:(vm_compute; reflexivity))).
Defined.

(** X19 at work: no attempt to spend, on a service that would deliver. *)
Lemma no_budget_no_image_witness :
  exists e,
    outcome (generateImage no_details stringify_stub base64_stub false no_budget_cfg
               (request_of None None (Some false))
               (env_of happy half half [0%nat]))
    = Throws e.
Proof.
  apply (proj1 (no_budget_no_image no_details stringify_stub base64_stub false
                  no_budget_cfg (request_of None None (Some false))
                  (env_of happy half half [0%nat]) eq_refl
                  ltac:(simpl; lia) eq_refl)).
Defined.

(** X21 at work: the listing opens with null. *)
Lemma null_entry_ends_polling_witness :
  exists r,
    pollGenerationStatus no_details base64_stub client_cfg (VStr "proj") (VStr "gen-1")
      (world_of null_listed half) init
    = (Throws (ThrownReve r), after init [Call (GetNode (VStr "proj"))] 1)
    /\ type r = UNKNOWN_ERROR.
Proof.
  apply (null_entry_ends_polling no_details base64_stub client_cfg
           (VStr "proj") (VStr "gen-1") (world_of null_listed half) init
           2 0 init [] [entry_of done_fields] VNull).
  - reflexivity.
  - apply round_here.
  - reflexivity.
  - reflexivity.
  - reflexivity.
  - reflexivity.
Defined.

(** X22 at work: the job is done at the first pass. *)
Lemma completed_job_resolves_witness :
  pollGenerationStatus no_details base64_stub client_cfg (VStr "proj") (VStr "gen-1")
    (world_of happy half) init
  = (Returns (mkPollResult ["data:image/webp;base64,AAAA"] (VNum 12345)),
     after init [Call (GetNode (VStr "proj"));
                 Call (GetImage (VStr "proj") (VStr "img-1"))] 2).
Proof.
  apply (proj1 (completed_job_resolves no_details base64_stub client_cfg
                  (VStr "proj") (VStr "gen-1") (world_of happy half) init
                  2 0 init (entry_of done_fields) image_reply "AAAA"
                  eq_refl
                  (round_here no_details base64_stub client_cfg
                     (VStr "proj") (VStr "gen-1") (world_of happy half) 3 0 init)
                  eq_refl eq_refl eq_refl eq_refl eq_refl)).
Defined.
